(* ===== verification/_CoqProject ===== *)
-Q . S2P
Prelude.v
Paging.v
Fsys.v
FsysSpec.v
FsysImage.v
State.v
Pic.v
Terminal.v
Keyboard.v
Rtc.v
Lifecycle.v
Exceptions.v
FileDesc.v
Scheduler.v
Processes.v
Descriptors.v
