(* ===== verification/Prelude.v ===== *)
(** * A verification development of the teaching kernel in src/student-distrib

    The kernel is a 32-bit x86 kernel with paging, a read-only file system,
    three terminals multiplexed by a timer-driven round-robin scheduler, a
    virtualised real-time clock and ten system calls.  This development is a
    shallow embedding of it: every global of the C code is a field of one
    record [kstate] (State.v), every C function that changes it is a Rocq
    function from a state to a new state and a control outcome [ctl]
    (return value, [iret] into user code, a context switch, a blocking
    wait, or [Fault] for undefined behaviour and calls through NULL), and
    every function is executable, so the witnesses run it by [vm_compute].

    ** Files, in dependency order
    - Prelude.v (this file): the notations of [kernel_scope] (the C bit
      operators on [Z]), machine integers ([u32], [u8] with their
      wrap-around, [CHECK_FLAG], [set_flag], [clear_flag] of lib.h), the
      first-fit bit scan shared by execute and open, the hint databases
      [kernel] and [kernel_rw], and the tactic [concrete].
    - Paging.v: page.c and the entry structs of x86_desc.h.  The page
      directory and the two page tables are gmaps of bit-field entries, the
      TLB is the snapshot taken by [flush_tlb], and [translate] is the
      two-level walk of the MMU.  Operations: [init_Paging],
      [set_user_page], [set_video_mem_page], [flush_tlb].
    - Fsys.v: drivers/fsys.c on an immutable disk image: the dentry lookups,
      [read_data] over the flat data region, [file_read], [directory_read]
      and the trivial open/close/write entries of the jump tables.
    - FsysSpec.v: the abstract view of a file as the concatenation of its
      data blocks ([file_bytes]), against which [read_data] and
      [file_read] are proved (a functional refinement).
    - FsysImage.v: [init_fsys]: the boot module as a list of bytes, the
      boot block, dentry and inode structs of fsys.h read from it
      little-endian at the offsets the C pointers use, and the layout
      written the other way round ([disk_of]).
    - State.v: the global state (process.h PCBs, the terminal array of
      terminal.c, the PIT and RTC counters, the TSS [esp0]) and its setters.
    - Pic.v: drivers/i8259.c: [i8259_init], [enable_irq], [disable_irq]
      and [send_eoi] over the mask globals, the two controllers' mask
      registers and the bytes written to their ports, with the constants of
      i8259.h (not in the repository) as parameters.
    - Terminal.v: drivers/terminal.c ([set_active_terminal],
      [set_shown_terminal], [terminal_read], [terminal_write]) and the
      keyboard buffer reset [setIdx] of keyboard.c.
    - Keyboard.v: [Keyboard_Handler] of drivers/keyboard.c (the modifier
      globals [shiftcaps] and [keycode] in a record [kbd_t], the two
      scan-code tables, the line-buffer stores, Ctrl+L, alt+F-key) and
      [backspace] of terminal.c, in a Section whose parameters are lib.c's
      [putc] and the screen width, which are not in the repository.
    - Rtc.v: drivers/rtc.c ([init_RTC], [RTC_Handler], [rtc_open],
      [rtc_read], [rtc_write], [rtc_close]).
    - Lifecycle.v: [execute] and [halt] of syscall.c and [restore_parent]
      of process.c, in a Section over the disk image.
    - Exceptions.v: intr.c: [populate_IDT] over the packed gate struct of
      x86_desc.h (its two macros and the bit layout the processor reads,
      with the wrappers' link-time addresses as a parameter) and the twenty
      exception handlers, which either halt the program through [halt] with
      the exception flag raised or spin.
    - FileDesc.v: the descriptor calls of syscall.c ([read], [write],
      [open], [close], [getargs], [vidmap], [set_handler], [sigreturn]), a
      step relation [fd_step] over them and the descriptor-table invariant
      [fd_table_ok].
    - Scheduler.v: [PIT_Handler] of drivers/pit.c, and the boot state
      (kernel.c is not under src/ and is modelled from the spec).
    - Processes.v: the kernel as a transition relation [proc_step] on its
      state (successful and failing [execute], [halt] of a non-base
      process by the system call or by a halting exception, a timer tick
      after the bootstrap) and the invariant [proc_inv] over the process
      globals, the PCBs, [tss.esp0] and the terminal records.
    - Descriptors.v: the GDT segment descriptor of x86_desc.h (Module
      [Gdt]: the packed struct, [SET_LDT_PARAMS], [SET_TSS_PARAMS] and the
      bit layout the processor reads, over a generic [pack] of bit
      fields), [SAVE_REG] and [RESTORE_REG] of asm_wrapper.h (Module
      [AsmWrapper]: pushes and pops on a stack of words),
      [SET_IDT_ENTRY], the packed [tss_t] (Module [Tss]) and [x86_desc_t]
      with the [ltr], [lidt] and [lldt] macros as loads of the
      descriptor-table registers (Module [DescReg]).

    ** How the parts interact
    [execute] (Lifecycle) calls [set_user_page] (Paging), the file system
    (Fsys) and the terminal record (State); [halt] undoes it through
    [restore_parent].  The descriptor calls (FileDesc) dispatch through a
    slot's jump table into Fsys, Rtc or Terminal.  [PIT_Handler]
    (Scheduler) launches the three base shells through [execute] and then
    rotates the active terminal with [set_active_terminal] (Terminal), which
    remaps the user window and the video window (Paging).  [RTC_Handler]
    raises the per-terminal flags that [rtc_read] waits on, and
    [Keyboard_Handler] fills the shown terminal's line buffer and raises
    the flag that [terminal_read] waits on.

    ** Theorems
    - Process table: along every run of [proc_step] the processes form a
      forest rooted at the base shells: the running process is a live
      leaf owning [tss.esp0], every other live process records its pid,
      its live parent and the parent's kernel stack, no process has two
      live children, each background terminal saved a live leaf with its
      PCB and kernel stack, and the three terminals run three different
      processes.  The state [booted] after the three bootstrap ticks
      satisfies the invariant (decided by evaluation).
    - Process lifecycle: [execute] launches a process with the first free
      pid, its PCB, window and [iret] frame; [halt] after [execute] restores
      the caller exactly; a failing [execute] returns -1 and changes nothing
      but the interrupt flag and the image it may have copied into a free
      frame.
    - Paging: the exact translation after [set_user_page] and
      [set_video_mem_page], and isolation of the user windows of distinct
      pids.
    - Scheduler: the boot ticks launch one shell per terminal, and every
      later tick advances the active terminal round-robin, saving and
      restoring the frames.
    - Descriptors: [open] then [close] is the identity on the table; every
      step of [fd_step] keeps [fd_table_ok]; every failing call leaves the
      state unchanged; [vidmap]'s store overruns the caller's pointer;
      whenever a halted process's pid is reused, the new process inherits
      its tables in slots 2-7 with their bits clear.
    - PIC: [enable_irq] and [disable_irq] change exactly the mask bit of
      their IRQ (and the cascade line for a slave IRQ) and always return
      with interrupts enabled; [i8259_init] masks all sixteen lines
      (although its comment says the 0xFF bytes enable them), and after
      [init_PIT], [init_Keyboard] and [init_RTC] exactly IRQs 0, 1, 8 and
      the cascade line are unmasked (Scheduler.v); [send_eoi] writes
      exactly the OCW2 bytes naming the interrupting line.
    - Keyboard: every 8-bit scan code is handled without a table read out
      of bounds; line buffers keep their index in [0, 127]; [keycode] is
      zero while alt is held in every reachable state; a typed line is what
      [terminal_read] returns; and in every state a backspace after a
      newline leaves the reader released on 128 bytes without one.
    - Exceptions: a gate decodes to the handler, selector, type, DPL and
      present bit it was built with; the IDT admits user mode only at 0x0F
      and 0x80; a halting exception returns 256 to the parent, while in a
      base shell it leaves the flag set, so that in every run the next
      program the shell launches reports 256 whatever its exit status.
    - File system: [read_data] returns exactly the requested slice of the
      file's blocks and [file_read] the clipped slice from the position
      (refinement of [file_bytes]); [read_data] checks only 63 of the 1023
      block indices, so in any image a read in a later block with a bad
      index copies from outside it; [init_fsys] reads back every well-formed image laid
      out as fsys.h describes.
    - Descriptor tables: the processor reads back the base and 20-bit
      limit [SET_LDT_PARAMS] and [SET_TSS_PARAMS] store; [RESTORE_REG]
      undoes [SAVE_REG]; the packed [tss_t] is [TSS_SIZE] bytes; [lidt]
      given the address of an [x86_desc_t]'s [size] field loads its size
      and address (and given the struct's address, its padding).
    - RTC: [rtc_write]'s divider loop equals the reference [rate_bit]
      (checked exhaustively for every 32-bit request that matters), which
      refuses 1024 although rtc_write's comment and tests.c accept it; bit [b]
      toggles exactly every [2^b] interrupts; [rtc_read] wakes within
      [2^b] interrupts; the divider loop terminates on exactly the
      values whose two leading bits are 10, always within its bound.

    ** Bounds and fuel
    [rtc_write]'s loop is a Fixpoint on [RTC_LOOP_FUEL] = 32: the C loop
    halves a 32-bit value, so an exiting run makes at most 31 halvings;
    [freq_loop_terminates] shows that a run that exits with any bound exits
    within 32, so the fuel never cuts a terminating run short, and that the
    runs that do not exit are the C loop's own infinite loops.  The scans
    for a free pid and a free descriptor are bounded by the arrays' sizes
    (8 pids, 8 descriptors).  [copy_line] copies at most the 128-byte
    keyboard buffer.  [init_fsys] reads the 1023 block indices of each
    inode and as many entries as the boot block's counts say.

    ** Not modelled
    The messages the exception handlers print; the 8259's handling of the
    initialisation words (the model lets them pass through the mask
    register, which the final OCW1 bytes overwrite); the processor's use
    of the registers [ltr], [lidt] and [lldt] load (the model stops at the
    register values); the assembly linkage of x86_desc.S and
    asm_wrapper.S (not under src/; its transfers appear as [ctl] values);
    the port I/O of the PIT, RTC and keyboard controller (the PIC's is
    modelled); and the characters that [putc] and [printf] draw (the
    console enters the keyboard model as a parameter).  tests.c is test
    code. *)

From stdpp Require Export base list gmap.
From Stdlib Require Export ZArith Lia.

(** ** Notations of the development *)

Declare Scope kernel_scope.
Delimit Scope kernel_scope with kernel.
Open Scope Z_scope.
Open Scope kernel_scope.

(** C bit operators on [Z]: [&], [|], [~], [<<], [>>]. *)
Notation "x .& y" := (Z.land x y) (at level 40, left associativity) : kernel_scope.
Notation "x .| y" := (Z.lor x y) (at level 50, left associativity) : kernel_scope.
Notation "'.~' x" := (Z.lnot x) (at level 35, right associativity) : kernel_scope.
Notation "x '<<<' n" := (Z.shiftl x n) (at level 30, no associativity) : kernel_scope.
Notation "x '>>>' n" := (Z.shiftr x n) (at level 30, no associativity) : kernel_scope.

(** ** Machine integers

    A [uint32_t], [uint16_t] or [uint8_t] is a [Z] in [0, 2^w); an assignment to such a
    variable reduces modulo [2^w]. *)

Definition u32 (z : Z) : Z := z mod 2 ^ 32.
Definition u8 (z : Z) : Z := z mod 2 ^ 8.
Definition u16 (z : Z) : Z := z mod 2 ^ 16.

(** A value converted to [int32_t] (a [uint32_t] returned through an
    [int32_t]): two's complement of its low 32 bits. *)
Definition i32 (z : Z) : Z := let u := u32 z in if decide (u < 2 ^ 31) then u else u - 2 ^ 32.

Definition in_u32 (z : Z) : Prop := 0 <= z < 2 ^ 32.
Definition in_u8 (z : Z) : Prop := 0 <= z < 2 ^ 8.

(** [CHECK_FLAG(x, i)] of lib.h: bit [i] of [x]. *)
Definition CHECK_FLAG (x : Z) (i : nat) : bool := Z.testbit x (Z.of_nat i).

(** [x | (1 << i)] and [x & ~(1 << i)], the two mask updates of the code. *)
Definition set_flag (x : Z) (i : nat) : Z := x .| (1 <<< Z.of_nat i).
Definition clear_flag (x : Z) (i : nat) : Z := x .& .~ (1 <<< Z.of_nat i).

(** ** The scan loop shared by the pid and descriptor allocators

    [for (i = lo; i < lo + n; i++) if (!CHECK_FLAG(mask, i)) break;]
    The result is the first index whose bit is clear, or [None] when the
    loop runs to its bound. *)

Fixpoint scan_clear (mask : Z) (lo n : nat) : option nat :=
  match n with
  | O => None
  | S n' => if CHECK_FLAG mask lo then scan_clear mask (S lo) n' else Some lo
  end.

(** ** Automation *)

Create HintDb kernel discriminated.
Create Rewrite HintDb kernel_rw.

Lemma u32_small z : in_u32 z -> u32 z = z.
Proof. intros H. unfold u32. apply Z.mod_small. exact H. Qed.

Lemma u8_small z : in_u8 z -> u8 z = z.
Proof. intros H. unfold u8. apply Z.mod_small. exact H. Qed.

Lemma u32_range z : in_u32 (u32 z).
Proof. unfold in_u32, u32. apply Z.mod_pos_bound. lia. Qed.

Lemma u8_range z : in_u8 (u8 z).
Proof. unfold in_u8, u8. apply Z.mod_pos_bound. lia. Qed.

Lemma CHECK_FLAG_set_flag x i j :
  CHECK_FLAG (set_flag x i) j = CHECK_FLAG x j || bool_decide (i = j).
Proof.
  unfold CHECK_FLAG, set_flag. rewrite Z.lor_spec, Z.shiftl_spec by lia.
  f_equal. case_bool_decide as Hij.
  - subst. rewrite Z.sub_diag. reflexivity.
  - destruct (Z.lt_ge_cases (Z.of_nat j) (Z.of_nat i)).
    + apply Z.testbit_neg_r. lia.
    + rewrite (Z.bits_above_log2 1); [reflexivity | lia | simpl; lia].
Qed.

Lemma CHECK_FLAG_clear_flag x i j :
  CHECK_FLAG (clear_flag x i) j = CHECK_FLAG x j && negb (bool_decide (i = j)).
Proof.
  unfold CHECK_FLAG, clear_flag. rewrite Z.land_spec, Z.lnot_spec by lia.
  f_equal. f_equal. rewrite Z.shiftl_spec by lia. case_bool_decide as Hij.
  - subst. rewrite Z.sub_diag. reflexivity.
  - destruct (Z.lt_ge_cases (Z.of_nat j) (Z.of_nat i)).
    + apply Z.testbit_neg_r. lia.
    + rewrite (Z.bits_above_log2 1); [reflexivity | lia | simpl; lia].
Qed.

#[export] Hint Rewrite CHECK_FLAG_set_flag CHECK_FLAG_clear_flag : kernel_rw.

Lemma lor_bound x y w : 0 <= x < 2 ^ w -> 0 <= y < 2 ^ w -> 0 <= x .| y < 2 ^ w.
Proof.
  intros Hx Hy. assert (Hw : 0 <= w).
  { destruct (Z.lt_ge_cases w 0); [rewrite Z.pow_neg_r in Hx; lia | lia]. }
  split; [apply Z.lor_nonneg; lia|].
  rewrite <- (Z.mod_small x (2^w)), <- (Z.mod_small y (2^w)) by lia.
  rewrite <- !Z.land_ones, <- Z.land_lor_distr_l, Z.land_ones by exact Hw.
  apply Z.mod_pos_bound. lia.
Qed.

(** Masks that fit in [w] bits stay there under the two updates. *)
Lemma set_flag_bound x i w :
  0 <= x < 2 ^ w -> (Z.of_nat i < w)%Z -> 0 <= set_flag x i < 2 ^ w.
Proof.
  intros Hx Hi. unfold set_flag. rewrite Z.shiftl_1_l. apply lor_bound; [exact Hx|].
  split; [apply Z.pow_nonneg; lia | apply Z.pow_lt_mono_r; lia].
Qed.

Lemma land_bound x y w : 0 <= x < 2 ^ w -> 0 <= x .& y < 2 ^ w.
Proof.
  intros Hx. assert (Hw : 0 <= w).
  { destruct (Z.lt_ge_cases w 0); [rewrite Z.pow_neg_r in Hx; lia | lia]. }
  rewrite <- (Z.mod_small x (2^w)) by lia.
  rewrite <- Z.land_ones, <- Z.land_assoc, (Z.land_comm (Z.ones w)), Z.land_assoc,
    Z.land_ones by exact Hw.
  apply Z.mod_pos_bound. lia.
Qed.

Lemma clear_flag_bound x i w :
  0 <= x < 2 ^ w -> 0 <= clear_flag x i < 2 ^ w.
Proof. intros Hx. apply land_bound, Hx. Qed.

(** [scan_clear] returns the first clear bit of the range, and only then. *)
Lemma scan_clear_Some mask lo n j :
  scan_clear mask lo n = Some j ->
  (lo <= j < lo + n)%nat /\ CHECK_FLAG mask j = false /\
  (forall k, (lo <= k < j)%nat -> CHECK_FLAG mask k = true).
Proof.
  revert lo. induction n as [|n IH]; intros lo H; simpl in H; [discriminate|].
  destruct (CHECK_FLAG mask lo) eqn:Hb.
  - destruct (IH _ H) as (Hr & Hj & Hall). split; [lia|]. split; [exact Hj|].
    intros k Hk. destruct (decide (k = lo)) as [->|]; [exact Hb|]. apply Hall. lia.
  - injection H as <-. split; [lia|]. split; [exact Hb|]. intros k Hk. lia.
Qed.

Lemma scan_clear_None mask lo n :
  scan_clear mask lo n = None <->
  (forall k, (lo <= k < lo + n)%nat -> CHECK_FLAG mask k = true).
Proof.
  revert lo. induction n as [|n IH]; intros lo; simpl.
  - split; [intros _ k Hk; lia | done].
  - destruct (CHECK_FLAG mask lo) eqn:Hb.
    + rewrite IH. split; intros H k Hk.
      * destruct (decide (k = lo)) as [->|]; [exact Hb|]. apply H. lia.
      * apply H. lia.
    + split; [discriminate|]. intros H. rewrite H in Hb; [discriminate | lia].
Qed.

(** A bit that is clear and all bits below it set: the scan finds it. *)
Lemma scan_clear_first mask lo n j :
  (lo <= j < lo + n)%nat -> CHECK_FLAG mask j = false ->
  (forall k, (lo <= k < j)%nat -> CHECK_FLAG mask k = true) ->
  scan_clear mask lo n = Some j.
Proof.
  revert lo. induction n as [|n IH]; intros lo Hr Hj Hall; simpl; [lia|].
  destruct (CHECK_FLAG mask lo) eqn:Hb.
  - apply IH; [| exact Hj | intros k Hk; apply Hall; lia].
    destruct (decide (j = lo)) as [->|]; [congruence | lia].
  - destruct (decide (j = lo)) as [->|]; [reflexivity|].
    rewrite Hall in Hb; [discriminate | lia].
Qed.

(** Setting a clear bit and clearing it again gives the mask back. *)
Lemma clear_flag_set_flag x i : CHECK_FLAG x i = false -> clear_flag (set_flag x i) i = x.
Proof.
  intros H. apply Z.bits_inj'. intros n Hn.
  replace n with (Z.of_nat (Z.to_nat n)) by lia.
  change (Z.testbit ?a (Z.of_nat ?k)) with (CHECK_FLAG a k).
  rewrite CHECK_FLAG_clear_flag, CHECK_FLAG_set_flag.
  destruct (decide (i = Z.to_nat n)) as [<-|Hne].
  - rewrite H, bool_decide_true by reflexivity. reflexivity.
  - rewrite !bool_decide_false by exact Hne. destruct (CHECK_FLAG x (Z.to_nat n)); reflexivity.
Qed.

(** The mask of the first [k] pids: bits below [k] set, the others clear. *)
Lemma CHECK_FLAG_ones k j : CHECK_FLAG (Z.ones (Z.of_nat k)) j = bool_decide (j < k)%nat.
Proof.
  unfold CHECK_FLAG. rewrite Z.testbit_ones_nonneg by lia.
  case_bool_decide; apply Z.ltb_lt || apply Z.ltb_ge; lia.
Qed.

Lemma set_flag_ones k : set_flag (Z.ones (Z.of_nat k)) k = Z.ones (Z.of_nat (S k)).
Proof.
  apply Z.bits_inj'. intros n Hn. replace n with (Z.of_nat (Z.to_nat n)) by lia.
  change (Z.testbit ?a (Z.of_nat ?m)) with (CHECK_FLAG a m).
  rewrite CHECK_FLAG_set_flag, !CHECK_FLAG_ones.
  repeat case_bool_decide; simpl; lia || reflexivity.
Qed.

Lemma scan_clear_ones k : (k < 8)%nat -> scan_clear (Z.ones (Z.of_nat k)) 0 8 = Some k.
Proof.
  intros Hk. apply scan_clear_first; [lia | |].
  - rewrite CHECK_FLAG_ones. apply bool_decide_false. lia.
  - intros j Hj. rewrite CHECK_FLAG_ones. apply bool_decide_true. lia.
Qed.

#[export] Hint Resolve u32_range u8_range set_flag_bound clear_flag_bound : kernel.

(** [kbits] rewrites bit tests of updated masks and decides the index
    comparisons. *)
Ltac kbits :=
  autorewrite with kernel_rw; repeat case_bool_decide; simpl; try lia; try done.

(** [concrete] discharges a side condition on closed terms by evaluation. *)
Ltac concrete :=
  vm_compute; repeat split; first [reflexivity | discriminate | lia | idtac].

(** Bit fields packed with [|] and [<<] add up when they do not overlap. *)
Lemma lor_shiftl_add a b k : 0 <= k -> 0 <= a < 2 ^ k -> 0 <= b -> a .| (b <<< k) = a + b * 2 ^ k.
Proof.
  intros Hk Ha Hb. rewrite Z.shiftl_mul_pow2 by lia.
  assert (H0 : a .& (b * 2 ^ k) = 0).
  { apply Z.bits_inj'. intros n Hn. rewrite Z.land_spec, Z.bits_0.
    destruct (Z.lt_ge_cases n k).
    - rewrite Z.mul_pow2_bits_low by lia. apply andb_false_r.
    - rewrite <- (Z.mod_small a (2 ^ k)) by lia. rewrite Z.mod_pow2_bits_high by lia. reflexivity. }
  rewrite <- Z.lxor_lor by exact H0. symmetry. apply Z.add_nocarry_lxor, H0.
Qed.

Lemma lor_mul_add a b k : 0 <= k -> 0 <= a < 2 ^ k -> 0 <= b -> (b * 2 ^ k) .| a = a + b * 2 ^ k.
Proof. intros. rewrite Z.lor_comm, <- (lor_shiftl_add a b k), Z.shiftl_mul_pow2 by lia. reflexivity. Qed.

Lemma land_ones_const x c k : c = Z.ones k -> 0 <= k -> x .& c = x mod 2 ^ k.
Proof. intros -> Hk. apply Z.land_ones, Hk. Qed.
