(* ===== verification/Paging.v ===== *)
(** * Paging: the address-space manager (page.c, page.h, x86_desc.h)

    The page directory and the two page tables are finite maps from entry
    index to entry; an index absent from the map is the zero entry of the
    statically zeroed table (not present).  Entries are the bit-field structs
    of x86_desc.h, with each field truncated to its width on assignment.  The
    TLB is a snapshot of the tables taken by [flush_tlb]: the processor may
    translate with any entry cached since the last flush, and the model takes
    the worst case, in which every entry was cached at that flush. *)

From S2P Require Import Prelude.

(** ** Constants of page.h *)

Definition _4KB : Z := 0x00001000.
Definition _4MB : Z := 0x00400000.
Definition VMEM_BASE_ADDR : Z := 0x000B8000.
Definition KERNEL_MEM_BASE_ADDR : Z := 0x00400000.
Definition USER_MEM_BASE_ADDR : Z := 0x00800000.
Definition VIRTUAL_USER_BASE_ADDR : Z := 0x08000000.
Definition VIRTUAL_VMEM_BASE_ADDR : Z := 0x08401000.
Definition USER_MEM_PD_ENTRY : Z := 32.
Definition PAGE_TABLE_NUM : nat := 1024.
Definition PAGE_PRIVILEGED : Z := 0.
Definition PAGE_UNPRIVILEGED : Z := 1.
Definition MAX_TERMINALS : nat := 3.

(** ** Entries (x86_desc.h) *)

(** Assigning a value to a [w]-bit field keeps its low [w] bits. *)
Definition bitfield (w : Z) (v : Z) : Z := v mod 2 ^ w.

(** The two page tables of page.c; a 4 KB directory entry records which
    one by its address. *)
Inductive table_ref := PageTable | UserPageTable.

Record pte_desc_t := mk_pte {
  pte_present : Z; pte_read_write : Z; pte_user_supervisor : Z;
  pte_available : Z; pte_page_base_addr : Z }.

Inductive pde_desc_t :=
| PDE_4KB (present read_write user_supervisor available : Z) (table : table_ref)
| PDE_4MB (present read_write user_supervisor available : Z) (page_base_addr : Z).

(** [SET_PT_ENTRY(str, addr, avail, priv, rw, pres)] *)
Definition SET_PT_ENTRY (addr avail priv rw pres : Z) : pte_desc_t :=
  mk_pte (bitfield 1 pres) (bitfield 1 rw) (bitfield 1 priv) (bitfield 3 avail)
         (bitfield 20 ((addr .& 0xFFFFF000) >>> 12)).

(** [SET_4KB_PD_ENTRY(str, addr, avail, priv, rw, pres)] *)
Definition SET_4KB_PD_ENTRY (table : table_ref) (avail priv rw pres : Z) : pde_desc_t :=
  PDE_4KB (bitfield 1 pres) (bitfield 1 rw) (bitfield 1 priv) (bitfield 3 avail) table.

(** [SET_4MB_PD_ENTRY(str, addr, avail, priv, rw, pres)] *)
Definition SET_4MB_PD_ENTRY (addr avail priv rw pres : Z) : pde_desc_t :=
  PDE_4MB (bitfield 1 pres) (bitfield 1 rw) (bitfield 1 priv) (bitfield 3 avail)
          (bitfield 19 ((addr .& 0xFFC00000) >>> 13)).

(** ** Paging state *)

Record tables := mk_tables {
  page_dir : gmap Z pde_desc_t;
  page_table : gmap Z pte_desc_t;
  user_page_table : gmap Z pte_desc_t }.

Record mmu := mk_mmu {
  live : tables;   (** the tables in memory *)
  tlb : tables }.  (** what the processor translates with *)

Definition table_of (t : tables) (r : table_ref) : gmap Z pte_desc_t :=
  match r with PageTable => page_table t | UserPageTable => user_page_table t end.

Definition set_pd (i : Z) (e : pde_desc_t) (m : mmu) : mmu :=
  mk_mmu (mk_tables (<[i:=e]> (page_dir (live m))) (page_table (live m))
                    (user_page_table (live m))) (tlb m).

Definition set_upt (i : Z) (e : pte_desc_t) (m : mmu) : mmu :=
  mk_mmu (mk_tables (page_dir (live m)) (page_table (live m))
                    (<[i:=e]> (user_page_table (live m)))) (tlb m).

Definition set_pt (i : Z) (e : pte_desc_t) (m : mmu) : mmu :=
  mk_mmu (mk_tables (page_dir (live m)) (<[i:=e]> (page_table (live m)))
                    (user_page_table (live m))) (tlb m).

(** [flush_tlb] (page_asm.S): reload CR3. *)
Definition flush_tlb (m : mmu) : mmu := mk_mmu (live m) (live m).

(** ** Translation by the processor

    A two-level walk; with [user] set the access is from privilege level 3
    and needs the user/supervisor bit at both levels. *)

Definition allowed (user : bool) (present us : Z) : bool :=
  bool_decide (present = 1) && (negb user || bool_decide (us = 1)).

Definition translate (t : tables) (user : bool) (va : Z) : option Z :=
  match page_dir t !! (va >>> 22) with
  | Some (PDE_4MB p _ us _ base) =>
      if allowed user p us then Some (((base <<< 13) .& 0xFFC00000) + (va .& (_4MB - 1)))
      else None
  | Some (PDE_4KB p _ us _ r) =>
      if allowed user p us then
        match table_of t r !! ((va >>> 12) .& 0x3FF) with
        | Some e =>
            if allowed user (pte_present e) (pte_user_supervisor e)
            then Some ((pte_page_base_addr e <<< 12) + (va .& (_4KB - 1)))
            else None
        | None => None
        end
      else None
  | None => None
  end.

(** ** Operations of page.c *)

(** [set_user_page(pid)] *)
Definition set_user_page (pid : Z) (m : mmu) : mmu :=
  flush_tlb (set_pd USER_MEM_PD_ENTRY
    (SET_4MB_PD_ENTRY (u32 (USER_MEM_BASE_ADDR + pid * _4MB)) 0 PAGE_UNPRIVILEGED 1 1) m).

(** [set_video_mem_page(present)]; [TA_idx] and [TS_idx] are the globals of
    terminal.c that the function reads. *)
Definition set_video_mem_page (present : Z) (TA_idx TS_idx : nat) (m : mmu) : mmu :=
  let m1 := set_pd (USER_MEM_PD_ENTRY + 1)
              (SET_4KB_PD_ENTRY UserPageTable 0 PAGE_UNPRIVILEGED 1 (present .& 1)) m in
  let target := if decide (TA_idx <> TS_idx)
                then u32 (VMEM_BASE_ADDR + (Z.of_nat TA_idx + 1) * _4KB)
                else VMEM_BASE_ADDR in
  let m2 := set_upt ((VIRTUAL_VMEM_BASE_ADDR >>> 12) .& 0x3FF)
              (SET_PT_ENTRY target 0 PAGE_UNPRIVILEGED 1 (present .& 1)) m1 in
  flush_tlb m2.

(** [init_Paging()]: the page table loop, the video pages, the two
    directory entries, and the enabling of paging (which loads CR3). *)
Definition init_page_table (pt : gmap Z pte_desc_t) : gmap Z pte_desc_t :=
  fold_left (fun acc i => <[Z.of_nat i := SET_PT_ENTRY (_4KB * Z.of_nat i) 0 PAGE_UNPRIVILEGED 1 0]> acc)
            (seq 0 PAGE_TABLE_NUM) pt.

Definition init_video_pages (pt : gmap Z pte_desc_t) : gmap Z pte_desc_t :=
  fold_left (fun acc i => <[(VMEM_BASE_ADDR >>> 12) + Z.of_nat i + 1 :=
                SET_PT_ENTRY (VMEM_BASE_ADDR + (Z.of_nat i + 1) * _4KB) 0 PAGE_PRIVILEGED 1 1]> acc)
            (seq 0 MAX_TERMINALS)
            (<[VMEM_BASE_ADDR >>> 12 := SET_PT_ENTRY VMEM_BASE_ADDR 0 PAGE_PRIVILEGED 1 1]> pt).

Definition init_Paging (m : mmu) : mmu :=
  let pt := init_video_pages (init_page_table (page_table (live m))) in
  let pd := <[1 := SET_4MB_PD_ENTRY KERNEL_MEM_BASE_ADDR 0 PAGE_PRIVILEGED 1 1]>
            (<[0 := SET_4KB_PD_ENTRY PageTable 0 PAGE_PRIVILEGED 1 1]> (page_dir (live m))) in
  flush_tlb (mk_mmu (mk_tables pd pt (user_page_table (live m))) (tlb m)).

(** The boot state: every table zeroed. *)
Definition boot_mmu : mmu := mk_mmu (mk_tables ∅ ∅ ∅) (mk_tables ∅ ∅ ∅).

(** ** The physical frame of a process *)

Definition user_frame (pid : Z) : Z := USER_MEM_BASE_ADDR + pid * _4MB.

(** The abstract contract of the address-space manager (spec 4.1), as a
    record of operations with their laws: what the process lifecycle and the
    scheduler rely on. *)
Class AddressSpace (A : Type) := {
  bind_user_window : Z -> A -> A;
  bind_video_window : Z -> nat -> nat -> A -> A;
  user_view : A -> Z -> option Z }.

Class AddressSpaceLaws (A : Type) `{AddressSpace A} := {
  view_user_window : forall a pid off,
    0 <= pid < 8 -> 0 <= off < _4MB ->
    user_view (bind_user_window pid a) (VIRTUAL_USER_BASE_ADDR + off) = Some (user_frame pid + off);
  view_video_window : forall a present ta ts off,
    (ta < MAX_TERMINALS)%nat -> 0 <= off < _4KB ->
    user_view (bind_video_window present ta ts a) (VIRTUAL_VMEM_BASE_ADDR + off) =
      if Z.testbit present 0 then
        Some ((if decide (ta <> ts) then VMEM_BASE_ADDR + (Z.of_nat ta + 1) * _4KB
               else VMEM_BASE_ADDR) + off)
      else None }.

#[export] Instance mmu_address_space : AddressSpace mmu := {
  bind_user_window := set_user_page;
  bind_video_window := set_video_mem_page;
  user_view m va := translate (tlb m) true va }.

(** ** Arithmetic of addresses and fields *)

Lemma window_index k off n :
  0 <= n -> 0 <= off < 2 ^ n -> (k * 2 ^ n + off) >>> n = k.
Proof.
  intros Hn Hoff. rewrite Z.shiftr_div_pow2 by exact Hn.
  rewrite Z.div_add_l by lia. rewrite Z.div_small by exact Hoff. lia.
Qed.

Lemma window_offset k off n :
  0 <= n -> 0 <= off < 2 ^ n -> (k * 2 ^ n + off) .& (2 ^ n - 1) = off.
Proof.
  intros Hn Hoff. replace (2 ^ n - 1) with (Z.ones n) by (rewrite Z.ones_equiv; lia).
  rewrite Z.land_ones by exact Hn. rewrite Z.add_comm, Z.mod_add by lia.
  apply Z.mod_small, Hoff.
Qed.

Lemma land_aligned k hi lo :
  0 <= lo -> 0 <= k < 2 ^ hi -> 0 <= hi ->
  (k * 2 ^ lo) .& ((2 ^ hi - 1) * 2 ^ lo) = k * 2 ^ lo.
Proof.
  intros Hlo Hk Hhi. rewrite <- !Z.shiftl_mul_pow2 by exact Hlo.
  rewrite <- Z.shiftl_land. f_equal.
  replace (2 ^ hi - 1) with (Z.ones hi) by (rewrite Z.ones_equiv; lia).
  rewrite Z.land_ones by exact Hhi. apply Z.mod_small, Hk.
Qed.

(** The 4 MB directory entry stores a frame base and gives it back. *)
Lemma pde_4MB_base_roundtrip k :
  0 <= k < 1024 ->
  ((bitfield 19 (((k * 2 ^ 22) .& 0xFFC00000) >>> 13)) <<< 13) .& 0xFFC00000 = k * 2 ^ 22.
Proof.
  intros Hk. change 0xFFC00000 with ((2 ^ 10 - 1) * 2 ^ 22).
  rewrite land_aligned by lia.
  replace (k * 2 ^ 22) with ((k * 2 ^ 9) * 2 ^ 13) at 1 by lia.
  rewrite Z.shiftr_div_pow2, Z.div_mul by lia.
  unfold bitfield. rewrite Z.mod_small by lia.
  rewrite Z.shiftl_mul_pow2 by lia.
  replace (k * 2 ^ 9 * 2 ^ 13) with (k * 2 ^ 22) by lia.
  apply land_aligned; lia.
Qed.

(** The page-table entry stores a 4 KB page base and gives it back. *)
Lemma pte_base_roundtrip k :
  0 <= k < 2 ^ 20 ->
  (bitfield 20 (((k * 2 ^ 12) .& 0xFFFFF000) >>> 12)) <<< 12 = k * 2 ^ 12.
Proof.
  intros Hk. change 0xFFFFF000 with ((2 ^ 20 - 1) * 2 ^ 12).
  rewrite land_aligned by lia. rewrite Z.shiftr_div_pow2, Z.div_mul by lia.
  unfold bitfield. rewrite Z.mod_small by lia. apply Z.shiftl_mul_pow2. lia.
Qed.

Lemma bitfield1_land1 p : bitfield 1 (p .& 1) = if Z.testbit p 0 then 1 else 0.
Proof.
  unfold bitfield. change 1 with (Z.ones 1) at 1. rewrite Z.land_ones by lia.
  rewrite Z.mod_mod by lia. rewrite <- Z.bit0_mod.
  destruct (Z.testbit p 0); reflexivity.
Qed.

Lemma translate_set_pd_other t i e u va :
  va >>> 22 <> i ->
  translate (mk_tables (<[i:=e]> (page_dir t)) (page_table t) (user_page_table t)) u va =
  translate t u va.
Proof.
  intros Hne. unfold translate. cbn [page_dir page_table user_page_table table_of]. rewrite lookup_insert_ne by congruence.
  destruct (page_dir t !! (va >>> 22)) as [[]|]; reflexivity.
Qed.

#[export] Hint Resolve window_index window_offset pde_4MB_base_roundtrip pte_base_roundtrip : kernel.

(** ** Theorems of the address-space manager *)

Lemma user_frame_encoding pid :
  0 <= pid < 1022 ->
  u32 (USER_MEM_BASE_ADDR + pid * _4MB) = (pid + 2) * 2 ^ 22 /\ 0 <= pid + 2 < 1024.
Proof.
  intros Hp. unfold u32, USER_MEM_BASE_ADDR, _4MB.
  rewrite Z.mod_small by lia. split; lia.
Qed.

(** The window at 128 MB translates to the frame of [pid], through the
    flushed TLB. *)
Lemma user_window_translates m pid u off :
  0 <= pid < 1022 -> 0 <= off < _4MB ->
  translate (tlb (set_user_page pid m)) u (VIRTUAL_USER_BASE_ADDR + off) =
    Some (user_frame pid + off).
Proof.
  intros Hp Hoff. destruct (user_frame_encoding pid Hp) as [Henc Hk].
  unfold translate, set_user_page, flush_tlb, set_pd. cbn [live tlb page_dir].
  replace (VIRTUAL_USER_BASE_ADDR + off) with (USER_MEM_PD_ENTRY * 2 ^ 22 + off) by reflexivity.
  rewrite window_index by (unfold _4MB in Hoff; lia).
  rewrite lookup_insert_eq. unfold SET_4MB_PD_ENTRY. rewrite Henc.
  change (_4MB - 1) with (2 ^ 22 - 1). rewrite window_offset by (unfold _4MB in Hoff; lia).
  rewrite pde_4MB_base_roundtrip by exact Hk.
  assert (Ha : allowed u (bitfield 1 1) (bitfield 1 PAGE_UNPRIVILEGED) = true)
    by (destruct u; reflexivity).
  rewrite Ha. f_equal.
  unfold user_frame, USER_MEM_BASE_ADDR, _4MB. lia.
Qed.

(** Rebinding twice is rebinding once: the second entry overwrites the
    first. *)
Lemma set_user_page_twice a b m : set_user_page a (set_user_page b m) = set_user_page a m.
Proof. unfold set_user_page, flush_tlb, set_pd. simpl. by rewrite insert_insert_eq. Qed.

(** The user window and the video window are separate entries: binding
    one commutes with binding the other, and rebinding the video window
    twice is rebinding it once. *)
Lemma set_user_page_video_comm pid present ta ts m :
  set_user_page pid (set_video_mem_page present ta ts m) =
  set_video_mem_page present ta ts (set_user_page pid m).
Proof.
  unfold set_user_page, set_video_mem_page, flush_tlb, set_pd, set_upt. simpl.
  f_equal; f_equal; apply insert_insert_ne; unfold USER_MEM_PD_ENTRY; lia.
Qed.

Lemma set_video_mem_page_twice p1 p2 ta1 ta2 ts1 ts2 m :
  set_video_mem_page p1 ta1 ts1 (set_video_mem_page p2 ta2 ts2 m) = set_video_mem_page p1 ta1 ts1 m.
Proof.
  unfold set_video_mem_page, flush_tlb, set_pd, set_upt. simpl.
  by rewrite !insert_insert_eq.
Qed.

(** The directory entries other than the user window keep their
    translation, in the live tables and in the TLB. *)
Lemma set_user_page_other m pid u va :
  va >>> 22 <> USER_MEM_PD_ENTRY ->
  translate (tlb (set_user_page pid m)) u va = translate (live m) u va.
Proof. intros Hne. apply translate_set_pd_other, Hne. Qed.

Lemma user_window_index off :
  0 <= off < _4MB -> (VIRTUAL_USER_BASE_ADDR + off) >>> 22 = USER_MEM_PD_ENTRY.
Proof.
  intros Hoff. change VIRTUAL_USER_BASE_ADDR with (USER_MEM_PD_ENTRY * 2 ^ 22).
  apply window_index; unfold _4MB in Hoff; lia.
Qed.

(** Frames of distinct processes are disjoint, and lie above the kernel
    page and the video memory. *)
Lemma user_frames_disjoint i j a b :
  i <> j -> 0 <= a < _4MB -> 0 <= b < _4MB -> user_frame i + a <> user_frame j + b.
Proof. unfold user_frame, _4MB, USER_MEM_BASE_ADDR. intros Hij Ha Hb. nia. Qed.

(** C5. Window rebinding is a complete swap: once the window is bound to
    [i], no user address of the window reaches any byte of the frame of
    another process [j], nor the kernel's 4 MB page, nor video memory. *)
Theorem user_window_isolation m i j off pa :
  0 <= i < 8 -> 0 <= j < 8 -> i <> j -> 0 <= off < _4MB ->
  translate (tlb (set_user_page i m)) true (VIRTUAL_USER_BASE_ADDR + off) = Some pa ->
  ~ (user_frame j <= pa < user_frame j + _4MB) /\
  ~ (KERNEL_MEM_BASE_ADDR <= pa < KERNEL_MEM_BASE_ADDR + _4MB) /\
  ~ (VMEM_BASE_ADDR <= pa < VMEM_BASE_ADDR + 4 * _4KB).
Proof.
  intros Hi Hj Hij Hoff Ht. rewrite (user_window_translates m i true off ltac:(lia) Hoff) in Ht.
  injection Ht as <-. split; [| split].
  - intros Hin. apply (user_frames_disjoint i j off (user_frame i + off - user_frame j));
      [exact Hij | exact Hoff | lia | lia].
  - unfold user_frame, KERNEL_MEM_BASE_ADDR, USER_MEM_BASE_ADDR, _4MB in *. lia.
  - unfold user_frame, VMEM_BASE_ADDR, USER_MEM_BASE_ADDR, _4MB, _4KB in *. lia.
Qed.

Lemma video_window_index off :
  0 <= off < _4KB ->
  (VIRTUAL_VMEM_BASE_ADDR + off) >>> 22 = USER_MEM_PD_ENTRY + 1 /\
  ((VIRTUAL_VMEM_BASE_ADDR + off) >>> 12) .& 0x3FF = (VIRTUAL_VMEM_BASE_ADDR >>> 12) .& 0x3FF.
Proof.
  intros Hoff. unfold _4KB in Hoff. split.
  - change VIRTUAL_VMEM_BASE_ADDR with (33 * 2 ^ 22 + 0x1000).
    rewrite <- Z.add_assoc. apply window_index; lia.
  - change VIRTUAL_VMEM_BASE_ADDR with (0x08401 * 2 ^ 12).
    rewrite window_index by lia. reflexivity.
Qed.

Lemma video_target_encoding (ta ts : nat) :
  (ta < MAX_TERMINALS)%nat ->
  exists k, 0 <= k < 2 ^ 20 /\
    (if decide (ta <> ts) then u32 (VMEM_BASE_ADDR + (Z.of_nat ta + 1) * _4KB) else VMEM_BASE_ADDR)
      = k * 2 ^ 12 /\
    k * 2 ^ 12 = (if decide (ta <> ts) then VMEM_BASE_ADDR + (Z.of_nat ta + 1) * _4KB
                  else VMEM_BASE_ADDR).
Proof.
  intros Hta. unfold MAX_TERMINALS in Hta. destruct (decide (ta <> ts)).
  - exists (0xB8 + Z.of_nat ta + 1). unfold u32, VMEM_BASE_ADDR, _4KB.
    rewrite Z.mod_small by lia. lia.
  - exists 0xB8. unfold VMEM_BASE_ADDR. lia.
Qed.

(** The video window translates to the page of the active terminal. *)
Lemma video_window_translates m present (ta ts : nat) off :
  (ta < MAX_TERMINALS)%nat -> 0 <= off < _4KB ->
  translate (tlb (set_video_mem_page present ta ts m)) true (VIRTUAL_VMEM_BASE_ADDR + off) =
    if Z.testbit present 0 then
      Some ((if decide (ta <> ts) then VMEM_BASE_ADDR + (Z.of_nat ta + 1) * _4KB
             else VMEM_BASE_ADDR) + off)
    else None.
Proof.
  intros Hta Hoff. destruct (video_window_index off Hoff) as [Hpd Hpt].
  destruct (video_target_encoding ta ts Hta) as (k & Hk & Henc & Hval).
  unfold translate, set_video_mem_page, flush_tlb, set_upt, set_pd. cbn [live tlb page_dir].
  rewrite Hpd, lookup_insert_eq. unfold SET_4KB_PD_ENTRY. rewrite bitfield1_land1.
  simpl. rewrite Hpt, lookup_insert_eq. unfold SET_PT_ENTRY. simpl.
  rewrite bitfield1_land1, Henc, pte_base_roundtrip by exact Hk.
  change (_4KB - 1) with (2 ^ 12 - 1).
  replace (VIRTUAL_VMEM_BASE_ADDR + off) with (0x08401 * 2 ^ 12 + off) by reflexivity.
  rewrite window_offset by (unfold _4KB in Hoff; lia).
  change (Z.testbit present 0) with (Z.odd present).
  destruct (Z.odd present); [rewrite Hval |]; reflexivity.
Qed.

#[export] Instance mmu_address_space_laws : AddressSpaceLaws mmu.
Proof.
  split.
  - intros a pid off Hp Hoff. apply (user_window_translates _ _ true); lia.
  - intros a present ta ts off Hta Hoff. apply video_window_translates; assumption.
Qed.

(** A 4 MB directory index picks the 4 MB-aligned block of [va]. *)
Lemma pd_index_window va k :
  va >>> 22 = k -> 0 <= va - k * _4MB < _4MB.
Proof.
  intros H. rewrite Z.shiftr_div_pow2 in H by lia. unfold _4MB.
  pose proof (Z.div_mod va (2 ^ 22) ltac:(lia)). pose proof (Z.mod_pos_bound va (2 ^ 22) ltac:(lia)).
  lia.
Qed.

(** C4. [set_user_page(pid)] rebinds exactly the user window: after it the
    processor translates every address of the 4 MB window at 128 MB to the
    same offset in the frame of [pid] (8 MB + pid * 4 MB), from user and from
    kernel mode, and every other address as the tables in memory say; the
    TLB is flushed, so no stale translation of the previous owner survives. *)
Theorem set_user_page_spec m pid u va :
  0 <= pid < 1022 ->
  translate (tlb (set_user_page pid m)) u va =
    if decide (va >>> 22 = USER_MEM_PD_ENTRY)
    then Some (user_frame pid + (va - VIRTUAL_USER_BASE_ADDR))
    else translate (live m) u va.
Proof.
  intros Hp. destruct (decide _) as [Hw|Hw].
  - pose proof (pd_index_window va _ Hw) as Hoff.
    replace va with (VIRTUAL_USER_BASE_ADDR + (va - VIRTUAL_USER_BASE_ADDR)) at 1 by lia.
    apply user_window_translates; [exact Hp | exact Hoff].
  - apply set_user_page_other, Hw.
Qed.

(** C31. [set_video_mem_page(present)] maps the 4 KB user video window at
    [VIRTUAL_VMEM_BASE_ADDR] to the physical video memory when the active
    terminal is the shown one, to the active terminal's shadow page
    otherwise, and makes it inaccessible from user mode when bit 0 of
    [present] is clear. *)
Theorem set_video_mem_page_translates m present (ta ts : nat) off :
  (ta < MAX_TERMINALS)%nat -> 0 <= off < _4KB ->
  translate (tlb (set_video_mem_page present ta ts m)) true (VIRTUAL_VMEM_BASE_ADDR + off) =
    if Z.testbit present 0 then
      Some ((if decide (ta <> ts) then VMEM_BASE_ADDR + (Z.of_nat ta + 1) * _4KB
             else VMEM_BASE_ADDR) + off)
    else None.
Proof. apply video_window_translates. Qed.

Lemma set_user_page_spec_witness :
  translate (tlb (set_user_page 3 boot_mmu)) true (VIRTUAL_USER_BASE_ADDR + 5) = Some (user_frame 3 + 5) /\
  translate (tlb (set_user_page 3 boot_mmu)) true KERNEL_MEM_BASE_ADDR = None.
Proof.
  split.
  - rewrite (set_user_page_spec boot_mmu 3 true) by lia. vm_compute. reflexivity.
  - rewrite (set_user_page_spec boot_mmu 3 true) by lia. vm_compute. reflexivity.
Defined.

Lemma user_window_isolation_witness :
  ~ (user_frame 1 <= user_frame 3 + 5 < user_frame 1 + _4MB) /\
  ~ (KERNEL_MEM_BASE_ADDR <= user_frame 3 + 5 < KERNEL_MEM_BASE_ADDR + _4MB) /\
  ~ (VMEM_BASE_ADDR <= user_frame 3 + 5 < VMEM_BASE_ADDR + 4 * _4KB).
Proof.
  apply (user_window_isolation boot_mmu 3 1 5); [lia | lia | lia | concrete |].
  vm_compute. reflexivity.
Defined.

Lemma set_video_mem_page_translates_witness :
  translate (tlb (set_video_mem_page 1 1 0 boot_mmu)) true (VIRTUAL_VMEM_BASE_ADDR + 7) =
    Some (VMEM_BASE_ADDR + 2 * _4KB + 7).
Proof.
  rewrite (set_video_mem_page_translates boot_mmu 1 1 0 7) by concrete.
  vm_compute. reflexivity.
Defined.
