(* ===== verification/Fsys.v ===== *)
(** * Fsys: the read-only file system (drivers/fsys.h, drivers/fsys.c)

    The disk image is immutable: a boot block with three counts, the
    directory entries, the inodes and the data region.  Bytes are [Z] in
    [0, 256); a C string is a [list Z] whose end stands for the NUL
    terminator.  The data region is flat, as in memory: a [memcpy] that runs
    past one data block reads the next one, and a [memcpy] that runs past the
    end of the image leaves the model and returns [None].  The string
    routines [strncmp] and [strncpy] of lib.c (not under src/) are modelled
    from the C library contract. *)

From S2P Require Import Prelude.

(** ** lib.c string routines *)

Definition nth_byte (s : list Z) (i : nat) : Z := nth i s 0.

(** A little-endian [uint32_t] read from four bytes. *)
Definition le32 (b : list Z) : Z :=
  nth_byte b 0 + nth_byte b 1 * 2 ^ 8 + nth_byte b 2 * 2 ^ 16 + nth_byte b 3 * 2 ^ 24.

(** [strncmp(s1, s2, n)]: compare up to [n] characters, stopping after a
    difference or a common NUL. *)
Fixpoint strncmp (s1 s2 : list Z) (n : nat) : Z :=
  match n with
  | O => 0
  | S n' =>
      let c1 := nth_byte s1 0 in let c2 := nth_byte s2 0 in
      if decide (c1 <> c2) then c1 - c2
      else if decide (c1 = 0) then 0 else strncmp (tail s1) (tail s2) n'
  end.

(** [strncpy(dst, src, n)]: the [n] bytes written to [dst]: the string and
    then NULs up to [n]; no terminator when the string is [n] long or more. *)
Fixpoint strncpy (src : list Z) (n : nat) : list Z :=
  match n with
  | O => []
  | S n' =>
      let c := nth_byte src 0 in
      if decide (c = 0) then replicate n 0 else c :: strncpy (tail src) n'
  end.

(** ** Layout (fsys.h) *)

Definition DENTRY_SIZE : Z := 64.
Definition DISK_BLOCK_SIZE : Z := 4096.
Definition RTC_FILE_TYPE : Z := 0.
Definition DIRECTORY_FILE_TYPE : Z := 1.
Definition REGULAR_FILE_TYPE : Z := 2.

Record dentry_t := mk_dentry {
  file_name : list Z;   (** 32 bytes, not necessarily NUL-terminated *)
  file_type : Z;
  inode_idx : Z }.

Record inode_t := mk_inode {
  file_size : Z;
  block_idx_arr : list Z }.

Record fs_image := mk_fs {
  num_dir_entries : Z;
  num_inodes : Z;
  num_dblocks : Z;
  file_dir_arr : list dentry_t;
  inodes_arr : list inode_t;
  data_region : list Z }.   (** the data blocks, 4096 bytes each *)

Definition zero_dentry : dentry_t := mk_dentry (replicate 32 0) 0 0.
Definition zero_inode : inode_t := mk_inode 0 [].

Definition dentry_at (fs : fs_image) (i : Z) : dentry_t := nth (Z.to_nat i) (file_dir_arr fs) zero_dentry.
Definition inode_at (fs : fs_image) (i : Z) : inode_t := nth (Z.to_nat i) (inodes_arr fs) zero_inode.
Definition block_idx (ino : inode_t) (i : Z) : Z := nth (Z.to_nat i) (block_idx_arr ino) 0.

(** [memcpy] out of the data region at byte address [addr]. *)
Definition memcpy_data (fs : fs_image) (addr n : Z) : option (list Z) :=
  if decide (n = 0) then Some []
  else if decide (0 <= addr /\ addr + n <= Z.of_nat (length (data_region fs)))
  then Some (take (Z.to_nat n) (drop (Z.to_nat addr) (data_region fs)))
  else None.

(** ** Operations of fsys.c *)

(** [read_dentry_by_name(fname, dentry)]: the loop over the directory. *)
Fixpoint find_dentry (fname : list Z) (ds : list dentry_t) (n : nat) : option dentry_t :=
  match n, ds with
  | S n', d :: ds' =>
      if decide (strncmp (file_name d) fname 32 = 0) then Some d else find_dentry fname ds' n'
  | _, _ => None
  end.

Definition read_dentry_by_name (fs : fs_image) (fname : list Z) : option dentry_t :=
  find_dentry fname (file_dir_arr fs) (Z.to_nat (num_dir_entries fs)).

(** [read_dentry_by_index(index, dentry)]: index 0 is the boot entry. *)
Definition read_dentry_by_index (fs : fs_image) (index : Z) : option dentry_t :=
  if decide (index = 0 \/ num_dir_entries fs < index) then None
  else Some (dentry_at fs (index - 1)).

(** The middle loop of [read_data]: whole blocks [i, i + count). *)
Fixpoint copy_blocks (fs : fs_image) (ino : inode_t) (i : Z) (count : nat) : option (list Z) :=
  match count with
  | O => Some []
  | S c =>
      match memcpy_data fs (block_idx ino i * DISK_BLOCK_SIZE) DISK_BLOCK_SIZE,
            copy_blocks fs ino (i + 1) c with
      | Some b, Some rest => Some (b ++ rest)
      | _, _ => None
      end
  end.

Fixpoint blocks_valid (fs : fs_image) (ino : inode_t) (n : nat) : bool :=
  match n with
  | O => true
  | S n' => blocks_valid fs ino n' && bool_decide (block_idx ino (Z.of_nat n') < num_dblocks fs)
  end.

(** [read_data(inode, offset, buf, length)]: the return value and the bytes
    written to [buf]; [None] when a [memcpy] leaves the image. *)
Definition read_data (fs : fs_image) (inode offset length : Z) : option (Z * list Z) :=
  if decide (num_inodes fs <= inode) then Some (-1, []) else
  let ino := inode_at fs inode in
  if decide (file_size ino <= offset) then Some (-1, []) else
  if decide (file_size ino < u32 (offset + length)) then Some (-1, []) else
  if negb (blocks_valid fs ino 63) then Some (-1, []) else
  let sb := offset / DISK_BLOCK_SIZE in
  let sbyte := offset mod DISK_BLOCK_SIZE in
  let eb := u32 (offset + length) / DISK_BLOCK_SIZE in
  let ebyte := u32 (offset + length) mod DISK_BLOCK_SIZE in
  let copied :=
    if decide (sb = eb) then
      memcpy_data fs (block_idx ino sb * DISK_BLOCK_SIZE + sbyte) length
    else
      match memcpy_data fs (block_idx ino sb * DISK_BLOCK_SIZE + sbyte) (DISK_BLOCK_SIZE - sbyte),
            copy_blocks fs ino (sb + 1) (Z.to_nat (eb - sb - 1)),
            memcpy_data fs (block_idx ino eb * DISK_BLOCK_SIZE) ebyte with
      | Some a, Some b, Some c => Some (a ++ b ++ c)
      | _, _, _ => None
      end in
  match copied with
  | None => None
  | Some bytes =>
      let bytes_read := u32 (Z.of_nat (List.length bytes)) in
      Some (if decide (u32 (offset + bytes_read) = file_size ino) then 0 else bytes_read, bytes)
  end.

(** [get_file_length(fname)]: the [uint32_t] size is returned as an
    [int32_t]. *)
Definition get_file_length (fs : fs_image) (fname : list Z) : Z :=
  match read_dentry_by_name fs fname with
  | None => -1
  | Some d =>
      if decide (file_type d <> REGULAR_FILE_TYPE) then -1
      else if decide (num_inodes fs <= inode_idx d) then -1
      else i32 (file_size (inode_at fs (inode_idx d)))
  end.

(** ** Descriptors (fsys.h) *)

(** The five jump tables the kernel defines (fsys.c, rtc.c, terminal.c). *)
Inductive fops_jumptable_t :=
| rtc_jmptable | file_jmptable | directory_jmptable | stdin_jmptable | stdout_jmptable.

Record file_desc_t := mk_fd {
  fops_table_ptr : option fops_jumptable_t;   (** [None] is NULL *)
  inode_num : Z;
  file_pos : Z;
  flags : Z }.

#[export] Instance fops_jumptable_eq_dec : EqDecision fops_jumptable_t.
Proof. solve_decision. Defined.

#[export] Instance file_desc_eq_dec : EqDecision file_desc_t.
Proof. solve_decision. Defined.

Definition zero_fd : file_desc_t := mk_fd None 0 0 0.

(** [file_read(fd, buf, nbytes)] on the descriptor it reads: the return
    value, the updated descriptor, and the bytes written to [buf].  The
    comparison [file_pos + nbytes >= file_size] is unsigned 32-bit, as the
    C promotes [nbytes] to [uint32_t]. *)
Definition file_read (fs : fs_image) (fd : file_desc_t) (nbytes : Z) : option (Z * file_desc_t * list Z) :=
  let size := file_size (inode_at fs (inode_num fd)) in
  if decide (size <= file_pos fd) then Some (0, fd, []) else
  let n := if decide (size <= u32 (file_pos fd + nbytes)) then size - file_pos fd else nbytes in
  match read_data fs (inode_num fd) (file_pos fd) (u32 n) with
  | None => None
  | Some (_, bytes) =>
      Some (n, mk_fd (fops_table_ptr fd) (inode_num fd) (u32 (file_pos fd + n)) (flags fd), bytes)
  end.

(** [directory_read(fd, buf, nbytes)]: the next file name, at most 32
    bytes; [None] when a negative [nbytes] reaches [strncpy], whose
    [size_t] size then wraps to about 4 GB of writes. *)
Definition directory_read (fs : fs_image) (fd : file_desc_t) (nbytes : Z) : option (Z * file_desc_t * list Z) :=
  let n := if decide (32 < nbytes) then 32 else nbytes in
  if decide (num_dir_entries fs <= file_pos fd) then Some (0, fd, [])
  else if decide (n < 0) then None
  else Some (n, mk_fd (fops_table_ptr fd) (inode_num fd) (u32 (file_pos fd + 1)) (flags fd),
             strncpy (file_name (dentry_at fs (file_pos fd))) (Z.to_nat n)).

(** The other entries of [file_jmptable] and [directory_jmptable]: the
    file system is read-only. *)
Definition file_write : Z := -1.
Definition file_open : Z := 0.
Definition file_close : Z := 0.
Definition directory_write : Z := -1.
Definition directory_open : Z := 0.
Definition directory_close : Z := 0.

(** ** A sample disk image

    The directory of the teaching kernel's image in miniature: ".", "shell"
    (an executable: the ELF magic at bytes 0..3 and the entry point
    0x08048094 at bytes 24..27), "rtc" and a text file "frame0.txt".  Used by
    the concrete runs that witness the theorems. *)

Definition str_dot : list Z := [46].
Definition str_shell : list Z := [115; 104; 101; 108; 108].
Definition str_rtc : list Z := [114; 116; 99].
Definition str_frame0 : list Z := [102; 114; 97; 109; 101; 48; 46; 116; 120; 116].

Definition pad32 (s : list Z) : list Z := s ++ replicate (32 - length s) 0.

Definition shell_block : list Z :=
  [0x7F; 69; 76; 70] ++ replicate 20 0 ++ [0x94; 0x80; 0x04; 0x08] ++ replicate 4068 7.

Definition text_block : list Z := replicate 10 65 ++ replicate 4086 0.

Definition sample_fs : fs_image :=
  mk_fs 4 3 2
    [mk_dentry (pad32 str_dot) DIRECTORY_FILE_TYPE 0;
     mk_dentry (pad32 str_shell) REGULAR_FILE_TYPE 1;
     mk_dentry (pad32 str_rtc) RTC_FILE_TYPE 0;
     mk_dentry (pad32 str_frame0) REGULAR_FILE_TYPE 2]
    [mk_inode 0 []; mk_inode 40 [0]; mk_inode 10 [1]]
    (shell_block ++ text_block).
