(* ===== verification/FsysSpec.v ===== *)
(** * FsysSpec: what a read of a file returns, and [read_data] against it

    The abstract view of a regular file: its bytes are the concatenation of
    its data blocks, block [i] being the 4096 bytes of the data region at
    block index [block_idx_arr[i]].  [read_data] of fsys.c computes a byte
    range of that sequence piecewise (a partial first block, whole blocks,
    a partial last block, each by [memcpy] from the data region); the
    refinement theorem shows that for every request inside the file whose
    blocks lie in the image it returns exactly [length] bytes of the
    abstract file starting at [offset]. *)

From S2P Require Import Prelude Fsys.

(** Data block [b] of the image. *)
Definition data_block (fs : fs_image) (b : Z) : list Z :=
  take (Z.to_nat DISK_BLOCK_SIZE) (drop (Z.to_nat (b * DISK_BLOCK_SIZE)) (data_region fs)).

(** The bytes of the first [n] blocks of the file of [ino], in order. *)
Definition file_bytes (fs : fs_image) (ino : inode_t) (n : nat) : list Z :=
  concat (map (fun j => data_block fs (block_idx ino (Z.of_nat j))) (seq 0 n)).

(** Block [j] of [ino] is a block of the image. *)
Definition block_in_image (fs : fs_image) (ino : inode_t) (j : nat) : Prop :=
  0 <= block_idx ino (Z.of_nat j) /\
  (block_idx ino (Z.of_nat j) + 1) * DISK_BLOCK_SIZE <= Z.of_nat (length (data_region fs)).

#[export] Instance block_in_image_dec fs ino j : Decision (block_in_image fs ino j).
Proof. unfold block_in_image. apply _. Defined.

(** An image whose one file has 64 blocks, the last of which names a data
    block the image does not have. *)
Definition long_file_fs : fs_image :=
  mk_fs 1 1 1 [mk_dentry (pad32 str_frame0) REGULAR_FILE_TYPE 0]
    [mk_inode (64 * DISK_BLOCK_SIZE) (replicate 63 0 ++ [5])] (replicate 4096 0).

(** ** Lemmas on lists of equal-sized blocks *)

Section Blocks.

Context (f : nat -> list Z) (w : nat).

Lemma length_concat_blocks s n :
  (forall j, s <= j < s + n -> length (f j) = w)%nat -> length (concat (map f (seq s n))) = (n * w)%nat.
Proof.
  revert s. induction n as [|n IH]; intros s Hl; [reflexivity|].
  simpl. rewrite length_app, Hl, IH by first [lia | intros; apply Hl; lia]. lia.
Qed.

Lemma seq_split_last sb eb :
  (sb < eb)%nat -> seq 0 (S eb) = seq 0 sb ++ [sb] ++ seq (S sb) (eb - sb - 1) ++ [eb].
Proof.
  intros H. replace (S eb) with (sb + (S (eb - sb - 1) + 1))%nat by lia.
  rewrite !seq_app. simpl. repeat f_equal; lia.
Qed.

Lemma take_drop_one_block sb sbyte n :
  (forall j, j <= sb -> length (f j) = w)%nat -> (sbyte + n <= w)%nat ->
  take n (drop (sb * w + sbyte) (concat (map f (seq 0 (S sb))))) = take n (drop sbyte (f sb)).
Proof.
  intros Hl Hn. rewrite seq_S, map_app, concat_app. simpl. rewrite app_nil_r.
  rewrite drop_app_add' by (rewrite length_concat_blocks; [lia | intros; apply Hl; lia]).
  reflexivity.
Qed.

Lemma take_drop_blocks sb eb sbyte ebyte :
  (forall j, j <= eb -> length (f j) = w)%nat -> (sb < eb)%nat -> (sbyte <= w)%nat -> (ebyte <= w)%nat ->
  take ((w - sbyte) + (eb - sb - 1) * w + ebyte) (drop (sb * w + sbyte) (concat (map f (seq 0 (S eb))))) =
  drop sbyte (f sb) ++ concat (map f (seq (S sb) (eb - sb - 1))) ++ take ebyte (f eb).
Proof.
  intros Hl Hlt Hs He. rewrite (seq_split_last sb eb Hlt). rewrite !map_app, !concat_app. simpl.
  rewrite app_nil_r.
  rewrite drop_app_add' by (rewrite length_concat_blocks; [lia | intros; apply Hl; lia]).
  rewrite drop_app_le by (rewrite Hl; lia).
  rewrite <- !Nat.add_assoc, take_app_add' by (rewrite length_drop, Hl; lia).
  rewrite take_app_add' by (rewrite length_concat_blocks; [lia | intros; apply Hl; lia]).
  rewrite app_nil_r. reflexivity.
Qed.

End Blocks.

(** ** Lemmas on the image *)

Lemma memcpy_data_in fs addr n :
  0 <= addr -> 0 <= n -> addr + n <= Z.of_nat (length (data_region fs)) ->
  memcpy_data fs addr n = Some (take (Z.to_nat n) (drop (Z.to_nat addr) (data_region fs))).
Proof.
  intros Ha Hn Hl. unfold memcpy_data. case_decide; [subst; reflexivity|].
  rewrite decide_True by lia. reflexivity.
Qed.

Lemma length_data_block fs b :
  0 <= b -> (b + 1) * DISK_BLOCK_SIZE <= Z.of_nat (length (data_region fs)) ->
  length (data_block fs b) = 4096%nat.
Proof.
  unfold data_block, DISK_BLOCK_SIZE. intros Hb Hl.
  rewrite length_take_le; [reflexivity|]. rewrite length_drop. lia.
Qed.

(** A slice of a data block is a slice of the data region. *)
Lemma data_block_slice fs b sbyte n :
  0 <= b -> 0 <= sbyte -> 0 <= n -> sbyte + n <= DISK_BLOCK_SIZE ->
  take (Z.to_nat n) (drop (Z.to_nat sbyte) (data_block fs b)) =
  take (Z.to_nat n) (drop (Z.to_nat (b * DISK_BLOCK_SIZE + sbyte)) (data_region fs)).
Proof.
  unfold data_block, DISK_BLOCK_SIZE. intros Hb Hs Hn Hsn.
  replace (Z.to_nat 4096) with (Z.to_nat sbyte + (Z.to_nat 4096 - Z.to_nat sbyte))%nat by lia.
  rewrite <- take_drop_commute, take_take, Nat.min_l by lia.
  rewrite drop_drop, Z2Nat.inj_add by lia. reflexivity.
Qed.

Lemma copy_blocks_in fs ino i count :
  0 <= i -> (forall j, Z.to_nat i <= j < Z.to_nat i + count -> block_in_image fs ino j)%nat ->
  copy_blocks fs ino i count =
    Some (concat (map (fun j => data_block fs (block_idx ino (Z.of_nat j))) (seq (Z.to_nat i) count))).
Proof.
  revert i. induction count as [|c IH]; intros i Hi Hin; [reflexivity|].
  destruct (Hin (Z.to_nat i) ltac:(lia)) as [Hb Hl]. rewrite Z2Nat.id in Hb, Hl by exact Hi.
  cbn [copy_blocks]. rewrite memcpy_data_in by (unfold DISK_BLOCK_SIZE in *; lia).
  rewrite IH by (try lia; intros j Hj; apply Hin; lia).
  replace (Z.to_nat (i + 1)) with (S (Z.to_nat i)) by lia.
  cbn [seq map concat]. rewrite Z2Nat.id by exact Hi. reflexivity.
Qed.

(** The first and last pieces [read_data] copies are a suffix and a prefix
    of a data block. *)
Lemma data_block_suffix fs b sbyte :
  0 <= b -> 0 <= sbyte < DISK_BLOCK_SIZE -> (b + 1) * DISK_BLOCK_SIZE <= Z.of_nat (length (data_region fs)) ->
  take (Z.to_nat (DISK_BLOCK_SIZE - sbyte)) (drop (Z.to_nat (b * DISK_BLOCK_SIZE + sbyte)) (data_region fs))
  = drop (Z.to_nat sbyte) (data_block fs b).
Proof.
  intros Hb Hs Hl. rewrite <- data_block_slice by lia.
  apply take_ge. rewrite length_drop, length_data_block by assumption. unfold DISK_BLOCK_SIZE in *. lia.
Qed.

Lemma data_block_prefix fs b e :
  0 <= b -> 0 <= e <= DISK_BLOCK_SIZE ->
  take (Z.to_nat e) (drop (Z.to_nat (b * DISK_BLOCK_SIZE)) (data_region fs)) = take (Z.to_nat e) (data_block fs b).
Proof.
  intros Hb He. rewrite <- (drop_0 (data_block fs b)). change 0%nat with (Z.to_nat 0).
  rewrite data_block_slice by lia. rewrite Z.add_0_r. reflexivity.
Qed.

(** ** Refinement *)

(** The bytes [read_data] returns, as a slice of the abstract file. *)
Lemma read_data_refines fs inode offset length :
  0 <= inode < num_inodes fs -> 0 <= offset -> 0 <= length ->
  offset < file_size (inode_at fs inode) -> offset + length <= file_size (inode_at fs inode) ->
  file_size (inode_at fs inode) < 2 ^ 32 ->
  blocks_valid fs (inode_at fs inode) 63 = true ->
  Forall (block_in_image fs (inode_at fs inode)) (seq 0 (S (Z.to_nat ((offset + length) / DISK_BLOCK_SIZE)))) ->
  read_data fs inode offset length =
    Some (if decide (offset + length = file_size (inode_at fs inode)) then 0 else length,
          take (Z.to_nat length) (drop (Z.to_nat offset)
            (file_bytes fs (inode_at fs inode) (S (Z.to_nat ((offset + length) / DISK_BLOCK_SIZE)))))).
Proof.
  intros Hi Ho Hl Hlt Hle Hsz Hv Him. rewrite Forall_seq in Him.
  unfold read_data. remember (inode_at fs inode) as ino eqn:Eino.
  rewrite decide_False by lia. rewrite decide_False by lia.
  rewrite u32_small by (unfold in_u32; lia). rewrite decide_False by lia. rewrite Hv. cbn [negb].
  unfold DISK_BLOCK_SIZE in *.
  pose proof (Z.div_mod offset 4096 ltac:(lia)). pose proof (Z.mod_pos_bound offset 4096 ltac:(lia)).
  pose proof (Z.div_mod (offset + length) 4096 ltac:(lia)).
  pose proof (Z.mod_pos_bound (offset + length) 4096 ltac:(lia)).
  remember (offset / 4096) as sb eqn:Esb. remember (offset mod 4096) as sbyte eqn:Esbyte.
  remember ((offset + length) / 4096) as eb eqn:Eeb. remember ((offset + length) mod 4096) as ebyte eqn:Eebyte.
  assert (Hsb : 0 <= sb <= eb) by (subst; split; [apply Z.div_pos | apply Z.div_le_mono]; lia).
  clear Esb Esbyte Eeb Eebyte.
  assert (Hblk : forall j, (j <= Z.to_nat eb)%nat ->
            0 <= block_idx ino (Z.of_nat j) /\
            (block_idx ino (Z.of_nat j) + 1) * 4096 <= Z.of_nat (List.length (data_region fs))).
  { intros j Hj. apply (Him j). lia. }
  assert (Hw : forall j, (j <= Z.to_nat eb)%nat ->
            List.length (data_block fs (block_idx ino (Z.of_nat j))) = 4096%nat).
  { intros j Hj. destruct (Hblk j Hj). apply length_data_block; assumption. }
  destruct (Hblk (Z.to_nat sb) ltac:(lia)) as [Hb0 Hb1]. rewrite Z2Nat.id in Hb0, Hb1 by lia.
  destruct (Hblk (Z.to_nat eb) ltac:(lia)) as [He0 He1]. rewrite Z2Nat.id in He0, He1 by lia.
  unfold file_bytes. case_decide as Heq.
  - subst eb. rewrite memcpy_data_in by lia. cbv beta iota.
    rewrite length_take_le by (rewrite length_drop; lia).
    rewrite Z2Nat.id, (u32_small length), (u32_small (offset + length)) by (unfold in_u32; lia).
    do 2 f_equal.
    replace (Z.to_nat offset) with (Z.to_nat sb * 4096 + Z.to_nat sbyte)%nat by lia.
    rewrite take_drop_one_block with (w := 4096%nat) by (auto || lia).
    rewrite Z2Nat.id by lia. rewrite data_block_slice by (unfold DISK_BLOCK_SIZE; lia).
    unfold DISK_BLOCK_SIZE. reflexivity.
  - assert (Hlt' : sb < eb) by lia.
    rewrite memcpy_data_in by lia. rewrite copy_blocks_in by (try lia; intros j Hj; apply Him; lia).
    rewrite memcpy_data_in by lia. cbv beta iota.
    rewrite data_block_suffix, data_block_prefix by (unfold DISK_BLOCK_SIZE; lia).
    replace (data_block fs (block_idx ino sb)) with (data_block fs (block_idx ino (Z.of_nat (Z.to_nat sb))))
      by (rewrite Z2Nat.id by lia; reflexivity).
    replace (data_block fs (block_idx ino eb)) with (data_block fs (block_idx ino (Z.of_nat (Z.to_nat eb))))
      by (rewrite Z2Nat.id by lia; reflexivity).
    replace (Z.to_nat (sb + 1)) with (S (Z.to_nat sb)) by lia.
    replace (Z.to_nat (eb - sb - 1)) with (Z.to_nat eb - Z.to_nat sb - 1)%nat by lia.
    assert (Hlen : List.length (drop (Z.to_nat sbyte) (data_block fs (block_idx ino (Z.of_nat (Z.to_nat sb))))
              ++ concat (map (fun j => data_block fs (block_idx ino (Z.of_nat j)))
                               (seq (S (Z.to_nat sb)) (Z.to_nat eb - Z.to_nat sb - 1)))
              ++ take (Z.to_nat ebyte) (data_block fs (block_idx ino (Z.of_nat (Z.to_nat eb)))))
              = Z.to_nat length).
    { rewrite !length_app, length_drop, length_take_le, Hw, length_concat_blocks with (w := 4096%nat);
        try (intros; apply Hw); try rewrite Hw; lia. }
    rewrite Hlen, Z2Nat.id, (u32_small length), (u32_small (offset + length)) by (unfold in_u32; lia).
    do 2 f_equal.
    replace (Z.to_nat offset) with (Z.to_nat sb * 4096 + Z.to_nat sbyte)%nat by lia.
    replace (Z.to_nat length) with ((4096 - Z.to_nat sbyte) + (Z.to_nat eb - Z.to_nat sb - 1) * 4096
                                    + Z.to_nat ebyte)%nat by lia.
    rewrite take_drop_blocks with (w := 4096%nat) by (auto || lia). reflexivity.
Qed.

(** C12. [read_data] refines the abstract file: for an inode in range, a
    request [offset, offset + length) inside the file (whose size fits in
    32 bits), block indices that pass the code's check, and blocks that lie
    in the image, [read_data] returns the [length] bytes of the file's block
    sequence that start at [offset], and returns 0 exactly when the request
    ends at the end of the file ([length] otherwise). *)
Theorem read_data_spec fs inode offset length :
  0 <= inode < num_inodes fs -> 0 <= offset -> 0 <= length ->
  offset < file_size (inode_at fs inode) -> offset + length <= file_size (inode_at fs inode) ->
  file_size (inode_at fs inode) < 2 ^ 32 ->
  blocks_valid fs (inode_at fs inode) 63 = true ->
  Forall (block_in_image fs (inode_at fs inode)) (seq 0 (S (Z.to_nat ((offset + length) / DISK_BLOCK_SIZE)))) ->
  read_data fs inode offset length =
    Some (if decide (offset + length = file_size (inode_at fs inode)) then 0 else length,
          take (Z.to_nat length) (drop (Z.to_nat offset)
            (file_bytes fs (inode_at fs inode) (S (Z.to_nat ((offset + length) / DISK_BLOCK_SIZE)))))).
Proof. apply read_data_refines. Qed.


Lemma read_data_spec_witness :
  read_data sample_fs 1 4 20 =
    Some (if decide (4 + 20 = file_size (inode_at sample_fs 1)) then 0 else 20,
          take (Z.to_nat 20) (drop (Z.to_nat 4)
            (file_bytes sample_fs (inode_at sample_fs 1) (S (Z.to_nat ((4 + 20) / DISK_BLOCK_SIZE)))))).
Proof.
  apply read_data_spec; [| | | | | | |apply (bool_decide_eq_true_1 _); vm_compute; reflexivity];
    vm_compute; repeat split; first [reflexivity | discriminate].
Defined.

(** C23. [file_read] reads the file through the descriptor: for a position
    inside the file and a request that does not wrap 32 bits, it returns
    [n = min nbytes (size - position)], the [n] bytes of the file from the
    position, and the descriptor advanced by [n]. *)
Theorem file_read_spec fs fd nbytes :
  0 <= inode_num fd < num_inodes fs -> 0 <= file_pos fd < file_size (inode_at fs (inode_num fd)) ->
  file_size (inode_at fs (inode_num fd)) < 2 ^ 32 -> 0 <= nbytes -> file_pos fd + nbytes < 2 ^ 32 ->
  blocks_valid fs (inode_at fs (inode_num fd)) 63 = true ->
  Forall (block_in_image fs (inode_at fs (inode_num fd)))
    (seq 0 (S (Z.to_nat ((file_pos fd + Z.min nbytes (file_size (inode_at fs (inode_num fd)) - file_pos fd))
                         / DISK_BLOCK_SIZE)))) ->
  let n := Z.min nbytes (file_size (inode_at fs (inode_num fd)) - file_pos fd) in
  file_read fs fd nbytes =
    Some (n, mk_fd (fops_table_ptr fd) (inode_num fd) (file_pos fd + n) (flags fd),
          take (Z.to_nat n) (drop (Z.to_nat (file_pos fd))
            (file_bytes fs (inode_at fs (inode_num fd)) (S (Z.to_nat ((file_pos fd + n) / DISK_BLOCK_SIZE)))))).
Proof.
  intros Hi Hp Hsz Hn Hw Hv Him n. unfold file_read.
  rewrite decide_False by lia. rewrite (u32_small (file_pos fd + nbytes)) by (unfold in_u32; lia).
  assert (Hsel : (if decide (file_size (inode_at fs (inode_num fd)) <= file_pos fd + nbytes)
                  then file_size (inode_at fs (inode_num fd)) - file_pos fd else nbytes) = n).
  { subst n. case_decide; lia. }
  rewrite Hsel, (u32_small n) by (unfold in_u32; lia).
  rewrite read_data_refines by (subst n; lia || assumption).
  rewrite (u32_small (file_pos fd + n)) by (unfold in_u32; lia). reflexivity.
Qed.

Lemma file_read_spec_witness :
  let fd := mk_fd (Some file_jmptable) 2 3 0 in
  let n := Z.min 100 (file_size (inode_at sample_fs (inode_num fd)) - file_pos fd) in
  file_read sample_fs fd 100 =
    Some (n, mk_fd (fops_table_ptr fd) (inode_num fd) (file_pos fd + n) (flags fd),
          take (Z.to_nat n) (drop (Z.to_nat (file_pos fd))
            (file_bytes sample_fs (inode_at sample_fs (inode_num fd)) (S (Z.to_nat ((file_pos fd + n) / DISK_BLOCK_SIZE)))))).
Proof.
  apply file_read_spec; [| | | | | |apply (bool_decide_eq_true_1 _); vm_compute; reflexivity];
    vm_compute; repeat split; first [reflexivity | discriminate].
Defined.

(** C38. [read_data] range-checks only the first 63 block indices of an
    inode, which has room for 1023: in any image whose data region holds
    its [num_dblocks] blocks, when an inode's first 63 indices are valid
    but its index [k >= 63] is not, a one-byte read inside the file in
    block [k] passes every check and copies from outside the image
    instead of returning -1. *)
Theorem read_data_unchecked_block fs inode k offset :
  0 <= inode < num_inodes fs -> Z.of_nat (length (data_region fs)) = num_dblocks fs * DISK_BLOCK_SIZE ->
  blocks_valid fs (inode_at fs inode) 63 = true ->
  63 <= k < 1023 -> num_dblocks fs <= block_idx (inode_at fs inode) k ->
  k * DISK_BLOCK_SIZE <= offset < (k + 1) * DISK_BLOCK_SIZE - 1 ->
  offset < file_size (inode_at fs inode) ->
  read_data fs inode offset 1 = None.
Proof.
  unfold DISK_BLOCK_SIZE; intros Hi Hlen Hv Hk Hb Ho Hs.
  assert (Hu : u32 (offset + 1) = offset + 1) by (unfold u32; apply Z.mod_small; lia).
  assert (Hd : offset / 4096 = k) by (symmetry; apply (Z.div_unique _ _ _ (offset - k * 4096)); lia).
  assert (Hd' : (offset + 1) / 4096 = k) by (symmetry; apply (Z.div_unique _ _ _ (offset + 1 - k * 4096)); lia).
  unfold read_data, DISK_BLOCK_SIZE. rewrite !decide_False by lia. rewrite Hv, Hu, Hd, Hd'; cbn.
  rewrite decide_True by reflexivity. unfold memcpy_data.
  pose proof (Z.mod_pos_bound offset 4096 ltac:(lia)). rewrite !decide_False by lia. reflexivity.
Qed.

Lemma read_data_unchecked_block_witness :
  read_data long_file_fs 0 (63 * DISK_BLOCK_SIZE) 1 = None.
Proof.
  apply (read_data_unchecked_block long_file_fs 0 63); vm_compute; repeat split; (reflexivity || discriminate).
Defined.
