(* ===== verification/FsysImage.v ===== *)
(** * FsysImage: the disk image in memory and [init_fsys] (drivers/fsys.c, drivers/fsys.h)

    [init_fsys(starting_addr)] points [boot_block] at the module, the
    directory array one [DENTRY_SIZE] further and the inode array one
    [DISK_BLOCK_SIZE] further; [read_data] finds the data blocks
    [num_inodes] blocks after the inodes.  Here the memory from
    [starting_addr] on is a list of bytes, the structs of fsys.h are read
    from it little-endian field by field ([dentry_decode], [inode_decode]),
    and [init_fsys] yields the [fs_image] that the rest of the model reads.
    The layout the structs describe is written the other way round as
    [disk_of], and [init_fsys_disk_of] shows that [init_fsys] reads back
    every well-formed image laid out that way. *)

From S2P Require Import Prelude Fsys.

(** ** Reading the structs of fsys.h *)

(** [dentry_t]: 32 name bytes, [file_type] at 32, [inode_idx] at 36; the
    24 reserved bytes are not read. *)
Definition dentry_decode (b : list Z) : dentry_t :=
  mk_dentry (take 32 b) (le32 (drop 32 b)) (le32 (drop 36 b)).

(** [inode_t]: [file_size] and then the 1023 words of [block_idx_arr]. *)
Definition inode_decode (b : list Z) : inode_t :=
  mk_inode (le32 b) (map (fun j => le32 (drop (4 + 4 * j) b)) (seq 0 1023)).

(** [init_fsys(starting_addr)] with the memory from [starting_addr] on:
    [boot_block] at offset 0, [file_dir_arr] at [DENTRY_SIZE],
    [inodes_arr] at [DISK_BLOCK_SIZE], and the data blocks at
    [num_inodes * DISK_BLOCK_SIZE + inodes_arr_base_addr] (read_data's
    [block_base_addr]).  The arrays are read as far as the boot block's
    counts reach, which is as far as the lookups index them. *)
Definition init_fsys (disk : list Z) : fs_image :=
  let boot_block := disk in
  let file_dir_arr := drop (Z.to_nat DENTRY_SIZE) disk in
  let inodes_arr := drop (Z.to_nat DISK_BLOCK_SIZE) disk in
  let n_dir := le32 boot_block in
  let n_inodes := le32 (drop 4 boot_block) in
  mk_fs n_dir n_inodes (le32 (drop 8 boot_block))
    (map (fun i => dentry_decode (drop (Z.to_nat (DENTRY_SIZE * Z.of_nat i)) file_dir_arr))
         (seq 0 (Z.to_nat n_dir)))
    (map (fun i => inode_decode (drop (Z.to_nat (DISK_BLOCK_SIZE * Z.of_nat i)) inodes_arr))
         (seq 0 (Z.to_nat n_inodes)))
    (drop (Z.to_nat (n_inodes * DISK_BLOCK_SIZE)) inodes_arr).

(** ** The layout, written out

    A [uint32_t] as its four bytes, least significant first, as
    coqutil's [le_split]. *)
Fixpoint le_split (n : nat) (z : Z) : list Z :=
  match n with
  | O => []
  | S n' => z mod 2 ^ 8 :: le_split n' (z / 2 ^ 8)
  end.

Definition le32_bytes (z : Z) : list Z := le_split 4 z.

Definition dentry_bytes (d : dentry_t) : list Z :=
  file_name d ++ le32_bytes (file_type d) ++ le32_bytes (inode_idx d) ++ replicate 24 0.

Definition inode_bytes (ino : inode_t) : list Z :=
  le32_bytes (file_size ino) ++ concat (map le32_bytes (block_idx_arr ino)).

(** The boot block: the three counts, 52 reserved bytes, the directory
    entries and zero entries up to the 63 that fit in the block. *)
Definition boot_block_bytes (fs : fs_image) : list Z :=
  le32_bytes (num_dir_entries fs) ++ le32_bytes (num_inodes fs) ++ le32_bytes (num_dblocks fs)
  ++ replicate 52 0 ++ concat (map dentry_bytes (file_dir_arr fs))
  ++ replicate (64 * (63 - length (file_dir_arr fs))) 0.

Definition disk_of (fs : fs_image) : list Z :=
  boot_block_bytes fs ++ concat (map inode_bytes (inodes_arr fs)) ++ data_region fs.

(** A well-formed image: counts that match the arrays, at most the 63
    directory entries of the boot block, 32-byte names of bytes, and
    [uint32_t] fields. *)
Definition dentry_wf (d : dentry_t) : Prop :=
  length (file_name d) = 32%nat /\ Forall in_u8 (file_name d) /\
  in_u32 (file_type d) /\ in_u32 (inode_idx d).

Definition inode_wf (ino : inode_t) : Prop :=
  in_u32 (file_size ino) /\ length (block_idx_arr ino) = 1023%nat /\
  Forall in_u32 (block_idx_arr ino).

Definition image_wf (fs : fs_image) : Prop :=
  num_dir_entries fs = Z.of_nat (length (file_dir_arr fs)) /\ (length (file_dir_arr fs) <= 63)%nat /\
  num_inodes fs = Z.of_nat (length (inodes_arr fs)) /\ in_u32 (num_inodes fs) /\
  in_u32 (num_dblocks fs) /\
  Forall dentry_wf (file_dir_arr fs) /\ Forall inode_wf (inodes_arr fs).

#[global] Instance in_u32_dec z : Decision (in_u32 z).
Proof. unfold in_u32; apply _. Defined.
#[global] Instance in_u8_dec z : Decision (in_u8 z).
Proof. unfold in_u8; apply _. Defined.
#[global] Instance dentry_wf_dec d : Decision (dentry_wf d).
Proof. unfold dentry_wf; apply _. Defined.
#[global] Instance inode_wf_dec ino : Decision (inode_wf ino).
Proof. unfold inode_wf; apply _. Defined.
#[global] Instance image_wf_dec fs : Decision (image_wf fs).
Proof. unfold image_wf; apply _. Defined.

(** A one-file image in the layout: "shell" with its first data block. *)
Definition tiny_fs : fs_image :=
  mk_fs 2 2 1
    [mk_dentry (pad32 str_dot) DIRECTORY_FILE_TYPE 0;
     mk_dentry (pad32 str_shell) REGULAR_FILE_TYPE 1]
    [mk_inode 0 (replicate 1023 0); mk_inode 40 (replicate 1023 0)]
    shell_block.

(** ** Lemmas on the byte layout *)

Lemma length_le_split n z : length (le_split n z) = n.
Proof. revert z; induction n; intros; simpl; auto. Qed.

Lemma length_le32_bytes z : length (le32_bytes z) = 4%nat.
Proof. apply length_le_split. Qed.

Lemma le32_le32_bytes z rest : in_u32 z -> le32 (le32_bytes z ++ rest) = z.
Proof.
  unfold in_u32, le32, le32_bytes, nth_byte; intros Hz; cbn.
  change (2 ^ 8) with 256 in *; change (2 ^ 16) with 65536; change (2 ^ 24) with 16777216.
  change (2 ^ 32) with 4294967296 in Hz.
  Z.div_mod_to_equations; lia.
Qed.

Lemma drop_le32_bytes z rest : drop 4 (le32_bytes z ++ rest) = rest.
Proof. apply drop_app_length', eq_sym, length_le32_bytes. Qed.

(** Dropping [i] blocks of [n] bytes from a concatenation of such blocks. *)
Lemma drop_concat_uniform {A} n (bs : list (list A)) rest i :
  Forall (fun b => length b = n) bs -> (i <= length bs)%nat ->
  drop (n * i) (concat bs ++ rest) = concat (drop i bs) ++ rest.
Proof.
  intros Hall; revert i; induction Hall as [|b bs Hb Hall IH]; intros [|i] Hi;
    simpl in *; rewrite ?Nat.mul_0_r, ?drop_0; try lia; auto.
  rewrite <- app_assoc, Nat.mul_succ_r, Nat.add_comm, drop_app_add' by done.
  apply IH; lia.
Qed.

Lemma drop_concat_nth {A} n (bs : list (list A)) rest i :
  Forall (fun b => length b = n) bs -> (i < length bs)%nat ->
  drop (n * i) (concat bs ++ rest) = nth i bs [] ++ concat (drop (S i) bs) ++ rest.
Proof.
  intros Hall Hi; rewrite drop_concat_uniform by (auto; lia).
  destruct (lookup_lt_is_Some_2 bs i Hi) as [b Hb].
  rewrite (nth_lookup_Some _ _ _ _ Hb), (drop_S _ b) by done; by rewrite app_assoc.
Qed.

Lemma length_concat_uniform {A} n (bs : list (list A)) :
  Forall (fun b => length b = n) bs -> length (concat bs) = (n * length bs)%nat.
Proof. induction 1; simpl; rewrite ?length_app; lia. Qed.

(** A list rebuilt from its own elements by index. *)
Lemma map_seq_nth {A} (f : nat -> A) (l : list A) d :
  (forall i, (i < length l)%nat -> f i = nth i l d) -> map f (seq 0 (length l)) = l.
Proof.
  intros Hf; apply (nth_ext _ _ (f 0%nat) d); rewrite ?length_map, ?length_seq; auto.
  intros i Hi; rewrite map_nth, seq_nth by done; simpl; auto.
Qed.

Lemma Forall_nth_in {A} (P : A -> Prop) l i d : Forall P l -> (i < length l)%nat -> P (nth i l d).
Proof. rewrite List.Forall_nth; auto. Qed.

(** Reading back an array of fixed-size records laid out one after the
    other: the shared step of the dentry, inode and block-index arrays. *)
Lemma decode_array {A} (dec : list Z -> A) (enc : A -> list Z) (P : A -> Prop) n
    (xs : list A) rest (d : A) (f : nat -> A) :
  (forall x r, P x -> length (enc x) = n /\ dec (enc x ++ r) = x) -> Forall P xs ->
  (forall i, (i < length xs)%nat -> f i = dec (drop (n * i) (concat (map enc xs) ++ rest))) ->
  map f (seq 0 (length xs)) = xs.
Proof.
  intros Henc HP Hf; apply (map_seq_nth _ _ d); intros i Hi.
  assert (Hlen : Forall (fun b => length b = n) (map enc xs)).
  { apply Forall_forall; intros b (x & -> & Hx)%list_elem_of_fmap.
    refine (proj1 (Henc x [] _)); by eapply Forall_forall. }
  rewrite Hf, (drop_concat_nth n) by (rewrite ?length_map; auto).
  rewrite (nth_indep _ [] (enc d)), map_nth by (rewrite length_map; lia).
  apply Henc, Forall_nth_in; auto.
Qed.

#[local] Hint Resolve length_le32_bytes : kernel.

Lemma length_dentry_bytes d : dentry_wf d -> length (dentry_bytes d) = 64%nat.
Proof.
  intros (Hn & _); unfold dentry_bytes; rewrite !length_app, !length_le32_bytes, length_replicate; lia.
Qed.

Lemma length_inode_bytes ino : inode_wf ino -> length (inode_bytes ino) = 4096%nat.
Proof.
  intros (_ & Hn & _); unfold inode_bytes.
  rewrite length_app, length_le32_bytes, (length_concat_uniform 4%nat), length_map, Hn; [lia|].
  apply Forall_forall; intros b (z & -> & _)%list_elem_of_fmap; apply length_le32_bytes.
Qed.

Lemma dentry_decode_bytes d rest : dentry_wf d -> dentry_decode (dentry_bytes d ++ rest) = d.
Proof.
  intros (Hn & _ & Ht & Hi); destruct d as [name ty ino]; cbn [file_name file_type inode_idx] in *.
  unfold dentry_decode, dentry_bytes; cbn [file_name file_type inode_idx]; rewrite <- !app_assoc.
  rewrite take_app_length' by done.
  rewrite drop_app_length' by done.
  replace 36%nat with (32 + 4)%nat by lia; rewrite drop_app_add' by done.
  rewrite drop_le32_bytes, !le32_le32_bytes by done; done.
Qed.

Lemma inode_decode_bytes ino rest : inode_wf ino -> inode_decode (inode_bytes ino ++ rest) = ino.
Proof.
  intros (Hs & Hn & Hb); destruct ino as [size blocks]; cbn [file_size block_idx_arr] in *.
  unfold inode_decode, inode_bytes; cbn [file_size block_idx_arr]; rewrite <- app_assoc, le32_le32_bytes by done.
  f_equal; rewrite <- Hn; apply (decode_array le32 le32_bytes in_u32 4 _ rest 0); [|done|].
  - intros x r Hx; split; [apply length_le32_bytes | by apply le32_le32_bytes].
  - intros j _; by rewrite drop_app_add' by (symmetry; apply length_le32_bytes).
Qed.

Lemma dentry_layout d r : dentry_wf d -> length (dentry_bytes d) = 64%nat /\ dentry_decode (dentry_bytes d ++ r) = d.
Proof. split; [apply length_dentry_bytes | apply dentry_decode_bytes]; done. Qed.

Lemma inode_layout ino r : inode_wf ino -> length (inode_bytes ino) = 4096%nat /\ inode_decode (inode_bytes ino ++ r) = ino.
Proof. split; [apply length_inode_bytes | apply inode_decode_bytes]; done. Qed.

Lemma Forall_length_map {A} (enc : A -> list Z) (P : A -> Prop) n xs :
  (forall x, P x -> length (enc x) = n) -> Forall P xs -> Forall (fun b => length b = n) (map enc xs).
Proof. intros H; induction 1; constructor; auto. Qed.

Section Layout.
Variable fs : fs_image.
Hypothesis Hwf : image_wf fs.

Lemma drop_dentries :
  drop 64 (disk_of fs) =
  concat (map dentry_bytes (file_dir_arr fs))
  ++ replicate (64 * (63 - length (file_dir_arr fs))) 0 ++ concat (map inode_bytes (inodes_arr fs)) ++ data_region fs.
Proof.
  unfold disk_of, boot_block_bytes; rewrite <- !app_assoc.
  replace 64%nat with (4 + (4 + (4 + 52)))%nat by lia.
  rewrite !drop_app_add' by (symmetry; apply length_le32_bytes).
  by rewrite drop_app_length' by (by rewrite length_replicate).
Qed.

Lemma drop_inodes : drop 4096 (disk_of fs) = concat (map inode_bytes (inodes_arr fs)) ++ data_region fs.
Proof.
  destruct Hwf as (_ & H63 & _ & _ & _ & Hd & _).
  replace 4096%nat with (64 + (64 * length (file_dir_arr fs) + 64 * (63 - length (file_dir_arr fs))))%nat by lia.
  rewrite <- drop_drop, drop_dentries, app_assoc, drop_app_length'; [done|].
  rewrite length_app, length_replicate, (length_concat_uniform 64), length_map; [lia|].
  apply (Forall_length_map _ dentry_wf); [apply length_dentry_bytes | done].
Qed.

End Layout.

Lemma Z_to_nat_mul_of_nat c i : 0 <= c -> Z.to_nat (c * Z.of_nat i) = (Z.to_nat c * i)%nat.
Proof. intros; rewrite Z2Nat.inj_mul, Nat2Z.id by lia; done. Qed.

Lemma le32_disk_counts fs : image_wf fs ->
  le32 (disk_of fs) = num_dir_entries fs /\ le32 (drop 4 (disk_of fs)) = num_inodes fs /\
  le32 (drop 8 (disk_of fs)) = num_dblocks fs.
Proof.
  intros (Hnd & H63 & _ & Hni & Hnb & _); unfold disk_of, boot_block_bytes; rewrite <- !app_assoc.
  rewrite <- (drop_drop _ 4 4), !drop_le32_bytes, !le32_le32_bytes by (done || unfold in_u32; lia).
  done.
Qed.

(** C24. [init_fsys] reads back the image: on the memory laid out by
    [disk_of] from a well-formed image (counts matching the arrays, at most
    63 directory entries, [uint32_t] fields, 32-byte names), the boot
    block's counts, every directory entry, every inode with its 1023 block
    indices and the data region come back as they were written. *)
Theorem init_fsys_disk_of fs : image_wf fs -> init_fsys (disk_of fs) = fs.
Proof.
  intros Hwf; pose proof Hwf as (Hnd & H63 & Hni & Hni32 & Hnb & Hd & Hi).
  destruct (le32_disk_counts fs Hwf) as (E0 & E4 & E8).
  unfold init_fsys; rewrite E0, E4, E8.
  destruct fs as [nd ni nb ds inos data]; cbn [num_dir_entries num_inodes num_dblocks
    file_dir_arr inodes_arr data_region] in *; subst nd ni; f_equal.
  - rewrite Nat2Z.id; eapply (decode_array dentry_decode dentry_bytes dentry_wf 64 _ _ zero_dentry);
      [apply dentry_layout | done |].
    intros i _; rewrite Z_to_nat_mul_of_nat by (unfold DENTRY_SIZE; lia).
    change (Z.to_nat DENTRY_SIZE) with 64%nat; rewrite drop_dentries; reflexivity.
  - rewrite Nat2Z.id; eapply (decode_array inode_decode inode_bytes inode_wf 4096 _ _ zero_inode);
      [apply inode_layout | done |].
    intros i _; rewrite Z_to_nat_mul_of_nat by (unfold DISK_BLOCK_SIZE; lia).
    change (Z.to_nat DISK_BLOCK_SIZE) with 4096%nat; rewrite (drop_inodes _ Hwf); reflexivity.
  - change (Z.to_nat DISK_BLOCK_SIZE) with 4096%nat; rewrite (drop_inodes _ Hwf).
    rewrite Z.mul_comm, Z_to_nat_mul_of_nat by (unfold DISK_BLOCK_SIZE; lia).
    change (Z.to_nat DISK_BLOCK_SIZE) with 4096%nat.
    assert (HI : Forall (fun b => length b = 4096%nat) (map inode_bytes inos))
      by (apply (Forall_length_map _ inode_wf); [apply length_inode_bytes | done]).
    rewrite (drop_concat_uniform 4096) by (rewrite ?length_map; auto).
    cbn [inodes_arr data_region]; by rewrite drop_ge by (rewrite length_map; lia).
Qed.

(** The witness of C1 on a two-entry image. *)
Lemma init_fsys_disk_of_witness : image_wf tiny_fs /\ init_fsys (disk_of tiny_fs) = tiny_fs.
Proof.
  assert (H : image_wf tiny_fs) by (apply (@bool_decide_eq_true_1 (image_wf tiny_fs) _); vm_compute; reflexivity).
  split; [exact H | apply init_fsys_disk_of; exact H].
Defined.
