(* ===== verification/State.v ===== *)
(** * State: the kernel's global state

    The globals that process.h, terminal.c, pit.c, rtc.c, intr.c and the TSS
    of x86_desc.h define, gathered in one record [kstate] (spec 9: a single
    process-wide scheduler state).  Pointers that always address an element
    of a fixed array are kept as the element's index: [current_PCB] is the
    pid whose PCB slot (8 MB - (pid + 1) * 8 KB) it addresses, and
    [terminal_active] and [terminal_shown] are [&terminal_arr[TA_idx]] and
    [&terminal_arr[TS_idx]], which every assignment in terminal.c keeps
    equal.  Kernel memory that no code has written reads as zero.  The
    console routines of lib.c (not under src/) are modelled by the screen
    coordinates and video pointer they read and write; characters printed
    by [printf] are not modelled. *)

From S2P Require Import Prelude Paging Fsys.

(** ** Process control block (process.h) *)

Definition MAX_PROCESSES : nat := 8.
Definition MAX_FDS : nat := 8.
Definition _8KB : Z := 8192.
Definition PROGRAM_START : Z := 0x00048000.

Record pcb_t := mk_pcb {
  id : nat;
  parent_pid : nat;
  parent_esp0 : Z;
  parent_ebp : Z;
  open_files : Z;          (** [uint8_t]: bit [fd] set when [fd] is open *)
  vidmap_inuse : Z;
  cmd_args : list Z;       (** the C string in [cmd_args[129]] *)
  file_desc_arr : list file_desc_t }.

Definition zero_pcb : pcb_t := mk_pcb 0 0 0 0 0 0 [] (replicate MAX_FDS zero_fd).

(** The kernel stack top of a process: [USER_MEM_BASE_ADDR - pid * _8KB]. *)
Definition kernel_stack_top (pid : nat) : Z := USER_MEM_BASE_ADDR - Z.of_nat pid * _8KB.

(** ** Terminal record (terminal.h) *)

Record terminal_t := mk_terminal {
  saved_ebp : Z;
  saved_esp0 : Z;
  t_currentPID : nat;         (** [terminal_t.currentPID] *)
  t_currentPCB : nat;         (** [terminal_t.currentPCB], as a pid *)
  cursor_x : Z;
  cursor_y : Z;
  keyboard_buffer : list Z;   (** 128 bytes *)
  keyboard_idx : Z;
  terminal_newline : Z;
  rtc_interrupt_occurred : Z;
  rtc_freq_bit : Z }.

Definition zero_terminal : terminal_t := mk_terminal 0 0 0 0 0 0 (replicate 128 0) 0 0 0 0.

(** ** Console state of lib.c *)

Record console_t := mk_console {
  screen_x : Z;
  screen_y : Z;
  video_mem : Z;          (** the page [printf] writes to ([setVidPointer]) *)
  hw_cursor : Z * Z }.    (** the VGA cursor ([update_cursor]) *)

(** ** The global state *)

Record kstate := mk_kstate {
  activeProcesses : Z;         (** process.h, [uint32_t] *)
  currentPID : nat;            (** process.h *)
  current_PCB : nat;           (** process.h, as a pid *)
  pcbs : gmap nat pcb_t;       (** the PCB slots in kernel memory *)
  tss_esp0 : Z;                (** [tss.esp0] *)
  tss_ss0 : Z;                 (** [tss.ss0] *)
  exception_flag : Z;          (** intr.c, [uint8_t] *)
  TA_idx : nat;                (** terminal.c *)
  TS_idx : nat;                (** terminal.c *)
  terminal_arr : list terminal_t;
  pit_counter : nat;           (** pit.c *)
  rtc_counter : Z;             (** rtc.h, [uint32_t] *)
  paging : mmu;
  console : console_t;
  vmem : gmap Z (list Z);      (** physical video pages by base address *)
  user_mem : gmap Z (list Z);  (** blocks the kernel stored in user frames, by physical address *)
  intr_enabled : bool;         (** EFLAGS.IF: [cli] clears it, [sti] sets it *)
  eoi_log : list Z }.          (** IRQ numbers acknowledged by [send_eoi], latest first *)

Definition KERNEL_DS : Z := 0x0018.
Definition USER_CS : Z := 0x0023.
Definition USER_DS : Z := 0x002B.

(** ** Reading and writing the state *)

Definition pcb_at (s : kstate) (pid : nat) : pcb_t := default zero_pcb (pcbs s !! pid).
Definition cur_pcb (s : kstate) : pcb_t := pcb_at s (current_PCB s).
Definition term_at (s : kstate) (i : nat) : terminal_t := nth i (terminal_arr s) zero_terminal.
Definition fd_at (p : pcb_t) (fd : nat) : file_desc_t := nth fd (file_desc_arr p) zero_fd.

Definition set_pcbs (s : kstate) (m : gmap nat pcb_t) : kstate :=
  mk_kstate (activeProcesses s) (currentPID s) (current_PCB s) m (tss_esp0 s) (tss_ss0 s)
    (exception_flag s) (TA_idx s) (TS_idx s) (terminal_arr s) (pit_counter s) (rtc_counter s)
    (paging s) (console s) (vmem s) (user_mem s) (intr_enabled s) (eoi_log s).

Definition set_pcb (s : kstate) (pid : nat) (p : pcb_t) : kstate := set_pcbs s (<[pid := p]> (pcbs s)).

Definition set_terms (s : kstate) (ts : list terminal_t) : kstate :=
  mk_kstate (activeProcesses s) (currentPID s) (current_PCB s) (pcbs s) (tss_esp0 s) (tss_ss0 s)
    (exception_flag s) (TA_idx s) (TS_idx s) ts (pit_counter s) (rtc_counter s)
    (paging s) (console s) (vmem s) (user_mem s) (intr_enabled s) (eoi_log s).

(** [terminal_arr[i] = t]; the array has [MAX_TERMINALS] elements and the
    index is always in range (stdpp's list insert leaves the list alone
    out of range). *)
Definition set_term (s : kstate) (i : nat) (t : terminal_t) : kstate :=
  set_terms s (<[i := t]> (terminal_arr s)).

Definition set_paging (s : kstate) (m : mmu) : kstate :=
  mk_kstate (activeProcesses s) (currentPID s) (current_PCB s) (pcbs s) (tss_esp0 s) (tss_ss0 s)
    (exception_flag s) (TA_idx s) (TS_idx s) (terminal_arr s) (pit_counter s) (rtc_counter s)
    m (console s) (vmem s) (user_mem s) (intr_enabled s) (eoi_log s).

Definition set_console (s : kstate) (c : console_t) : kstate :=
  mk_kstate (activeProcesses s) (currentPID s) (current_PCB s) (pcbs s) (tss_esp0 s) (tss_ss0 s)
    (exception_flag s) (TA_idx s) (TS_idx s) (terminal_arr s) (pit_counter s) (rtc_counter s)
    (paging s) c (vmem s) (user_mem s) (intr_enabled s) (eoi_log s).

(** The process globals [activeProcesses], [currentPID], [current_PCB]. *)
Definition set_proc (s : kstate) (active : Z) (pid pcb : nat) : kstate :=
  mk_kstate active pid pcb (pcbs s) (tss_esp0 s) (tss_ss0 s)
    (exception_flag s) (TA_idx s) (TS_idx s) (terminal_arr s) (pit_counter s) (rtc_counter s)
    (paging s) (console s) (vmem s) (user_mem s) (intr_enabled s) (eoi_log s).

Definition set_tss (s : kstate) (ss0 esp0 : Z) : kstate :=
  mk_kstate (activeProcesses s) (currentPID s) (current_PCB s) (pcbs s) esp0 ss0
    (exception_flag s) (TA_idx s) (TS_idx s) (terminal_arr s) (pit_counter s) (rtc_counter s)
    (paging s) (console s) (vmem s) (user_mem s) (intr_enabled s) (eoi_log s).

Definition set_exception_flag (s : kstate) (v : Z) : kstate :=
  mk_kstate (activeProcesses s) (currentPID s) (current_PCB s) (pcbs s) (tss_esp0 s) (tss_ss0 s)
    v (TA_idx s) (TS_idx s) (terminal_arr s) (pit_counter s) (rtc_counter s)
    (paging s) (console s) (vmem s) (user_mem s) (intr_enabled s) (eoi_log s).

Definition set_indices (s : kstate) (ta ts : nat) : kstate :=
  mk_kstate (activeProcesses s) (currentPID s) (current_PCB s) (pcbs s) (tss_esp0 s) (tss_ss0 s)
    (exception_flag s) ta ts (terminal_arr s) (pit_counter s) (rtc_counter s)
    (paging s) (console s) (vmem s) (user_mem s) (intr_enabled s) (eoi_log s).

Definition set_pit_counter (s : kstate) (n : nat) : kstate :=
  mk_kstate (activeProcesses s) (currentPID s) (current_PCB s) (pcbs s) (tss_esp0 s) (tss_ss0 s)
    (exception_flag s) (TA_idx s) (TS_idx s) (terminal_arr s) n (rtc_counter s)
    (paging s) (console s) (vmem s) (user_mem s) (intr_enabled s) (eoi_log s).

Definition set_rtc_counter (s : kstate) (n : Z) : kstate :=
  mk_kstate (activeProcesses s) (currentPID s) (current_PCB s) (pcbs s) (tss_esp0 s) (tss_ss0 s)
    (exception_flag s) (TA_idx s) (TS_idx s) (terminal_arr s) (pit_counter s) n
    (paging s) (console s) (vmem s) (user_mem s) (intr_enabled s) (eoi_log s).

Definition set_vmem (s : kstate) (v : gmap Z (list Z)) : kstate :=
  mk_kstate (activeProcesses s) (currentPID s) (current_PCB s) (pcbs s) (tss_esp0 s) (tss_ss0 s)
    (exception_flag s) (TA_idx s) (TS_idx s) (terminal_arr s) (pit_counter s) (rtc_counter s)
    (paging s) (console s) v (user_mem s) (intr_enabled s) (eoi_log s).

Definition set_user_mem (s : kstate) (u : gmap Z (list Z)) : kstate :=
  mk_kstate (activeProcesses s) (currentPID s) (current_PCB s) (pcbs s) (tss_esp0 s) (tss_ss0 s)
    (exception_flag s) (TA_idx s) (TS_idx s) (terminal_arr s) (pit_counter s) (rtc_counter s)
    (paging s) (console s) (vmem s) u (intr_enabled s) (eoi_log s).

(** A write through [terminal_active]. *)
Definition update_active (f : terminal_t -> terminal_t) (s : kstate) : kstate :=
  set_term s (TA_idx s) (f (term_at s (TA_idx s))).

(** A write through [current_PCB]. *)
Definition update_cur_pcb (f : pcb_t -> pcb_t) (s : kstate) : kstate :=
  set_pcb s (current_PCB s) (f (cur_pcb s)).

(** [cli()] and [sti()] *)
Definition set_if (s : kstate) (b : bool) : kstate :=
  mk_kstate (activeProcesses s) (currentPID s) (current_PCB s) (pcbs s) (tss_esp0 s) (tss_ss0 s)
    (exception_flag s) (TA_idx s) (TS_idx s) (terminal_arr s) (pit_counter s) (rtc_counter s)
    (paging s) (console s) (vmem s) (user_mem s) b (eoi_log s).

Definition cli (s : kstate) : kstate := set_if s false.
Definition sti (s : kstate) : kstate := set_if s true.

(** [send_eoi(irq_num)] of i8259.c, recorded as the acknowledged IRQ. *)
Definition send_eoi (irq : Z) (s : kstate) : kstate :=
  mk_kstate (activeProcesses s) (currentPID s) (current_PCB s) (pcbs s) (tss_esp0 s) (tss_ss0 s)
    (exception_flag s) (TA_idx s) (TS_idx s) (terminal_arr s) (pit_counter s) (rtc_counter s)
    (paging s) (console s) (vmem s) (user_mem s) (intr_enabled s) (irq :: eoi_log s).

(** [set_user_page] and [set_video_mem_page] on the state: the second reads
    the globals [TA_idx] and [TS_idx]. *)
Definition k_set_user_page (pid : nat) (s : kstate) : kstate :=
  set_paging s (set_user_page (Z.of_nat pid) (paging s)).

Definition k_set_video_mem_page (present : Z) (s : kstate) : kstate :=
  set_paging s (set_video_mem_page present (TA_idx s) (TS_idx s) (paging s)).

(** ** Control transfers

    The raw transfers of the assembly wrappers, as values: a C function of
    the model returns the state and one of these. *)
Inductive ctl :=
| Ret (v : Z)                             (** the function returns [v] *)
| Iret (ss esp eflags cs eip : Z)         (** [execute_asm]: [iret] to user mode *)
| HaltAsm (ebp ret : Z)                   (** [halt_asm]: return [ret] from the [execute] frame [ebp] *)
| SwtchCtx (ebp : Z)                      (** [swtch_ctx]: resume the frame [ebp] *)
| WaitNewline                             (** [terminal_read] spins on the line flag *)
| WaitRtc                                 (** [rtc_read] spins on the RTC flag *)
| Spin                                    (** [while (1)] of a fatal exception handler *)
| Fault.                                  (** undefined behaviour: a NULL call or a copy out of bounds *)

(** ** Console routines of lib.c *)

Definition getX (s : kstate) : Z := screen_x (console s).
Definition getY (s : kstate) : Z := screen_y (console s).

Definition setVidPointer (p : Z) (s : kstate) : kstate :=
  let c := console s in set_console s (mk_console (screen_x c) (screen_y c) p (hw_cursor c)).

Definition editScreenCoords (x y : Z) (s : kstate) : kstate :=
  let c := console s in set_console s (mk_console x y (video_mem c) (hw_cursor c)).

Definition update_cursor (x y : Z) (s : kstate) : kstate :=
  let c := console s in set_console s (mk_console (screen_x c) (screen_y c) (video_mem c) (x, y)).

(** The state before initialisation: every global zero, paging not set up. *)
Definition zero_console : console_t := mk_console 0 0 VMEM_BASE_ADDR (0, 0).

Definition zero_kstate : kstate :=
  mk_kstate 0 0 0 ∅ 0 KERNEL_DS 0 0 0 [] 0 0 boot_mmu zero_console ∅ ∅ false [].

(** The user window is bound to the current process: the last write of
    directory entry 32 was [set_user_page(currentPID)]. *)
Definition window_bound (s : kstate) : Prop :=
  exists m0, paging s = set_user_page (Z.of_nat (currentPID s)) m0.

(** Both windows are bound as the scheduler leaves them: the video window
    for the current process's [vidmap_inuse] and the active and shown
    terminals, the user window for the current process. *)
Definition windows_bound (s : kstate) : Prop :=
  exists m0, paging s = set_video_mem_page (vidmap_inuse (cur_pcb s)) (TA_idx s) (TS_idx s)
                          (set_user_page (Z.of_nat (currentPID s)) m0).

(** Every PCB written so far has its eight descriptor slots. *)
Definition pcbs_wf (s : kstate) : Prop :=
  forall p pc, pcbs s !! p = Some pc -> length (file_desc_arr pc) = MAX_FDS.

(** ** Lemmas on the state *)

Lemma set_paging_id s : set_paging s (paging s) = s.
Proof. destruct s; reflexivity. Qed.

Lemma k_set_user_page_twice a b s :
  k_set_user_page a (k_set_user_page b s) = k_set_user_page a s.
Proof. unfold k_set_user_page. simpl. by rewrite set_user_page_twice. Qed.

Lemma k_set_user_page_bound s : window_bound s -> k_set_user_page (currentPID s) s = s.
Proof.
  intros [m0 Hm]. unfold k_set_user_page. rewrite Hm, set_user_page_twice, <- Hm.
  apply set_paging_id.
Qed.

Lemma window_bound_k_set_user_page p s : window_bound (k_set_user_page (currentPID s) (k_set_user_page p s)).
Proof. exists (paging (k_set_user_page p s)). reflexivity. Qed.

#[export] Hint Rewrite k_set_user_page_twice : kernel_rw.

Lemma windows_bound_window_bound s : windows_bound s -> window_bound s.
Proof.
  intros [m0 Hm]. exists (set_video_mem_page (vidmap_inuse (cur_pcb s)) (TA_idx s) (TS_idx s) m0).
  rewrite Hm. symmetry. apply set_user_page_video_comm.
Qed.

Lemma pcb_at_set_pcb_eq s p pc : pcb_at (set_pcb s p pc) p = pc.
Proof. unfold pcb_at, set_pcb. simpl. by rewrite lookup_insert_eq. Qed.

Lemma pcb_at_set_pcb_ne s p q pc : q <> p -> pcb_at (set_pcb s p pc) q = pcb_at s q.
Proof. intros Hne. unfold pcb_at, set_pcb. simpl. by rewrite lookup_insert_ne by congruence. Qed.

Lemma term_at_set_term_eq s i t : (i < length (terminal_arr s))%nat -> term_at (set_term s i t) i = t.
Proof.
  intros Hi. unfold term_at, set_term. simpl. rewrite nth_lookup.
  by rewrite list_lookup_insert_eq by exact Hi.
Qed.

Lemma term_at_set_term_ne s i j t : j <> i -> term_at (set_term s i t) j = term_at s j.
Proof.
  intros Hne. unfold term_at, set_term. simpl. rewrite !nth_lookup.
  by rewrite list_lookup_insert_ne by congruence.
Qed.

Lemma length_set_term s i t : length (terminal_arr (set_term s i t)) = length (terminal_arr s).
Proof. apply length_insert. Qed.

#[export] Hint Rewrite pcb_at_set_pcb_eq term_at_set_term_eq length_set_term : kernel_rw.

Lemma term_at_set_paging s m i : term_at (set_paging s m) i = term_at s i.
Proof. reflexivity. Qed.

Lemma pcb_at_set_paging s m p : pcb_at (set_paging s m) p = pcb_at s p.
Proof. reflexivity. Qed.

#[export] Hint Rewrite term_at_set_paging pcb_at_set_paging : kernel_rw.

(** [set_video_mem_page] touches the paging state only. *)
Lemma k_set_video_mem_page_same v s :
  let s' := k_set_video_mem_page v s in
  TA_idx s' = TA_idx s /\ TS_idx s' = TS_idx s /\ currentPID s' = currentPID s /\
  current_PCB s' = current_PCB s /\ tss_esp0 s' = tss_esp0 s /\
  terminal_arr s' = terminal_arr s /\ activeProcesses s' = activeProcesses s /\
  pcbs s' = pcbs s /\ pit_counter s' = pit_counter s /\ eoi_log s' = eoi_log s /\
  exception_flag s' = exception_flag s /\
  paging s' = set_video_mem_page v (TA_idx s) (TS_idx s) (paging s).
Proof. repeat split. Qed.

Lemma set_pit_counter_same s n :
  let s' := set_pit_counter s n in
  TA_idx s' = TA_idx s /\ TS_idx s' = TS_idx s /\ currentPID s' = currentPID s /\
  current_PCB s' = current_PCB s /\ tss_esp0 s' = tss_esp0 s /\
  terminal_arr s' = terminal_arr s /\ activeProcesses s' = activeProcesses s /\
  pcbs s' = pcbs s /\ pit_counter s' = n /\ eoi_log s' = eoi_log s /\
  exception_flag s' = exception_flag s /\ paging s' = paging s.
Proof. repeat split. Qed.
