(* ===== verification/Pic.v ===== *)
(** * Pic: the 8259 interrupt controller driver (drivers/i8259.c)

    Two cascaded 8259 controllers.  The driver keeps the globals
    [master_mask] and [slave_mask]; the controllers hold their interrupt
    mask registers (IMR), which [inb] on a data port reads back.  A byte
    written to a data port becomes that controller's IMR; during
    [i8259_init] the controller takes the three bytes after ICW1 as
    initialisation words instead, but the sequence ends with an OCW1 to
    each data port, so the IMRs after it are those last bytes either way.
    Every byte written is kept, latest first, in [pic_log].

    The constants of i8259.h (the ICWs, [EOI] and [SLAVE_ID]) are not in
    the repository and enter as parameters; the interrupt flag is the
    [intr_enabled] field of the kernel state. *)

From S2P Require Import Prelude Paging State.

Inductive pic_port := MasterCmd | MasterData | SlaveCmd | SlaveData.

#[export] Instance pic_port_eq_dec : EqDecision pic_port.
Proof. solve_decision. Defined.

(** i8259.c's globals and the two controllers' mask registers. *)
Record pic_t := mk_pic {
  master_mask : Z; slave_mask : Z;      (** [uint8_t] globals of i8259.c *)
  master_imr : Z; slave_imr : Z;        (** the controllers' IMRs *)
  pic_log : list (pic_port * Z) }.

(** [outb(v, port)]: the byte is truncated to 8 bits. *)
Definition outb (v : Z) (port : pic_port) (p : pic_t) : pic_t :=
  let b := u8 v in
  mk_pic (master_mask p) (slave_mask p)
    (if decide (port = MasterData) then b else master_imr p)
    (if decide (port = SlaveData) then b else slave_imr p)
    ((port, b) :: pic_log p).

Definition set_masks (m s : Z) (p : pic_t) : pic_t :=
  mk_pic m s (master_imr p) (slave_imr p) (pic_log p).

(** [cli_and_save(save); ... restore_flags(save); sti();] around [body]. *)
Definition pic_critical (body : pic_t -> pic_t) (p : pic_t) (s : kstate) : pic_t * kstate :=
  (body p, sti (set_if (cli s) (intr_enabled s))).

Section I8259.

Context (ICW1 ICW2_MASTER ICW2_SLAVE ICW3_MASTER ICW3_SLAVE ICW4 EOI SLAVE_ID : Z).

(** [i8259_init()] *)
Definition i8259_init (p : pic_t) (s : kstate) : pic_t * kstate :=
  pic_critical (fun p =>
    outb 0xFF SlaveData (outb 0xFF MasterData
    (outb ICW4 SlaveData (outb ICW4 MasterData
    (outb ICW3_SLAVE SlaveData (outb ICW3_MASTER MasterData
    (outb ICW2_SLAVE SlaveData (outb ICW2_MASTER MasterData
    (outb ICW1 SlaveCmd (outb ICW1 MasterCmd
    (outb 0xFF SlaveData (outb 0xFF MasterData p)))))))))))) p s.

(** [enable_irq(irq_num)]: [mask] is the [uint16_t] [~(1 << irq_num)]. *)
Definition enable_irq (irq : Z) (p : pic_t) (s : kstate) : pic_t * kstate :=
  pic_critical (fun p =>
    let mask := u16 (.~ (1 <<< irq)) in
    if decide (8 <= irq) then
      let sm := u8 (slave_imr p .& u8 (mask >>> 8)) in
      let p1 := outb sm SlaveData (set_masks (master_mask p) sm p) in
      outb (.~ (1 <<< SLAVE_ID) .& master_imr p1) MasterData p1
    else
      let mm := u8 (master_imr p .& u8 mask) in
      outb mm MasterData (set_masks mm (slave_mask p) p)) p s.

(** [disable_irq(irq_num)]: [mask] is the [uint16_t] [1 << irq_num]. *)
Definition disable_irq (irq : Z) (p : pic_t) (s : kstate) : pic_t * kstate :=
  pic_critical (fun p =>
    let mask := u16 (1 <<< irq) in
    if decide (8 <= irq) then
      let sm := u8 (slave_imr p .| u8 (mask >>> 8)) in
      outb sm SlaveData (set_masks (master_mask p) sm p)
    else
      let mm := u8 (master_imr p .| u8 mask) in
      outb mm MasterData (set_masks mm (slave_mask p) p)) p s.

(** [send_eoi(irq_num)]: the bytes written to the command ports. *)
Definition pic_send_eoi (irq : Z) (p : pic_t) : pic_t :=
  if decide (8 <= irq) then outb (EOI .| SLAVE_ID) MasterCmd (outb (EOI .| (irq .& 7)) SlaveCmd p)
  else outb (EOI .| irq) MasterCmd p.

End I8259.

(** Whether IRQ [i] (0-15) is masked: a bit of the master's IMR for 0-7,
    of the slave's for 8-15. *)
Definition irq_masked (p : pic_t) (i : nat) : bool :=
  if decide (i < 8)%nat then CHECK_FLAG (master_imr p) i else CHECK_FLAG (slave_imr p) (i - 8).

(** The controllers before the kernel writes them (their state at reset is
    not read by the driver). *)
Definition pic_reset : pic_t := mk_pic 0 0 0 0 [].

(** ** Lemmas *)

Lemma testbit_pow2_shift k n : 0 <= k -> 0 <= n -> Z.testbit (1 <<< k) n = (k =? n).
Proof. intros Hk Hn. rewrite Z.shiftl_1_l. apply Z.pow2_bits_eqb, Hk. Qed.

Lemma testbit_lnot_pow2 k n : 0 <= k -> 0 <= n -> Z.testbit (.~ (1 <<< k)) n = negb (k =? n).
Proof. intros Hk Hn. rewrite Z.lnot_spec, testbit_pow2_shift by assumption. reflexivity. Qed.

Lemma testbit_mod_low x w n : 0 <= n < w -> Z.testbit (x mod 2 ^ w) n = Z.testbit x n.
Proof. intros Hn. apply Z.mod_pow2_bits_low. lia. Qed.

Lemma CHECK_FLAG_u8 x i : (i < 8)%nat -> CHECK_FLAG (u8 x) i = CHECK_FLAG x i.
Proof. intros Hi. unfold CHECK_FLAG, u8. apply testbit_mod_low. lia. Qed.

(** The master's new mask bit [i] in [enable_irq] for [irq] below 8. *)
Lemma enable_master_bit x irq i :
  0 <= irq < 8 -> (i < 8)%nat ->
  CHECK_FLAG (u8 (x .& u8 (u16 (.~ (1 <<< irq))))) i = CHECK_FLAG x i && negb (irq =? Z.of_nat i).
Proof.
  intros Hirq Hi. rewrite CHECK_FLAG_u8 by exact Hi. unfold CHECK_FLAG, u8, u16.
  rewrite Z.land_spec, !testbit_mod_low, testbit_lnot_pow2 by lia. reflexivity.
Qed.

(** The slave's new mask bit [i] in [enable_irq] for [irq] from 8 to 15. *)
Lemma enable_slave_bit x irq i :
  8 <= irq < 16 -> (i < 8)%nat ->
  CHECK_FLAG (u8 (x .& u8 (u16 (.~ (1 <<< irq)) >>> 8))) i = CHECK_FLAG x i && negb (irq =? Z.of_nat i + 8).
Proof.
  intros Hirq Hi. rewrite CHECK_FLAG_u8 by exact Hi. unfold CHECK_FLAG, u8, u16.
  rewrite Z.land_spec, testbit_mod_low, Z.shiftr_spec, testbit_mod_low, testbit_lnot_pow2 by lia.
  reflexivity.
Qed.

Lemma enable_cascade_bit x k i :
  0 <= k -> (i < 8)%nat ->
  CHECK_FLAG (u8 (.~ (1 <<< k) .& x)) i = negb (k =? Z.of_nat i) && CHECK_FLAG x i.
Proof.
  intros Hk Hi. rewrite CHECK_FLAG_u8 by exact Hi. unfold CHECK_FLAG.
  rewrite Z.land_spec, testbit_lnot_pow2 by lia. reflexivity.
Qed.

Lemma disable_master_bit x irq i :
  0 <= irq < 8 -> (i < 8)%nat ->
  CHECK_FLAG (u8 (x .| u8 (u16 (1 <<< irq)))) i = CHECK_FLAG x i || (irq =? Z.of_nat i).
Proof.
  intros Hirq Hi. rewrite CHECK_FLAG_u8 by exact Hi. unfold CHECK_FLAG, u8, u16.
  rewrite Z.lor_spec, !testbit_mod_low, testbit_pow2_shift by lia. reflexivity.
Qed.

Lemma disable_slave_bit x irq i :
  8 <= irq < 16 -> (i < 8)%nat ->
  CHECK_FLAG (u8 (x .| u8 (u16 (1 <<< irq) >>> 8))) i = CHECK_FLAG x i || (irq =? Z.of_nat i + 8).
Proof.
  intros Hirq Hi. rewrite CHECK_FLAG_u8 by exact Hi. unfold CHECK_FLAG, u8, u16.
  rewrite Z.lor_spec, testbit_mod_low, Z.shiftr_spec, testbit_mod_low, testbit_pow2_shift by lia.
  reflexivity.
Qed.

Lemma master_imr_outb_master v p : master_imr (outb v MasterData p) = u8 v.
Proof. reflexivity. Qed.
Lemma master_imr_outb_slave v p : master_imr (outb v SlaveData p) = master_imr p.
Proof. reflexivity. Qed.
Lemma master_imr_outb_cmd v port p : port = MasterCmd \/ port = SlaveCmd -> master_imr (outb v port p) = master_imr p.
Proof. intros [-> | ->]; reflexivity. Qed.
Lemma slave_imr_outb_slave v p : slave_imr (outb v SlaveData p) = u8 v.
Proof. reflexivity. Qed.
Lemma slave_imr_outb_master v p : slave_imr (outb v MasterData p) = slave_imr p.
Proof. reflexivity. Qed.
Lemma slave_imr_outb_cmd v port p : port = MasterCmd \/ port = SlaveCmd -> slave_imr (outb v port p) = slave_imr p.
Proof. intros [-> | ->]; reflexivity. Qed.
Lemma master_imr_set_masks m s p : master_imr (set_masks m s p) = master_imr p.
Proof. reflexivity. Qed.
Lemma slave_imr_set_masks m s p : slave_imr (set_masks m s p) = slave_imr p.
Proof. reflexivity. Qed.
Lemma u8_u8 x : u8 (u8 x) = u8 x.
Proof. apply Z.mod_mod. lia. Qed.

Create Rewrite HintDb pic_rw.
#[export] Hint Rewrite master_imr_outb_master master_imr_outb_slave slave_imr_outb_slave
  slave_imr_outb_master master_imr_set_masks slave_imr_set_masks u8_u8 : pic_rw.

(** An OCW2 command code with a level [x] or-ed in is the code plus the
    level, and stays a byte. *)
Lemma ocw2_byte EOI x : 0 <= EOI < 256 -> EOI .& 31 = 0 -> 0 <= x < 8 -> u8 (EOI .| x) = EOI + x.
Proof.
  intros HE He Hx.
  assert (Hm : EOI mod 32 = 0) by (rewrite <- He; symmetry; apply (land_ones_const EOI 31 5); [reflexivity|lia]).
  assert (H7 : EOI .& 7 = 0).
  { change 7 with (31 .& 7). rewrite Z.land_assoc, He. reflexivity. }
  assert (Hx7 : x .& 7 = x) by (rewrite (land_ones_const x 7 3) by (reflexivity || lia); apply Z.mod_small; lia).
  assert (Hd : EOI .& x = 0) by (rewrite <- Hx7, (Z.land_comm x 7), Z.land_assoc, H7; reflexivity).
  rewrite <- Z.lxor_lor, <- Z.add_nocarry_lxor by exact Hd.
  unfold u8; apply Z.mod_small. Z.div_mod_to_equations; lia.
Qed.

Ltac pic_bits :=
  repeat match goal with
  | |- context [?a =? ?b] => destruct (Z.eqb_spec a b)
  | |- context [bool_decide ?P] => case_bool_decide
  end; try lia; cbn [andb orb negb]; rewrite ?andb_true_r, ?andb_false_r, ?orb_false_r, ?orb_true_r;
  try reflexivity.

(** ** Properties *)

(** The mask bits after [enable_irq]. *)
Lemma enable_irq_masked SLAVE_ID irq p s i :
  0 <= irq < 16 -> 0 <= SLAVE_ID < 8 -> (i < 16)%nat ->
  irq_masked (fst (enable_irq SLAVE_ID irq p s)) i =
    irq_masked p i && negb (irq =? Z.of_nat i) && negb (bool_decide (8 <= irq) && (SLAVE_ID =? Z.of_nat i)).
Proof.
  intros Hirq Hs Hi. unfold enable_irq, pic_critical, irq_masked. cbn [fst].
  destruct (decide (8 <= irq)); destruct (decide (i < 8)%nat); autorewrite with pic_rw.
  - rewrite enable_cascade_bit by lia. pic_bits.
  - rewrite enable_slave_bit by lia. replace (Z.of_nat (i - 8) + 8) with (Z.of_nat i) by lia. pic_bits.
  - rewrite enable_master_bit by lia. pic_bits.
  - pic_bits.
Qed.

(** C21. [enable_irq(irq)] for an IRQ 0-15 unmasks exactly that IRQ, and
    for a slave IRQ also the cascade line [SLAVE_ID] of the master; every
    other IRQ keeps its mask.  It returns with interrupts enabled, whatever
    the caller's state ([restore_flags(save)] is followed by [sti()]). *)
Theorem enable_irq_spec SLAVE_ID irq p s i :
  0 <= irq < 16 -> 0 <= SLAVE_ID < 8 -> (i < 16)%nat ->
  irq_masked (fst (enable_irq SLAVE_ID irq p s)) i =
    irq_masked p i && negb (irq =? Z.of_nat i) && negb (bool_decide (8 <= irq) && (SLAVE_ID =? Z.of_nat i)) /\
  intr_enabled (snd (enable_irq SLAVE_ID irq p s)) = true.
Proof. intros Hirq Hs Hi. split; [apply enable_irq_masked; assumption | reflexivity]. Qed.

(** C34. [disable_irq(irq)] for an IRQ 0-15 masks exactly that IRQ and
    leaves every other mask as it was; it too returns with interrupts
    enabled. *)
Theorem disable_irq_spec irq p s i :
  0 <= irq < 16 -> (i < 16)%nat ->
  irq_masked (fst (disable_irq irq p s)) i = irq_masked p i || (irq =? Z.of_nat i) /\
  intr_enabled (snd (disable_irq irq p s)) = true.
Proof.
  intros Hirq Hi. split; [|reflexivity]. unfold disable_irq, pic_critical, irq_masked. cbn [fst].
  destruct (decide (8 <= irq)); destruct (decide (i < 8)%nat); autorewrite with pic_rw.
  - pic_bits.
  - rewrite disable_slave_bit by lia. replace (Z.of_nat (i - 8) + 8) with (Z.of_nat i) by lia. pic_bits.
  - rewrite disable_master_bit by lia. pic_bits.
  - pic_bits.
Qed.

(** The mask bits after [i8259_init]. *)
Lemma i8259_init_masked ICW1 ICW2_MASTER ICW2_SLAVE ICW3_MASTER ICW3_SLAVE ICW4 p s i :
  (i < 16)%nat ->
  irq_masked (fst (i8259_init ICW1 ICW2_MASTER ICW2_SLAVE ICW3_MASTER ICW3_SLAVE ICW4 p s)) i = true.
Proof.
  intros Hi. unfold i8259_init, pic_critical, irq_masked. cbn [fst].
  autorewrite with pic_rw. change (u8 0xFF) with (Z.ones 8). unfold CHECK_FLAG.
  case_decide; rewrite Z.testbit_ones_nonneg by lia; apply Z.ltb_lt; lia.
Qed.

(** [i8259_init] leaves every IRQ 0-15 masked, with interrupts
    enabled: the final OCW1 bytes 0xFF set every mask bit, although the
    comment on them says they enable all IRQs. *)
Theorem i8259_init_masks_all ICW1 ICW2_MASTER ICW2_SLAVE ICW3_MASTER ICW3_SLAVE ICW4 p s i :
  (i < 16)%nat ->
  irq_masked (fst (i8259_init ICW1 ICW2_MASTER ICW2_SLAVE ICW3_MASTER ICW3_SLAVE ICW4 p s)) i = true /\
  intr_enabled (snd (i8259_init ICW1 ICW2_MASTER ICW2_SLAVE ICW3_MASTER ICW3_SLAVE ICW4 p s)) = true.
Proof. intros Hi. split; [apply i8259_init_masked; exact Hi | reflexivity]. Qed.

(** C35. [send_eoi(irq)] acknowledges exactly the line that raised the
    interrupt.  [EOI] is an OCW2 command code (bits 0-4 clear: the level
    field and the two bits that mark an OCW2), so every byte written is
    [EOI] plus a level in 0-7.  A master IRQ writes [EOI + irq] to the
    master's command port; a slave IRQ writes [EOI + (irq - 8)] to the
    slave's, then [EOI + SLAVE_ID] to the master's.  Nothing else is
    written and no mask changes. *)
Theorem pic_send_eoi_lines EOI SLAVE_ID irq p :
  0 <= EOI < 256 -> EOI .& 31 = 0 -> 0 <= SLAVE_ID < 8 -> 0 <= irq < 16 ->
  pic_log (pic_send_eoi EOI SLAVE_ID irq p) =
    (if decide (8 <= irq) then [(MasterCmd, EOI + SLAVE_ID); (SlaveCmd, EOI + (irq - 8))]
     else [(MasterCmd, EOI + irq)]) ++ pic_log p /\
  master_imr (pic_send_eoi EOI SLAVE_ID irq p) = master_imr p /\
  slave_imr (pic_send_eoi EOI SLAVE_ID irq p) = slave_imr p /\
  master_mask (pic_send_eoi EOI SLAVE_ID irq p) = master_mask p /\
  slave_mask (pic_send_eoi EOI SLAVE_ID irq p) = slave_mask p.
Proof.
  intros HE He Hs Hirq. unfold pic_send_eoi. case_decide.
  - assert (Hl : irq .& 7 = irq - 8).
    { rewrite (land_ones_const irq 7 3) by first [reflexivity | lia]. change (2 ^ 3) with 8.
      Z.div_mod_to_equations. lia. }
    cbn. rewrite Hl, !ocw2_byte by (done || lia). repeat split.
  - cbn. rewrite ocw2_byte by (done || lia). repeat split.
Qed.

Lemma enable_irq_spec_witness :
  irq_masked (fst (enable_irq 2 8 pic_reset zero_kstate)) 2 =
    irq_masked pic_reset 2 && negb (8 =? Z.of_nat 2) && negb (bool_decide (8 <= 8) && (2 =? Z.of_nat 2)) /\
  intr_enabled (snd (enable_irq 2 8 pic_reset zero_kstate)) = true.
Proof. apply (enable_irq_spec 2 8 pic_reset zero_kstate 2); lia. Defined.

Lemma disable_irq_spec_witness :
  irq_masked (fst (disable_irq 1 pic_reset zero_kstate)) 1 = irq_masked pic_reset 1 || (1 =? Z.of_nat 1) /\
  intr_enabled (snd (disable_irq 1 pic_reset zero_kstate)) = true.
Proof. apply (disable_irq_spec 1 pic_reset zero_kstate 1); lia. Defined.

Lemma i8259_init_masks_all_witness :
  irq_masked (fst (i8259_init 0x11 0x20 0x28 0x04 0x02 0x01 pic_reset zero_kstate)) 8 = true /\
  intr_enabled (snd (i8259_init 0x11 0x20 0x28 0x04 0x02 0x01 pic_reset zero_kstate)) = true.
Proof. apply (i8259_init_masks_all 0x11 0x20 0x28 0x04 0x02 0x01 pic_reset zero_kstate 8). lia. Defined.

Lemma pic_send_eoi_lines_witness :
  pic_log (pic_send_eoi 0x60 2 8 pic_reset) =
    (if decide (8 <= 8) then [(MasterCmd, 0x60 + 2); (SlaveCmd, 0x60 + (8 - 8))]
     else [(MasterCmd, 0x60 + 8)]) ++ pic_log pic_reset /\
  master_imr (pic_send_eoi 0x60 2 8 pic_reset) = master_imr pic_reset /\
  slave_imr (pic_send_eoi 0x60 2 8 pic_reset) = slave_imr pic_reset /\
  master_mask (pic_send_eoi 0x60 2 8 pic_reset) = master_mask pic_reset /\
  slave_mask (pic_send_eoi 0x60 2 8 pic_reset) = slave_mask pic_reset.
Proof. apply (pic_send_eoi_lines 0x60 2 8 pic_reset); first [reflexivity | lia]. Defined.
