(* ===== verification/Terminal.v ===== *)
(** * Terminal: the terminal session manager (drivers/terminal.c)

    Three terminal records; [TA_idx] is the terminal that owns the CPU,
    [TS_idx] the one on the screen.  [set_active_terminal] saves the outgoing
    terminal's kernel stack pointer, process and cursor and loads the
    incoming one's, remapping the user window; [set_shown_terminal] swaps the
    physical video page with the shadow pages.  Video pages are 4 KB byte
    lists keyed by physical address; a page never written reads as zeros. *)

From S2P Require Import Prelude Paging Fsys State.

Definition vpage (s : kstate) (addr : Z) : list Z :=
  default (replicate (Z.to_nat _4KB) 0) (vmem s !! addr).

(** [VMEM_BASE_ADDR + (i+1)*_4KB]: the shadow page of terminal [i]. *)
Definition shadow_page (i : nat) : Z := VMEM_BASE_ADDR + (Z.of_nat i + 1) * _4KB.

(** [memcpy(dst, src, _4KB)] between video pages. *)
Definition copy_vpage (dst src : Z) (s : kstate) : kstate :=
  set_vmem s (<[dst := vpage s src]> (vmem s)).

(** [init_terminals()] *)
Definition init_terminal (i : nat) : terminal_t :=
  mk_terminal 0 (kernel_stack_top i) i i 0 0 (replicate 128 0) 0 0 0 8.

Definition init_terminals (s : kstate) : kstate :=
  set_indices (set_terms s (map init_terminal (seq 0 MAX_TERMINALS))) 0 0.

(** Saving the cursor of terminal [i] ([terminal_x->cursor_x = getX()]...). *)
Definition save_cursor (i : nat) (s : kstate) : kstate :=
  let t := term_at s i in
  set_term s i (mk_terminal (saved_ebp t) (saved_esp0 t) (t_currentPID t) (t_currentPCB t)
                  (getX s) (getY s) (keyboard_buffer t) (keyboard_idx t) (terminal_newline t)
                  (rtc_interrupt_occurred t) (rtc_freq_bit t)).

(** [set_shown_terminal(next_TS_idx)] *)
Definition set_shown_terminal (next : nat) (s : kstate) : kstate :=
  let s1 := save_cursor (TS_idx s) s in
  let s2 := copy_vpage (shadow_page (TS_idx s1)) VMEM_BASE_ADDR s1 in
  let s3 := copy_vpage VMEM_BASE_ADDR (shadow_page next) s2 in
  let s4 := set_indices s3 (TA_idx s3) next in
  let t := term_at s4 next in
  editScreenCoords (cursor_x t) (cursor_y t) (update_cursor (cursor_x t) (cursor_y t) s4).

(** The first statements of [set_active_terminal]: the outgoing terminal
    records [tss.esp0], [current_PCB], [currentPID] and the cursor. *)
Definition save_active (s : kstate) : kstate :=
  let t := term_at s (TA_idx s) in
  set_term s (TA_idx s)
    (mk_terminal (saved_ebp t) (tss_esp0 s) (currentPID s) (current_PCB s)
       (getX s) (getY s) (keyboard_buffer t) (keyboard_idx t) (terminal_newline t)
       (rtc_interrupt_occurred t) (rtc_freq_bit t)).

(** [set_active_terminal(next_TA_idx)] *)
Definition set_active_terminal (next : nat) (s : kstate) : kstate :=
  let s1 := save_active s in
  let s2 := setVidPointer (if decide (next <> TS_idx s1) then shadow_page next else VMEM_BASE_ADDR) s1 in
  let s3 := set_indices s2 next (TS_idx s2) in
  let t := term_at s3 next in
  let s4 := if decide (next = TS_idx s3) then update_cursor (cursor_x t) (cursor_y t) s3 else s3 in
  let s5 := editScreenCoords (cursor_x t) (cursor_y t) s4 in
  let s6 := set_tss s5 (tss_ss0 s5) (saved_esp0 t) in
  let s7 := set_proc s6 (activeProcesses s6) (t_currentPID t) (t_currentPCB t) in
  k_set_user_page (currentPID s7) s7.

(** What [set_active_terminal(next)] loads: the record of [next] after the
    outgoing terminal was saved. *)
Definition incoming (s : kstate) (next : nat) : terminal_t := term_at (save_active s) next.

(** ** Line input and console output *)

(** The line-input fields of a terminal record. *)
Definition set_kbd (buf : list Z) (idx newline : Z) (t : terminal_t) : terminal_t :=
  mk_terminal (saved_ebp t) (saved_esp0 t) (t_currentPID t) (t_currentPCB t)
    (cursor_x t) (cursor_y t) buf idx newline (rtc_interrupt_occurred t) (rtc_freq_bit t).

(** [setIdx(v)] of keyboard.c: the active terminal's buffer index, and its
    line-ready flag cleared. *)
Definition setIdx (v : Z) (s : kstate) : kstate :=
  update_active (fun t => set_kbd (keyboard_buffer t) v 0 t) s.

(** [terminal_read(fd, buf, nbytes)] up to its [while] loop: the flag was
    just cleared, so the call always waits for the keyboard handler to
    raise it ([WaitNewline]). *)
Definition terminal_read (s : kstate) : kstate * ctl := (setIdx 0 s, WaitNewline).

(** The copy loop of [terminal_read]: bytes up to and including the first
    newline, at most [n]. *)
Fixpoint copy_line (kb : list Z) (n : nat) : list Z :=
  match n, kb with
  | O, _ => []
  | S n', c :: r => c :: (if decide (c = 10) then [] else copy_line r n')
  | S n', [] => 0 :: copy_line [] n'
  end.

(** The rest of [terminal_read] once the flag is raised: the line is copied
    to [buf] (all of it, whatever [nbytes] is), its bytes in the keyboard
    buffer are zeroed, and its length is returned. *)
Definition terminal_read_copy (s : kstate) : kstate * Z * list Z :=
  let t := term_at s (TA_idx s) in
  let line := copy_line (keyboard_buffer t) 128 in
  (update_active (fun t => set_kbd (replicate (length line) 0 ++ drop (length line) (keyboard_buffer t))
                                   (keyboard_idx t) (terminal_newline t) t) s,
   Z.of_nat (length line), line).

(** [terminal_write(fd, buf, nbytes)]: the bytes handed to [putc], in
    order, and the return value; [i < nbytes] compares as unsigned, so a
    negative [nbytes] runs the loop past [buf] ([None]). *)
Definition terminal_write (buf : list Z) (nbytes : Z) : option (Z * list Z) :=
  let n := u32 nbytes in
  if decide (Z.of_nat (length buf) < n) then None
  else Some (0, filter (fun c => c <> 0) (take (Z.to_nat n) buf)).

Definition terminal_open : Z := 0.
Definition terminal_close : Z := 0.

(** ** Lemmas *)

Lemma save_active_other s i : i <> TA_idx s -> term_at (save_active s) i = term_at s i.
Proof. intros Hne. apply term_at_set_term_ne, Hne. Qed.

Lemma save_active_self s :
  (TA_idx s < length (terminal_arr s))%nat ->
  t_currentPID (term_at (save_active s) (TA_idx s)) = currentPID s /\
  t_currentPCB (term_at (save_active s) (TA_idx s)) = current_PCB s /\
  saved_esp0 (term_at (save_active s) (TA_idx s)) = tss_esp0 s /\
  saved_ebp (term_at (save_active s) (TA_idx s)) = saved_ebp (term_at s (TA_idx s)).
Proof. intros Hta. unfold save_active. rewrite term_at_set_term_eq by exact Hta. simpl. auto. Qed.

(** The globals after [set_active_terminal(next)]. *)
Lemma set_active_terminal_spec next s :
  let t := incoming s next in
  let s' := set_active_terminal next s in
  TA_idx s' = next /\ TS_idx s' = TS_idx s /\
  currentPID s' = t_currentPID t /\ current_PCB s' = t_currentPCB t /\
  tss_esp0 s' = saved_esp0 t /\
  paging s' = set_user_page (Z.of_nat (t_currentPID t)) (paging s) /\
  activeProcesses s' = activeProcesses s /\ pcbs s' = pcbs s /\
  terminal_arr s' = terminal_arr (save_active s) /\
  pit_counter s' = pit_counter s /\ exception_flag s' = exception_flag s /\
  eoi_log s' = eoi_log s.
Proof.
  simpl. unfold set_active_terminal, incoming.
  destruct (decide (next = TS_idx _)); repeat split; reflexivity.
Qed.
