(* ===== verification/Keyboard.v ===== *)
(** * Keyboard: the keyboard interrupt handler (drivers/keyboard.c, and
      [backspace] of drivers/terminal.c)

    [Keyboard_Handler] runs at IRQ 1 with the scan code read from port
    0x60.  The modifier keys update the global [shiftcaps] (bit 0 caps lock,
    bit 1 shift, bit 2 control, bit 3 alt); alt with F1-F3 switches the
    shown terminal; a typable key selects its character from the two
    62-entry tables into the global [keycode]; and a non-zero [keycode] is
    appended to the shown terminal's 128-byte line buffer, raising its
    line-ready flag at a newline.  The two globals of keyboard.h are kept
    in their own record [kbd_t], passed beside the kernel state.

    The console routines of lib.c that the handler calls and that are not
    in the repository enter as parameters of the Section: [putc] (the
    character output of [printf("%c")] and of [backspace]) acts on the
    console record, and [NUM_COLS] is the screen width.  [clear()] only
    erases characters, which the model does not hold.  A table read out of
    its 62 entries is undefined behaviour and makes the handler return
    [None]; the theorems show it never happens. *)

From S2P Require Import Prelude Paging State Pic Terminal.

(** keyboard.h: [uint8_t shiftcaps; uint8_t keycode;] *)
Record kbd_t := mk_kbd { shiftcaps : Z; keycode : Z }.

Definition KBD_IRQ : Z := 1.

Definition codeASCIINS : list Z :=
  [0; 0; 49; 50; 51; 52; 53; 54; 55; 56; 57; 48; 45; 61; 8; 9; 113; 119; 101; 114;
   116; 121; 117; 105; 111; 112; 91; 93; 10; 0; 97; 115; 100; 102; 103; 104; 106;
   107; 108; 59; 39; 96; 0; 92; 122; 120; 99; 118; 98; 110; 109; 44; 46; 47; 0;
   42; 0; 32; 0; 0; 0; 0].

Definition codeASCIIYS : list Z :=
  [0; 0; 33; 64; 35; 36; 37; 94; 38; 42; 40; 41; 95; 43; 8; 9; 81; 87; 69; 82;
   84; 89; 85; 73; 79; 80; 123; 125; 10; 0; 65; 83; 68; 70; 71; 72; 74; 75; 76;
   58; 34; 126; 0; 124; 90; 88; 67; 86; 66; 78; 77; 60; 62; 63; 0; 42; 0; 32; 0;
   0; 0; 0].

(** A write through [terminal_shown]. *)
Definition update_shown (f : terminal_t -> terminal_t) (s : kstate) : kstate :=
  set_term s (TS_idx s) (f (term_at s (TS_idx s))).

(** [CTRL + L]: the screen cleared and homed, the shown line buffer zeroed
    and its index reset; the line-ready flag is left as it was. *)
Definition ctrl_l (s : kstate) : kstate :=
  update_shown (fun t => set_kbd (replicate 128 0) 0 (terminal_newline t) t)
    (update_cursor 0 0 (editScreenCoords 0 0 s)).

Section Console.

Context (NUM_COLS : Z) (putc : Z -> console_t -> console_t).

Definition k_putc (c : Z) (s : kstate) : kstate := set_console s (putc c (console s)).

(** The cursor loop of [backspace]: [j] steps back, wrapping to the end of
    the previous row; [None] is the [return] at the top-left corner. *)
Fixpoint erase_back (j : nat) (cx cy : Z) : option (Z * Z) :=
  match j with
  | O => Some (cx, cy)
  | S j' =>
      if decide (cx = 0) then
        if decide (cy = 0) then None else erase_back j' (NUM_COLS - 1) (cy - 1)
      else erase_back j' (cx - 1) cy
  end.

(** [backspace(terminal_shown->keyboard_buffer, &terminal_shown->keyboard_idx)] *)
Definition backspace (s : kstate) : kstate :=
  let t := term_at s (TS_idx s) in
  let idx := keyboard_idx t in
  let '(s1, prebp) :=
    if decide (idx <> 0) then
      (update_shown (fun t => set_kbd (<[Z.to_nat ((idx - 1) mod 128) := 0]> (keyboard_buffer t))
                                      (idx - 1) (terminal_newline t) t) s,
       nth (Z.to_nat (idx - 1)) (keyboard_buffer t) 0)
    else (s, 0) in
  let j := if decide (prebp = 9) then 4%nat else if decide (prebp <> 0) then 1%nat else 0%nat in
  match erase_back j (getX s) (getY s) with
  | None => s1
  | Some (cx, cy) => update_cursor cx cy (editScreenCoords cx cy (k_putc 32 (editScreenCoords cx cy s1)))
  end.

(** The [if/else if] chain of [Keyboard_Handler] on the scan code: the new
    globals and the state; [None] when a table is read out of bounds. *)
Definition kbd_dispatch (sc : Z) (k : kbd_t) (s : kstate) : option (kbd_t * kstate) :=
  let sh := shiftcaps k in
  if decide (sc = 0x3A) then Some (mk_kbd (u8 (Z.lxor sh 1)) 0, s)
  else if decide (sc = 0x36 \/ sc = 0x2A) then Some (mk_kbd (u8 (sh .| 2)) 0, s)
  else if decide (sc = 0xB6 \/ sc = 0xAA) then Some (mk_kbd (u8 (sh .& .~ 2)) 0, s)
  else if decide (sc = 0x1D) then Some (mk_kbd (u8 (sh .| 4)) 0, s)
  else if decide (sc = 0x9D) then Some (mk_kbd (u8 (sh .& .~ 4)) 0, s)
  else if decide (sc = 0x0E) then Some (mk_kbd sh 0, backspace s)
  else if decide (sc = 0x38) then Some (mk_kbd (u8 (sh .| 8)) 0, s)
  else if decide (sc = 0xB8) then Some (mk_kbd (u8 (sh .& .~ 8)) 0, s)
  else if decide (0x3B + Z.of_nat MAX_TERMINALS <= sc) then Some (mk_kbd sh 0, s)
  else if decide (sh .& 8 > 0) then
    Some (k, if decide (0x3B <= sc < 0x3B + Z.of_nat MAX_TERMINALS)
             then set_shown_terminal (Z.to_nat (sc - 0x3B)) s else s)
  else
    ns ← codeASCIINS !! Z.to_nat sc;
    ys ← codeASCIIYS !! Z.to_nat sc;
    if decide (ns < 0x7B /\ ns > 0x60) then
      if decide (sh .& 4 > 0 /\ sc = 0x26) then Some (mk_kbd sh 0, ctrl_l s)
      else if decide ((sh .& 2) >>> 1 <> sh .& 1) then Some (mk_kbd sh ys, s)
      else Some (mk_kbd sh ns, s)
    else if decide (sh .& 2 <> 0) then Some (mk_kbd sh ys, s)
    else Some (mk_kbd sh ns, s).

(** The [if (keycode != 0x00)] block: the character is stored at
    [keyboard_idx] and echoed; at index 127 only a newline is stored, in the
    last byte, so a full buffer always ends a line. *)
Definition echo_key (kc : Z) (s : kstate) : kstate :=
  if decide (kc = 0) then s else
  let t := term_at s (TS_idx s) in
  let ends := bool_decide (kc = 10 \/ terminal_newline t <> 0) in
  if decide (keyboard_idx t = 127) then
    if ends then
      let s1 := update_shown (fun t => set_kbd (<[127%nat := 10]> (keyboard_buffer t))
                                               (keyboard_idx t) (terminal_newline t) t) s in
      update_shown (fun t => set_kbd (keyboard_buffer t) (keyboard_idx t) 1 t) (k_putc kc s1)
    else s
  else
    let s1 := update_shown (fun t => set_kbd (<[Z.to_nat (keyboard_idx t) := kc]> (keyboard_buffer t))
                                             (u32 (keyboard_idx t + 1)) (terminal_newline t) t) s in
    let s2 := k_putc kc s1 in
    if ends then update_shown (fun t => set_kbd (keyboard_buffer t) (keyboard_idx t) 1 t) s2 else s2.

(** [Keyboard_Handler()] on the scan code [sc] read from [KBD_DATA_PORT]. *)
Definition Keyboard_Handler (sc : Z) (k : kbd_t) (s : kstate) : option (kbd_t * kstate) :=
  let s0 := cli s in
  let s1 := save_cursor (TA_idx s0) s0 in
  let s2 := setVidPointer VMEM_BASE_ADDR s1 in
  let ts := term_at s2 (TS_idx s2) in
  let s3 := editScreenCoords (cursor_x ts) (cursor_y ts) s2 in
  '(k', s4) ← kbd_dispatch sc k s3;
  let s5 := echo_key (keycode k') s4 in
  let s6 := save_cursor (TS_idx s5) s5 in
  let s7 := if decide (TA_idx s6 <> TS_idx s6) then setVidPointer (shadow_page (TA_idx s6)) s6 else s6 in
  let ta := term_at s7 (TA_idx s7) in
  let s8 := editScreenCoords (cursor_x ta) (cursor_y ta) s7 in
  Some (k', sti (send_eoi KBD_IRQ s8)).

End Console.

(** [init_Keyboard()]: [cli(); enable_irq(KBD_IRQ); sti();]. *)
Definition init_Keyboard (SLAVE_ID : Z) (p : pic_t) (s : kstate) : pic_t * kstate :=
  let '(p1, s1) := enable_irq SLAVE_ID KBD_IRQ p (cli s) in (p1, sti s1).

(** A sequence of keyboard interrupts, one per scan code. *)
Fixpoint Keyboard_Handler_seq (NUM_COLS : Z) (putc : Z -> console_t -> console_t)
    (scs : list Z) (k : kbd_t) (s : kstate) : option (kbd_t * kstate) :=
  match scs with
  | [] => Some (k, s)
  | sc :: rest =>
      '(k', s') ← Keyboard_Handler NUM_COLS putc sc k s;
      Keyboard_Handler_seq NUM_COLS putc rest k' s'
  end.

(** ** Invariants *)

(** The alt branch of [Keyboard_Handler] leaves [keycode] as it was and the
    echo block then prints it: the handler relies on [keycode] being zero
    while alt is held. *)
Definition alt_ok (k : kbd_t) : Prop := shiftcaps k .& 8 <> 0 -> keycode k = 0.

(** The globals of keyboard.h reachable from boot (both zero, as static
    storage) by keyboard interrupts on any scan codes and kernel states. *)
Inductive kbd_reachable (NUM_COLS : Z) (putc : Z -> console_t -> console_t) : kbd_t -> Prop :=
| kbd_boot : kbd_reachable NUM_COLS putc (mk_kbd 0 0)
| kbd_irq sc k s k' s' :
    kbd_reachable NUM_COLS putc k ->
    Keyboard_Handler NUM_COLS putc sc k s = Some (k', s') ->
    kbd_reachable NUM_COLS putc k'.

(** A line buffer is [char[128]] and its index stays within it. *)
Definition line_ok (t : terminal_t) : Prop :=
  length (keyboard_buffer t) = 128%nat /\ 0 <= keyboard_idx t <= 127.

Definition lines_ok (s : kstate) : Prop := Forall line_ok (terminal_arr s).

#[export] Instance line_ok_dec t : Decision (line_ok t).
Proof. unfold line_ok. apply _. Defined.

#[export] Instance lines_ok_dec s : Decision (lines_ok s).
Proof. unfold lines_ok. apply _. Defined.

(** ** Lemmas *)

Section Lemmas.

Context (NUM_COLS : Z) (putc : Z -> console_t -> console_t).

Lemma table_lookup (tbl : list Z) sc : length tbl = 62%nat -> 0 <= sc < 62 -> is_Some (tbl !! Z.to_nat sc).
Proof. intros Hl Hsc. apply lookup_lt_is_Some. lia. Qed.

Lemma kbd_dispatch_total sc k s : 0 <= sc -> is_Some (kbd_dispatch NUM_COLS putc sc k s).
Proof.
  intros Hsc. unfold kbd_dispatch. repeat (case_decide; [done|]).
  destruct (table_lookup codeASCIINS sc eq_refl) as [ns ->]; [unfold MAX_TERMINALS in *; lia|].
  destruct (table_lookup codeASCIIYS sc eq_refl) as [ys ->]; [unfold MAX_TERMINALS in *; lia|].
  simpl. repeat case_decide; done.
Qed.

Lemma Keyboard_Handler_dispatch sc k s k' s' :
  Keyboard_Handler NUM_COLS putc sc k s = Some (k', s') ->
  exists s3 s4, kbd_dispatch NUM_COLS putc sc k s3 = Some (k', s4).
Proof.
  unfold Keyboard_Handler. intros H.
  destruct (kbd_dispatch _ _ _ _ _) as [[k1 s4]|] eqn:E; simplify_eq/=. eauto.
Qed.

Lemma kbd_dispatch_alt_ok sc k s k' s' :
  alt_ok k -> kbd_dispatch NUM_COLS putc sc k s = Some (k', s') -> alt_ok k'.
Proof.
  unfold alt_ok, kbd_dispatch. intros Hk H.
  assert (0 <= shiftcaps k .& 8) by (apply Z.land_nonneg; lia).
  destruct (codeASCIINS !! _), (codeASCIIYS !! _);
    repeat (case_decide; simplify_eq/=); intros; try reflexivity; try (apply Hk; assumption); lia.
Qed.

Lemma lines_ok_same s s' : terminal_arr s' = terminal_arr s -> lines_ok s -> lines_ok s'.
Proof. unfold lines_ok. intros ->. done. Qed.

Lemma term_at_ok s i : lines_ok s -> (i < length (terminal_arr s))%nat -> line_ok (term_at s i).
Proof. unfold lines_ok, term_at. rewrite Forall_forall. intros H Hi. apply H, (list_elem_of_lookup_2 _ i).
  destruct (nth_lookup_or_length (terminal_arr s) i zero_terminal); [assumption | lia].
Qed.

Lemma lines_ok_set_term s i t :
  lines_ok s -> ((i < length (terminal_arr s))%nat -> line_ok t) -> lines_ok (set_term s i t).
Proof.
  unfold lines_ok, set_term. simpl. intros H Ht.
  destruct (decide (i < length (terminal_arr s))%nat).
  - apply Forall_insert; auto.
  - rewrite list_insert_ge by lia. exact H.
Qed.

Lemma update_shown_ok f s :
  lines_ok s -> (line_ok (term_at s (TS_idx s)) -> line_ok (f (term_at s (TS_idx s)))) ->
  lines_ok (update_shown f s).
Proof. intros H Hf. apply lines_ok_set_term; [exact H|]. intros Hi. apply Hf, term_at_ok; assumption. Qed.

Lemma save_cursor_ok i s : lines_ok s -> lines_ok (save_cursor i s).
Proof. intros H. apply lines_ok_set_term; [exact H|]. intros Hi. exact (term_at_ok s i H Hi). Qed.

Lemma set_shown_terminal_ok n s : lines_ok s -> lines_ok (set_shown_terminal n s).
Proof.
  intros H. apply (lines_ok_same (save_cursor (TS_idx s) s)); [reflexivity|].
  apply save_cursor_ok, H.
Qed.

Lemma ctrl_l_ok s : lines_ok s -> lines_ok (ctrl_l s).
Proof.
  intros H. apply update_shown_ok; [exact H|]. intros _.
  split; [apply length_replicate | simpl; lia].
Qed.

Lemma line_ok_set_kbd buf idx nl t :
  length buf = 128%nat -> 0 <= idx <= 127 -> line_ok (set_kbd buf idx nl t).
Proof. intros Hl Hi. split; assumption. Qed.

Lemma k_putc_ok c s : lines_ok s -> lines_ok (k_putc putc c s).
Proof. apply lines_ok_same. reflexivity. Qed.

Lemma backspace_ok s : lines_ok s -> lines_ok (backspace NUM_COLS putc s).
Proof.
  intros H. unfold backspace.
  assert (H1 : lines_ok (fst (if decide (keyboard_idx (term_at s (TS_idx s)) <> 0) then
     (update_shown (fun t => set_kbd (<[Z.to_nat ((keyboard_idx (term_at s (TS_idx s)) - 1) mod 128) := 0]>
        (keyboard_buffer t)) (keyboard_idx (term_at s (TS_idx s)) - 1) (terminal_newline t) t) s,
      nth (Z.to_nat (keyboard_idx (term_at s (TS_idx s)) - 1)) (keyboard_buffer (term_at s (TS_idx s))) 0)
     else (s, 0)))).
  { case_decide as Hne; [|exact H]. apply update_shown_ok; [exact H|]. intros [Hl Hi].
    apply line_ok_set_kbd; [rewrite length_insert; exact Hl | lia]. }
  destruct (if decide _ then _ else _) as [s1 prebp]. simpl in H1.
  destruct (erase_back _ _ _ _) as [[cx cy]|]; [|exact H1].
  apply (lines_ok_same s1); [reflexivity | exact H1].
Qed.

Lemma echo_key_ok kc s : lines_ok s -> lines_ok (echo_key putc kc s).
Proof.
  intros H. unfold echo_key. case_decide; [exact H|]. case_decide as Hi127.
  - case_bool_decide; [|exact H].
    apply update_shown_ok; [apply k_putc_ok, update_shown_ok; [exact H|] | intros Ht; exact Ht].
    intros [Hl Hi]. apply line_ok_set_kbd; [rewrite length_insert; exact Hl | lia].
  - assert (Hs : lines_ok (k_putc putc kc (update_shown (fun t => set_kbd
        (<[Z.to_nat (keyboard_idx t) := kc]> (keyboard_buffer t)) (u32 (keyboard_idx t + 1))
        (terminal_newline t) t) s))).
    { apply k_putc_ok, update_shown_ok; [exact H|]. intros [Hl Hi].
      apply line_ok_set_kbd; [rewrite length_insert; exact Hl|].
      rewrite u32_small by (unfold in_u32; lia). lia. }
    case_bool_decide; [|exact Hs]. apply update_shown_ok; [exact Hs | intros Ht; exact Ht].
Qed.

Lemma kbd_dispatch_ok sc k s k' s' :
  lines_ok s -> kbd_dispatch NUM_COLS putc sc k s = Some (k', s') -> lines_ok s'.
Proof.
  unfold kbd_dispatch. intros H E.
  destruct (codeASCIINS !! _), (codeASCIIYS !! _);
    repeat (case_decide; simplify_eq/=);
    first [exact H | apply backspace_ok, H | apply set_shown_terminal_ok, H | apply ctrl_l_ok, H].
Qed.

Lemma Keyboard_Handler_ok sc k s k' s' :
  lines_ok s -> Keyboard_Handler NUM_COLS putc sc k s = Some (k', s') -> lines_ok s'.
Proof.
  unfold Keyboard_Handler. intros H E.
  destruct (kbd_dispatch _ _ _ _ _) as [[k1 s4]|] eqn:D; simplify_eq/=.
  apply kbd_dispatch_ok in D; [|apply (lines_ok_same (save_cursor (TA_idx (cli s)) (cli s)));
    [reflexivity | apply save_cursor_ok, (lines_ok_same s); [reflexivity | exact H]]].
  apply (echo_key_ok (keycode k')) in D. apply (save_cursor_ok (TS_idx (echo_key putc (keycode k') s4))) in D.
  case_decide; apply (lines_ok_same _ _ eq_refl D).
Qed.

End Lemmas.

Section Echo.

Context (putc : Z -> console_t -> console_t).

Lemma term_at_k_putc c s i : term_at (k_putc putc c s) i = term_at s i.
Proof. reflexivity. Qed.

Lemma term_at_update_shown f s :
  (TS_idx s < length (terminal_arr s))%nat -> term_at (update_shown f s) (TS_idx s) = f (term_at s (TS_idx s)).
Proof. apply term_at_set_term_eq. Qed.

(** A character other than a newline, typed while no line is pending. *)
Lemma echo_key_char c s :
  let t := term_at s (TS_idx s) in
  c <> 0 -> c <> 10 -> terminal_newline t = 0 -> 0 <= keyboard_idx t <= 127 ->
  (TS_idx s < length (terminal_arr s))%nat ->
  let s' := echo_key putc c s in
  TS_idx s' = TS_idx s /\ TA_idx s' = TA_idx s /\ length (terminal_arr s') = length (terminal_arr s) /\
  keyboard_buffer (term_at s' (TS_idx s)) =
    (if decide (keyboard_idx t = 127) then keyboard_buffer t
     else <[Z.to_nat (keyboard_idx t) := c]> (keyboard_buffer t)) /\
  keyboard_idx (term_at s' (TS_idx s)) = (if decide (keyboard_idx t = 127) then 127 else keyboard_idx t + 1) /\
  terminal_newline (term_at s' (TS_idx s)) = 0.
Proof.
  intros t Hc Hc10 Hnl Hi Hts. unfold echo_key. fold t.
  rewrite decide_False by exact Hc. rewrite bool_decide_false by (rewrite Hnl; tauto).
  case_decide as H127; [fold t; rewrite H127; repeat split; exact Hnl|].
  rewrite !term_at_k_putc.
  rewrite term_at_update_shown by exact Hts. fold t. cbn [keyboard_buffer keyboard_idx terminal_newline set_kbd].
  rewrite u32_small by (unfold in_u32; lia).
  split; [reflexivity|]. split; [reflexivity|]. split; [apply length_set_term|]. repeat split; exact Hnl.
Qed.

Lemma TS_idx_update_shown f s : TS_idx (update_shown f s) = TS_idx s.
Proof. reflexivity. Qed.
Lemma TA_idx_update_shown f s : TA_idx (update_shown f s) = TA_idx s.
Proof. reflexivity. Qed.
Lemma length_update_shown f s : length (terminal_arr (update_shown f s)) = length (terminal_arr s).
Proof. apply length_set_term. Qed.
Lemma TS_idx_k_putc c s : TS_idx (k_putc putc c s) = TS_idx s.
Proof. reflexivity. Qed.
Lemma TA_idx_k_putc c s : TA_idx (k_putc putc c s) = TA_idx s.
Proof. reflexivity. Qed.
Lemma terminal_arr_k_putc c s : terminal_arr (k_putc putc c s) = terminal_arr s.
Proof. reflexivity. Qed.

Lemma term_at_update_shown_at f s i :
  TS_idx s = i -> (i < length (terminal_arr s))%nat -> term_at (update_shown f s) i = f (term_at s i).
Proof. intros <-. apply term_at_set_term_eq. Qed.

(** A newline, typed while no line is pending: stored at the index, the
    line-ready flag raised. *)
Lemma echo_key_newline s :
  let t := term_at s (TS_idx s) in
  terminal_newline t = 0 -> 0 <= keyboard_idx t <= 127 -> (TS_idx s < length (terminal_arr s))%nat ->
  let s' := echo_key putc 10 s in
  TS_idx s' = TS_idx s /\ TA_idx s' = TA_idx s /\ length (terminal_arr s') = length (terminal_arr s) /\
  keyboard_buffer (term_at s' (TS_idx s)) = <[Z.to_nat (keyboard_idx t) := 10]> (keyboard_buffer t) /\
  terminal_newline (term_at s' (TS_idx s)) = 1.
Proof.
  intros t Hnl Hi Hts. unfold echo_key. fold t.
  rewrite decide_False by lia. rewrite bool_decide_true by tauto.
  case_decide as H127; cbv zeta;
    rewrite !term_at_update_shown_at by (rewrite ?TS_idx_k_putc, ?TS_idx_update_shown,
       ?terminal_arr_k_putc, ?length_update_shown; first [reflexivity | exact Hts]);
    rewrite ?term_at_k_putc, ?term_at_update_shown by exact Hts; fold t;
    cbn [keyboard_buffer keyboard_idx terminal_newline set_kbd];
    rewrite ?TS_idx_update_shown, ?TS_idx_k_putc, ?TA_idx_update_shown, ?TA_idx_k_putc,
      ?length_update_shown, ?terminal_arr_k_putc, ?length_update_shown;
    repeat split; try (rewrite H127; reflexivity).
Qed.

Lemma insert_after_prefix (p b : list Z) c :
  (length p < length b)%nat ->
  <[length p := c]> (p ++ drop (length p) b) = (p ++ [c]) ++ drop (S (length p)) b.
Proof.
  intros Hl. destruct (lookup_lt_is_Some_2 b (length p) Hl) as [x Hx].
  rewrite insert_app_r_alt, Nat.sub_diag by lia. rewrite (drop_S b x (length p) Hx).
  rewrite <- app_assoc. reflexivity.
Qed.

(** Characters typed into an empty line: the first 127 are stored in
    order, the rest are dropped, and no line is ready. *)
Lemma echo_keys cs s :
  let t := term_at s (TS_idx s) in
  Forall (fun c => c <> 0 /\ c <> 10) cs -> terminal_newline t = 0 -> keyboard_idx t = 0 ->
  length (keyboard_buffer t) = 128%nat -> (TS_idx s < length (terminal_arr s))%nat ->
  let s' := fold_left (fun s c => echo_key putc c s) cs s in
  TS_idx s' = TS_idx s /\ TA_idx s' = TA_idx s /\ length (terminal_arr s') = length (terminal_arr s) /\
  keyboard_buffer (term_at s' (TS_idx s)) = take 127 cs ++ drop (length (take 127 cs)) (keyboard_buffer t) /\
  keyboard_idx (term_at s' (TS_idx s)) = Z.of_nat (length (take 127 cs)) /\
  terminal_newline (term_at s' (TS_idx s)) = 0.
Proof.
  intros t Hcs Hnl H0 Hlen Hts. induction cs as [|c p IH] using rev_ind; cbv zeta; fold t.
  { cbn [fold_left take length drop app]. fold t. rewrite H0. repeat split; exact Hnl. }
  apply Forall_app in Hcs as [Hp Hc]. apply Forall_singleton in Hc as [Hc0 Hc10].
  rewrite fold_left_app. cbn [fold_left].
  destruct (IH Hp) as (E1 & E2 & E3 & E4 & E5 & E6). clear IH.
  remember (fold_left (fun s c => echo_key putc c s) p s) as sp eqn:Esp. clear Esp.
  assert (G1 : terminal_newline (term_at sp (TS_idx sp)) = 0) by (rewrite E1; exact E6).
  assert (G2 : 0 <= keyboard_idx (term_at sp (TS_idx sp)) <= 127) by (rewrite E1, E5, length_take; lia).
  assert (G3 : (TS_idx sp < length (terminal_arr sp))%nat) by (rewrite E1, E3; exact Hts).
  destruct (echo_key_char c sp Hc0 Hc10 G1 G2 G3) as (F1 & F2 & F3 & F4 & F5 & F6).
  rewrite E1 in F4, F5, F6. rewrite E5, E4 in F4. rewrite E5 in F5.
  rewrite F1, F2, F3, E1, E2, E3. repeat split; [| |exact F6].
  - destruct (decide (127 <= length p)%nat).
    + rewrite take_app_le by lia. rewrite decide_True in F4 by (rewrite length_take; lia). exact F4.
    + rewrite (take_ge p), take_ge in * by (rewrite ?length_app; simpl; lia).
      rewrite decide_False in F4 by lia. rewrite F4, Nat2Z.id. rewrite length_app. simpl.
      rewrite Nat.add_1_r. apply insert_after_prefix. lia.
  - destruct (decide (127 <= length p)%nat).
    + rewrite take_app_le by lia. rewrite decide_True in F5 by (rewrite length_take; lia).
      rewrite F5, length_take. lia.
    + rewrite (take_ge p), take_ge in * by (rewrite ?length_app; simpl; lia).
      rewrite decide_False in F5 by lia. rewrite F5, length_app. simpl. lia.
Qed.

Lemma copy_line_line l r n :
  Forall (fun c => c <> 10) l -> (length l < n)%nat -> copy_line (l ++ 10 :: r) n = l ++ [10].
Proof.
  intros Hl. revert n. induction Hl as [|c l Hc Hl IH]; intros [|n] Hn; simpl in *; try lia.
  - reflexivity.
  - rewrite decide_False by exact Hc. f_equal. apply IH. lia.
Qed.

End Echo.

(** A console that advances one column per character, standing in for
    lib.c's [putc] in the examples. *)
Definition advance_putc (c : Z) (con : console_t) : console_t :=
  mk_console (screen_x con + 1) (screen_y con) (video_mem con) (hw_cursor con).

(** The kernel state after [init_terminals]: three empty terminals. *)
Definition kbd_demo : kstate := init_terminals zero_kstate.

(** ** Properties *)

(** C26. Every table read of [Keyboard_Handler] is within the 62 entries of
    [codeASCIINS] and [codeASCIIYS]: for every 8-bit scan code, whatever the
    modifier state, the handler completes. *)
Theorem Keyboard_Handler_total NUM_COLS putc sc k s :
  in_u8 sc -> exists k' s', Keyboard_Handler NUM_COLS putc sc k s = Some (k', s').
Proof.
  intros [Hsc _]. unfold Keyboard_Handler.
  destruct (kbd_dispatch_total NUM_COLS putc sc k
    (let s0 := cli s in let s2 := setVidPointer VMEM_BASE_ADDR (save_cursor (TA_idx s0) s0) in
     editScreenCoords (cursor_x (term_at s2 (TS_idx s2))) (cursor_y (term_at s2 (TS_idx s2))) s2) Hsc)
    as [[k' s4] E].
  simpl in E |- *. rewrite E. eauto.
Qed.

(** C25. In every keyboard state reachable from boot, [keycode] is zero while
    alt is held, so the alt branch, which leaves [keycode] unchanged, never
    echoes a character. *)
Theorem kbd_reachable_alt_ok NUM_COLS putc k : kbd_reachable NUM_COLS putc k -> alt_ok k.
Proof.
  induction 1 as [|sc k s k' s' _ IH E]; [intros _; reflexivity|].
  destruct (Keyboard_Handler_dispatch NUM_COLS putc sc k s k' s' E) as (s3 & s4 & D).
  exact (kbd_dispatch_alt_ok NUM_COLS putc sc k s3 k' s4 IH D).
Qed.

(** C11. Every line buffer stays a 128-byte array whose index is at most 127
    across a keyboard interrupt, so the handler's store [buf[idx] = keycode]
    and [backspace]'s [buf[idx-1]] stay inside the buffer. *)
Theorem Keyboard_Handler_lines_ok NUM_COLS putc sc k s k' s' :
  lines_ok s -> Keyboard_Handler NUM_COLS putc sc k s = Some (k', s') -> lines_ok s'.
Proof. apply Keyboard_Handler_ok. Qed.

Lemma Keyboard_Handler_total_witness :
  in_u8 0x3D /\ exists k' s', Keyboard_Handler 80 advance_putc 0x3D (mk_kbd 0 0) kbd_demo = Some (k', s').
Proof. split; [unfold in_u8; lia | apply (Keyboard_Handler_total 80 advance_putc 0x3D (mk_kbd 0 0) kbd_demo); unfold in_u8; lia]. Defined.

Lemma kbd_reachable_alt_ok_witness :
  kbd_reachable 80 advance_putc (mk_kbd 8 0) /\ alt_ok (mk_kbd 8 0).
Proof.
  assert (R : kbd_reachable 80 advance_putc (mk_kbd 8 0)).
  { eapply (kbd_irq 80 advance_putc 0x38 (mk_kbd 0 0) kbd_demo (mk_kbd 8 0));
      [apply kbd_boot | vm_compute; reflexivity]. }
  split; [exact R | exact (kbd_reachable_alt_ok 80 advance_putc _ R)].
Defined.

Lemma Keyboard_Handler_lines_ok_witness :
  lines_ok kbd_demo /\
  lines_ok (snd (default (mk_kbd 0 0, kbd_demo) (Keyboard_Handler 80 advance_putc 0x1E (mk_kbd 0 0) kbd_demo))).
Proof.
  assert (H0 : lines_ok kbd_demo) by (apply (bool_decide_eq_true_1 (lines_ok kbd_demo)); vm_compute; reflexivity).
  split; [exact H0|].
  remember (Keyboard_Handler 80 advance_putc 0x1E (mk_kbd 0 0) kbd_demo) as r eqn:E.
  destruct r as [[k' s']|]; [|vm_compute in E; discriminate].
  exact (Keyboard_Handler_lines_ok 80 advance_putc 0x1E (mk_kbd 0 0) kbd_demo k' s' H0 (eq_sym E)).
Defined.

(** C10. A line typed on the shown terminal is what [terminal_read] returns:
    after [terminal_read] on that terminal has reset its line, typing
    characters other than NUL and newline leaves the reader waiting, and
    the newline wakes it with the first 127 characters and the newline,
    whatever the buffer held before. *)
Theorem terminal_read_typed_line putc s cs :
  TA_idx s = TS_idx s -> (TS_idx s < length (terminal_arr s))%nat ->
  length (keyboard_buffer (term_at s (TS_idx s))) = 128%nat ->
  Forall (fun c => c <> 0 /\ c <> 10) cs ->
  let s1 := fold_left (fun s c => echo_key putc c s) cs (fst (terminal_read s)) in
  let s2 := echo_key putc 10 s1 in
  terminal_newline (term_at s1 (TA_idx s1)) = 0 /\
  terminal_newline (term_at s2 (TA_idx s2)) = 1 /\
  snd (terminal_read_copy s2) = take 127 cs ++ [10] /\
  snd (fst (terminal_read_copy s2)) = Z.of_nat (length (take 127 cs)) + 1.
Proof.
  intros Hta Hts Hlen Hcs. cbn [terminal_read fst].
  assert (T0 : term_at (setIdx 0 s) (TS_idx s) = set_kbd (keyboard_buffer (term_at s (TS_idx s))) 0 0
                                                    (term_at s (TS_idx s))).
  { unfold setIdx, update_active. rewrite Hta. apply term_at_set_term_eq, Hts. }
  assert (Hts0 : (TS_idx (setIdx 0 s) < length (terminal_arr (setIdx 0 s)))%nat).
  { unfold setIdx, update_active. rewrite length_set_term. exact Hts. }
  destruct (echo_keys putc cs (setIdx 0 s)) as (E1 & E2 & E3 & E4 & E5 & E6);
    change (TS_idx (setIdx 0 s)) with (TS_idx s) in *; rewrite ?T0; try reflexivity; try assumption.
  cbv zeta. remember (fold_left _ cs (setIdx 0 s)) as s1 eqn:Es1. clear Es1.
  rewrite T0 in E4. cbn [keyboard_buffer set_kbd] in E4.
  destruct (echo_key_newline putc s1) as (F1 & F2 & F3 & F4 & F5);
    rewrite ?E1; [exact E6 | rewrite E5, length_take; lia | rewrite E3; exact Hts0|].
  rewrite E1 in F4, F5. rewrite E5, E4, Nat2Z.id in F4.
  rewrite insert_after_prefix, <- app_assoc in F4 by (rewrite length_take; lia). cbn [app] in F4.
  assert (Hta2 : TA_idx (echo_key putc 10 s1) = TS_idx s) by (rewrite F2, E2; exact Hta).
  split; [rewrite E2; change (TA_idx (setIdx 0 s)) with (TA_idx s); rewrite Hta; exact E6|].
  split; [rewrite Hta2; exact F5|].
  unfold terminal_read_copy. rewrite Hta2, F4. cbn [fst snd].
  rewrite copy_line_line; [split; [reflexivity|] | |].
  - rewrite length_app. simpl. lia.
  - eapply Forall_impl; [apply Forall_take, Hcs | intros c [_ ?]; assumption].
  - rewrite length_take. lia.
Qed.

Lemma terminal_read_typed_line_witness :
  let s1 := fold_left (fun s c => echo_key advance_putc c s) [108; 115] (fst (terminal_read kbd_demo)) in
  let s2 := echo_key advance_putc 10 s1 in
  terminal_newline (term_at s1 (TA_idx s1)) = 0 /\
  terminal_newline (term_at s2 (TA_idx s2)) = 1 /\
  snd (terminal_read_copy s2) = take 127 [108; 115] ++ [10] /\
  snd (fst (terminal_read_copy s2)) = Z.of_nat (length (take 127 [108; 115])) + 1.
Proof.
  apply (terminal_read_typed_line advance_putc kbd_demo [108; 115]);
    [reflexivity | vm_compute; lia | reflexivity | repeat constructor; lia].
Defined.

(** A line with no newline, as long as the copy bound, is copied whole. *)
Lemma copy_line_all kb : Forall (fun c => c <> 10) kb -> copy_line kb (length kb) = kb.
Proof. induction 1 as [|c l Hc Hl IH]; [reflexivity|]. cbn. rewrite decide_False by exact Hc. by rewrite IH. Qed.

(** [backspace] on a non-empty line: the shown terminal's record is
    rewritten by [set_kbd] with the last byte zeroed and the index one
    lower; the flag is passed through; the cursor work touches only the
    console. *)
Lemma backspace_shown NUM_COLS putc s :
  keyboard_idx (term_at s (TS_idx s)) <> 0 ->
  TA_idx (backspace NUM_COLS putc s) = TA_idx s /\ TS_idx (backspace NUM_COLS putc s) = TS_idx s /\
  terminal_arr (backspace NUM_COLS putc s) =
    terminal_arr (update_shown (fun t =>
      set_kbd (<[Z.to_nat ((keyboard_idx t - 1) mod 128) := 0]> (keyboard_buffer t))
              (keyboard_idx t - 1) (terminal_newline t) t) s).
Proof.
  intros H. unfold backspace. rewrite decide_True by exact H.
  destruct (erase_back _ _ _ _) as [[cx cy]|]; repeat split.
Qed.

(** C39. Backspace after a newline erases the newline but leaves the
    line-ready flag raised, in every state: when the shown terminal is the
    active one and its 128-byte line buffer holds one newline, just
    before the index, with the flag raised, a backspace zeroes the
    newline and keeps the flag at 1; [terminal_read], released by the
    flag, then copies all 128 bytes of the buffer, which hold no newline,
    and returns 128. *)
Theorem backspace_keeps_line_ready NUM_COLS putc s l r :
  TS_idx s = TA_idx s -> (TA_idx s < length (terminal_arr s))%nat ->
  keyboard_buffer (term_at s (TA_idx s)) = l ++ 10 :: r -> length (l ++ 10 :: r) = 128%nat ->
  keyboard_idx (term_at s (TA_idx s)) = Z.of_nat (length l) + 1 ->
  terminal_newline (term_at s (TA_idx s)) = 1 ->
  Forall (fun c => c <> 10) l -> Forall (fun c => c <> 10) r ->
  let s' := backspace NUM_COLS putc s in
  terminal_newline (term_at s' (TA_idx s')) = 1 /\
  snd (terminal_read_copy s') = l ++ 0 :: r /\ snd (fst (terminal_read_copy s')) = 128.
Proof.
  intros Hts Hta Hb Hlen Hi Hn Hl Hr s'.
  rewrite length_app in Hlen; cbn in Hlen.
  destruct (backspace_shown NUM_COLS putc s ltac:(rewrite Hts, Hi; lia)) as (HA & _ & HT).
  assert (Ht' : term_at s' (TA_idx s') = set_kbd (l ++ 0 :: r) (Z.of_nat (length l)) 1 (term_at s (TA_idx s))).
  { unfold s', term_at at 1. rewrite HT, HA. fold (term_at (update_shown
      (fun t => set_kbd (<[Z.to_nat ((keyboard_idx t - 1) mod 128) := 0]> (keyboard_buffer t))
                        (keyboard_idx t - 1) (terminal_newline t) t) s) (TA_idx s)).
    unfold update_shown. rewrite Hts, term_at_set_term_eq by exact Hta. rewrite Hb, Hi, Hn.
    replace (Z.of_nat (length l) + 1 - 1) with (Z.of_nat (length l)) by lia.
    rewrite Z.mod_small, Nat2Z.id by lia. rewrite insert_app_r_alt, Nat.sub_diag by lia. reflexivity. }
  assert (Hc : copy_line (l ++ 0 :: r) 128 = l ++ 0 :: r).
  { replace 128%nat with (length (l ++ 0 :: r)) by (rewrite length_app; cbn; lia).
    apply copy_line_all, Forall_app; split; [done|]. constructor; [lia|done]. }
  unfold terminal_read_copy. rewrite Ht'. cbn [set_kbd keyboard_buffer terminal_newline].
  rewrite Hc. split; [reflexivity|]. split; [reflexivity|]. rewrite length_app; cbn. lia.
Qed.

(** Typing [a] then Enter into a line [terminal_read] waits on leaves the
    buffer [a], newline, 126 NULs: a backspace there releases the reader
    with 128 bytes. *)
Lemma backspace_keeps_line_ready_witness :
  match Keyboard_Handler_seq 80 advance_putc [0x1E; 0x1C] (mk_kbd 0 0) (fst (terminal_read kbd_demo)) with
  | Some (_, s) =>
      let s' := backspace 80 advance_putc s in
      terminal_newline (term_at s' (TA_idx s')) = 1 /\
      snd (terminal_read_copy s') = [97] ++ 0 :: replicate 126 0 /\ snd (fst (terminal_read_copy s')) = 128
  | None => False
  end.
Proof.
  destruct (Keyboard_Handler_seq 80 advance_putc [0x1E; 0x1C] (mk_kbd 0 0) (fst (terminal_read kbd_demo)))
    as [[k s]|] eqn:E; [|vm_compute in E; discriminate].
  assert (Hs : TS_idx s = TA_idx s /\ (TA_idx s < length (terminal_arr s))%nat /\
               keyboard_buffer (term_at s (TA_idx s)) = [97] ++ 10 :: replicate 126 0 /\
               keyboard_idx (term_at s (TA_idx s)) = Z.of_nat (length [97]) + 1 /\
               terminal_newline (term_at s (TA_idx s)) = 1)
    by (vm_compute in E; injection E as _ <-; vm_compute; repeat split; lia).
  destruct Hs as (H1 & H2 & H3 & H4 & H5).
  apply (backspace_keeps_line_ready 80 advance_putc s [97] (replicate 126 0) H1 H2 H3);
    [reflexivity | exact H4 | exact H5 | repeat constructor; lia | apply Forall_replicate; lia].
Defined.
