(* ===== verification/Rtc.v ===== *)
(** * Rtc: the real-time clock driver (drivers/rtc.c)

    The RTC interrupts at one fixed rate; [init_RTC] writes rate select 7
    into register A, which is 32768 >> (7 - 1) = 512 Hz.  Each terminal
    virtualises its own rate: [rtc_write] stores in [rtc_freq_bit] the bit
    of the shared counter [rtc_counter] that toggles at the requested rate,
    [RTC_Handler] raises a terminal's [rtc_interrupt_occurred] flag when that
    bit toggles, and [rtc_read] clears the active terminal's flag and spins
    until it is raised again.  The divider loop of [rtc_write] runs on an
    explicit bound ([RTC_LOOP_FUEL]); the theorems show the bound is never
    reached.  Port I/O ([outb], [inb], the NMI mask) is not modelled. *)

From S2P Require Import Prelude Paging Fsys State Pic.

Definition RTC_IRQ : Z := 8.

(** The RTC fields of a terminal record. *)
Definition set_rtc_fields (occurred freq_bit : Z) (t : terminal_t) : terminal_t :=
  mk_terminal (saved_ebp t) (saved_esp0 t) (t_currentPID t) (t_currentPCB t)
    (cursor_x t) (cursor_y t) (keyboard_buffer t) (keyboard_idx t) (terminal_newline t)
    occurred freq_bit.

(** ** The interrupt handler *)

(** [CHECK_FLAG(rtc_counter, bit) != CHECK_FLAG(rtc_counter + 1, bit)],
    the sum in [uint32_t]. *)
Definition rtc_bit_toggles (cnt bit : Z) : bool :=
  negb (Bool.eqb (CHECK_FLAG cnt (Z.to_nat bit)) (CHECK_FLAG (u32 (cnt + 1)) (Z.to_nat bit))).

(** The body of the loop over the terminals. *)
Definition rtc_mark (cnt : Z) (t : terminal_t) : terminal_t :=
  if rtc_bit_toggles cnt (rtc_freq_bit t) then set_rtc_fields 1 (rtc_freq_bit t) t else t.

(** [RTC_Handler()] *)
Definition RTC_Handler (s : kstate) : kstate :=
  let s0 := cli s in
  let s1 := set_terms s0 (map (rtc_mark (rtc_counter s0)) (terminal_arr s0)) in
  let s2 := set_rtc_counter s1 (u32 (rtc_counter s1 + 1)) in
  sti (send_eoi RTC_IRQ s2).

(** [init_RTC()]: the counter at zero, the register writes (periodic
    interrupts on, rate select 7, i.e. 512 Hz; port I/O, not modelled)
    inside [cli_and_save]/[restore_flags], [sti()], then
    [enable_irq(RTC_IRQ)]. *)
Definition init_RTC (SLAVE_ID : Z) (p : pic_t) (s : kstate) : pic_t * kstate :=
  let s0 := set_rtc_counter s 0 in
  let s1 := sti (set_if (cli s0) (intr_enabled s0)) in
  enable_irq SLAVE_ID RTC_IRQ p s1.

(** ** The file operations *)

(** [rtc_open(filename)]: the active terminal starts at 2 Hz. *)
Definition rtc_open (s : kstate) : kstate * Z :=
  (update_active (fun t => set_rtc_fields (rtc_interrupt_occurred t) 8 t) s, 0).

Definition rtc_close (s : kstate) : kstate * Z := (s, 0).

(** [rtc_read(fd, buf, nbytes)]: clear the flag; the [while] loop then
    waits for the handler to raise it ([WaitRtc]). *)
Definition rtc_read (s : kstate) : kstate * ctl :=
  (update_active (fun t => set_rtc_fields 0 (rtc_freq_bit t) t) s, WaitRtc).

(** The [while (freq != 0x02)] loop of [rtc_write], with [freq_bit] a
    [uint32_t]; [None] when the bound runs out. *)
Fixpoint freq_loop (fuel : nat) (freq freq_bit : Z) : option Z :=
  match fuel with
  | O => None
  | S f => if decide (freq = 2) then Some freq_bit else freq_loop f (freq >>> 1) (u32 (freq_bit - 1))
  end.

(** The loop halves [freq] each time: 32 iterations exhaust a [uint32_t]. *)
Definition RTC_LOOP_FUEL : nat := 32.

(** The guard of [rtc_write]: a power of two in [2, 512], by the bit trick
    [(freq & (freq - 1)) == 0] on [uint32_t]. *)
Definition rtc_rate_ok (freq : Z) : bool :=
  bool_decide (freq .& u32 (freq - 1) = 0) && bool_decide (2 <= freq <= 512).

(** [rtc_write(fd, buf, nbytes)]: [buf] holds the [uint32_t] frequency. *)
Definition rtc_write (buf : list Z) (s : kstate) : kstate * Z :=
  let freq := le32 buf in
  if negb (rtc_rate_ok freq) then (s, -1) else
  match freq_loop RTC_LOOP_FUEL freq 8 with
  | None => (s, -1)
  | Some b => (update_active (fun t => set_rtc_fields (rtc_interrupt_occurred t) b t) s, 0)
  end.

(** ** The reference specification

    A virtual rate is a power of two [2^k] with [1 <= k <= 9]; the terminal
    then watches bit [9 - k] of the 512 Hz counter, which toggles
    [512 / 2^(9-k) = 2^k] times a second. *)
Definition rate_bit (freq : Z) : option Z :=
  if decide (2 <= freq <= 512 /\ 2 ^ Z.log2 freq = freq) then Some (9 - Z.log2 freq) else None.

(** The four bytes of a [uint32_t] in memory. *)
Definition bytes32 (v : Z) : list Z :=
  [v mod 2 ^ 8; (v / 2 ^ 8) mod 2 ^ 8; (v / 2 ^ 16) mod 2 ^ 8; (v / 2 ^ 24) mod 2 ^ 8].

(** The exhaustive check of the guard and loop on the 511 rates of the
    range, computed once. *)
Definition rtc_rates_agree : bool :=
  forallb (fun n => let f := Z.of_nat n + 2 in
             bool_decide ((if rtc_rate_ok f then freq_loop RTC_LOOP_FUEL f 8 else None) = rate_bit f))
          (seq 0 511).

(** A configuration for the concrete runs: terminal 0 active at 64 Hz
    (bit 3), the counter at 5. *)
Definition rtc_demo : kstate :=
  set_rtc_counter (set_terms zero_kstate [set_rtc_fields 0 3 zero_terminal; zero_terminal; zero_terminal]) 5.

(** ** Lemmas *)

Lemma rtc_rates_agree_true : rtc_rates_agree = true.
Proof. vm_compute. reflexivity. Qed.

(** The guard and the loop compute [rate_bit] on every [uint32_t]. *)
Lemma rtc_loop_ref f :
  (if rtc_rate_ok f then freq_loop RTC_LOOP_FUEL f 8 else None) = rate_bit f.
Proof.
  destruct (decide (2 <= f <= 512)) as [Hr|Hr].
  - pose proof rtc_rates_agree_true as H. unfold rtc_rates_agree in H.
    rewrite forallb_forall in H. specialize (H (Z.to_nat (f - 2))).
    rewrite in_seq in H. replace (Z.of_nat (Z.to_nat (f - 2)) + 2) with f in H by lia.
    apply bool_decide_eq_true in H; [exact H | lia].
  - unfold rtc_rate_ok, rate_bit.
    rewrite (bool_decide_false (2 <= f <= 512)) by exact Hr. rewrite andb_false_r.
    destruct (decide _) as [[]|]; [contradiction | reflexivity].
Qed.

Lemma CHECK_FLAG_testbit x b : 0 <= b -> CHECK_FLAG x (Z.to_nat b) = Z.testbit x b.
Proof. intros Hb. unfold CHECK_FLAG. rewrite Z2Nat.id by exact Hb. reflexivity. Qed.

(** Bit [b] of [x] is the parity of [x / 2^b]. *)
Lemma testbit_div x b : 0 <= b -> Z.testbit x b = Z.odd (x / 2 ^ b).
Proof.
  intros Hb. rewrite <- Z.shiftr_div_pow2, <- Z.bit0_odd, Z.shiftr_spec by lia.
  rewrite Z.add_0_l. reflexivity.
Qed.

(** Incrementing crosses a multiple of [2^b] exactly when the successor is
    one. *)
Lemma div_succ_pow2 c b :
  0 <= c -> 0 <= b ->
  (c + 1) / 2 ^ b = c / 2 ^ b + (if decide ((c + 1) mod 2 ^ b = 0) then 1 else 0) /\
  ((c + 1) mod 2 ^ b = 0 <-> c mod 2 ^ b + 1 = 2 ^ b).
Proof.
  intros Hc Hb. assert (Hp : 0 < 2 ^ b) by (apply Z.pow_pos_nonneg; lia).
  pose proof (Z.div_mod c (2 ^ b) ltac:(lia)) as Hdm. pose proof (Z.mod_pos_bound c (2 ^ b) Hp).
  destruct (decide (c mod 2 ^ b + 1 = 2 ^ b)) as [He|He].
  - assert (Hm : (c + 1) mod 2 ^ b = 0)
      by (symmetry; apply (Z.mod_unique_pos _ _ (c / 2 ^ b + 1)); lia).
    rewrite decide_True by exact Hm. split; [|tauto].
    symmetry. apply (Z.div_unique_pos _ _ _ 0); lia.
  - assert (Hm : (c + 1) mod 2 ^ b = c mod 2 ^ b + 1)
      by (symmetry; apply (Z.mod_unique_pos _ _ (c / 2 ^ b)); lia).
    rewrite Hm, decide_False by lia. split; [|lia].
    symmetry. apply (Z.div_unique_pos _ _ _ (c mod 2 ^ b + 1)); lia.
Qed.

Lemma pow2_divides b n : 0 <= b <= n -> (2 ^ b | 2 ^ n).
Proof. intros Hb. exists (2 ^ (n - b)). rewrite <- Z.pow_add_r by lia. f_equal. lia. Qed.

Lemma u32_mod_pow2 x b : 0 <= b <= 32 -> u32 x mod 2 ^ b = x mod 2 ^ b.
Proof. intros Hb. unfold u32. apply Z.mod_mod_divide, pow2_divides. exact Hb. Qed.

(** The toggle test of [RTC_Handler] on bit [b], read arithmetically. *)
Lemma rtc_bit_toggles_iff c b :
  in_u32 c -> 0 <= b < 32 ->
  rtc_bit_toggles c b = true <-> (c + 1) mod 2 ^ b = 0.
Proof.
  intros Hc Hb. unfold in_u32 in Hc. unfold rtc_bit_toggles. rewrite !CHECK_FLAG_testbit by lia.
  destruct (decide (c + 1 = 2 ^ 32)) as [Hw|Hw].
  - unfold u32. rewrite Hw, Z.mod_same, Z.testbit_0_l by lia.
    replace c with (Z.ones 32) by (rewrite Z.ones_equiv; lia).
    rewrite Z.testbit_ones_nonneg by lia. rewrite (proj2 (Z.ltb_lt b 32)) by lia.
    split; [intros _ | reflexivity].
    destruct (pow2_divides b 32 ltac:(lia)) as [k Hk]. rewrite Hk. apply Z.mod_mul.
    pose proof (Z.pow_pos_nonneg 2 b). lia.
  - rewrite u32_small by (unfold in_u32; lia).
    destruct (div_succ_pow2 c b ltac:(lia) ltac:(lia)) as [Hd _].
    rewrite !testbit_div, Hd, Z.odd_add by lia.
    destruct (decide _) as [H0|H0]; destruct (Z.odd (c / 2 ^ b)); cbn; split; congruence.
Qed.

(** C30. The virtual rate: bit [b] of the 32-bit RTC counter toggles on
    the increment from [c] exactly when [c + 1] is a multiple of [2^b], so
    a terminal watching bit [b] is signalled once every [2^b] interrupts of
    the 512 Hz clock, across the wrap-around of [rtc_counter] included. *)
Theorem rtc_toggle_period c b :
  in_u32 c -> 0 <= b < 32 ->
  rtc_bit_toggles c b = true <-> (c + 1) mod 2 ^ b = 0.
Proof. apply rtc_bit_toggles_iff. Qed.

(** The residue of a successor modulo [2^b] survives the 32-bit wrap. *)
Lemma u32_succ_mod x b : 0 <= b <= 32 -> (u32 x + 1) mod 2 ^ b = (x + 1) mod 2 ^ b.
Proof.
  intros Hb. rewrite <- Z.add_mod_idemp_l, u32_mod_pow2 by (exact Hb || (pose proof (Z.pow_pos_nonneg 2 b); lia)).
  rewrite Z.add_mod_idemp_l; [reflexivity|]. pose proof (Z.pow_pos_nonneg 2 b). lia.
Qed.

(** The first toggle after [c] comes [2^b - 1 - c mod 2^b] increments later. *)
Lemma rtc_first_toggle c b :
  in_u32 c -> 0 <= b < 32 ->
  let j := Z.to_nat (2 ^ b - 1 - c mod 2 ^ b) in
  (Z.of_nat j < 2 ^ b) /\
  rtc_bit_toggles (u32 (c + Z.of_nat j)) b = true /\
  (forall k, (k < j)%nat -> rtc_bit_toggles (u32 (c + Z.of_nat k)) b = false).
Proof.
  intros Hc Hb j. assert (Hp : 0 < 2 ^ b) by (apply Z.pow_pos_nonneg; lia).
  pose proof (Z.mod_pos_bound c (2 ^ b) Hp) as Hr.
  assert (Hk : forall k, (k <= j)%nat ->
            (rtc_bit_toggles (u32 (c + Z.of_nat k)) b = true <-> k = j)).
  { intros k Hkj. rewrite rtc_bit_toggles_iff by (apply u32_range || lia).
    rewrite u32_succ_mod by lia. rewrite <- Z.add_assoc, <- Z.add_mod_idemp_l by lia.
    assert (Hk' : Z.of_nat k <= 2 ^ b - 1 - c mod 2 ^ b) by (subst j; lia).
    destruct (decide (c mod 2 ^ b + (Z.of_nat k + 1) = 2 ^ b)) as [He|He].
    - rewrite He, Z.mod_same by lia. split; [intros _ | reflexivity]. lia.
    - rewrite Z.mod_small by lia. split; [lia|]. intros ->. subst j. lia. }
  split; [subst j; lia|]. split; [apply Hk; lia|].
  intros k Hkj. destruct (rtc_bit_toggles _ b) eqn:E; [|reflexivity].
  apply Hk in E; lia.
Qed.

(** One interrupt: every terminal is marked against the old counter, and
    the counter advances modulo [2^32]. *)
Lemma RTC_Handler_spec s :
  let s' := RTC_Handler s in
  (forall i, (i < length (terminal_arr s))%nat -> term_at s' i = rtc_mark (rtc_counter s) (term_at s i)) /\
  length (terminal_arr s') = length (terminal_arr s) /\
  rtc_counter s' = u32 (rtc_counter s + 1) /\ TA_idx s' = TA_idx s /\
  eoi_log s' = RTC_IRQ :: eoi_log s /\ intr_enabled s' = true.
Proof.
  cbn. split; [|split; [apply length_map | repeat split]].
  intros i Hi. unfold term_at. cbn.
  rewrite (nth_indep _ _ (rtc_mark (rtc_counter s) zero_terminal)) by (rewrite length_map; exact Hi).
  apply map_nth.
Qed.

Lemma rtc_mark_freq_bit c t : rtc_freq_bit (rtc_mark c t) = rtc_freq_bit t.
Proof. unfold rtc_mark. destruct (rtc_bit_toggles _ _); reflexivity. Qed.

(** [n] interrupts: the flag of terminal [i] is raised once its bit has
    toggled on one of the increments. *)
Lemma rtc_iter s i n :
  in_u32 (rtc_counter s) -> (i < length (terminal_arr s))%nat ->
  let s' := Nat.iter n RTC_Handler s in
  let b := rtc_freq_bit (term_at s i) in
  length (terminal_arr s') = length (terminal_arr s) /\ TA_idx s' = TA_idx s /\
  rtc_counter s' = u32 (rtc_counter s + Z.of_nat n) /\
  rtc_freq_bit (term_at s' i) = b /\
  rtc_interrupt_occurred (term_at s' i) =
    if existsb (fun k => rtc_bit_toggles (u32 (rtc_counter s + Z.of_nat k)) b) (seq 0 n) then 1
    else rtc_interrupt_occurred (term_at s i).
Proof.
  intros Hc Hi. induction n as [|n IH]; cbn zeta in *.
  - split; [reflexivity|]. split; [reflexivity|]. rewrite Z.add_0_r, u32_small by exact Hc. auto.
  - destruct IH as (Hl & Hta & Hcnt & Hb & Hf).
    change (Nat.iter (S n) RTC_Handler s) with (RTC_Handler (Nat.iter n RTC_Handler s)).
    destruct (RTC_Handler_spec (Nat.iter n RTC_Handler s)) as (Ht & Hl' & Hc' & Hta' & _).
    rewrite Ht by lia. rewrite Hl', Hc', Hta', Hcnt, rtc_mark_freq_bit, Hl, Hta, Hb.
    split; [reflexivity|]. split; [reflexivity|]. split.
    { unfold u32. rewrite Z.add_mod_idemp_l by lia. f_equal. lia. }
    split; [reflexivity|].
    rewrite seq_S, existsb_app. cbn [existsb]. rewrite Nat.add_0_l, orb_false_r.
    unfold rtc_mark. rewrite Hb.
    destruct (rtc_bit_toggles (u32 (rtc_counter s + Z.of_nat n)) _); [rewrite orb_true_r; reflexivity|].
    rewrite orb_false_r. exact Hf.
Qed.

(** A predicate on [0, 1, ...] first true at [j]: some index below [n]
    satisfies it exactly when [j < n]. *)
Lemma existsb_first (f : nat -> bool) j n :
  f j = true -> (forall k, (k < j)%nat -> f k = false) ->
  existsb f (seq 0 n) = negb (Nat.leb n j).
Proof.
  intros Hj Hk. destruct (Nat.leb n j) eqn:E; cbn.
  - apply Nat.leb_le in E. apply not_true_is_false. rewrite existsb_exists.
    intros (k & Hin & Hf). rewrite in_seq in Hin. rewrite Hk in Hf by lia. discriminate.
  - apply Nat.leb_gt in E. apply existsb_exists. exists j. rewrite in_seq. split; [lia | exact Hj].
Qed.

Lemma rtc_read_spec s :
  (TA_idx s < length (terminal_arr s))%nat ->
  let s1 := fst (rtc_read s) in
  rtc_counter s1 = rtc_counter s /\ TA_idx s1 = TA_idx s /\
  length (terminal_arr s1) = length (terminal_arr s) /\
  rtc_interrupt_occurred (term_at s1 (TA_idx s)) = 0 /\
  rtc_freq_bit (term_at s1 (TA_idx s)) = rtc_freq_bit (term_at s (TA_idx s)).
Proof.
  intros Hta. cbn [fst rtc_read]. unfold update_active.
  rewrite term_at_set_term_eq by exact Hta. cbn. rewrite length_insert. auto.
Qed.

(** C29. [rtc_read] blocks until the terminal's virtual interrupt: it
    clears the flag and spins ([WaitRtc]); the flag is raised by the
    [j+1]-th RTC interrupt after the call and not before, for some [j]
    below [2^b] where [b] is the terminal's frequency bit, and stays raised
    after, so the spin ends, after at most [2^b] interrupts. *)
Theorem rtc_read_wakes s :
  in_u32 (rtc_counter s) -> (TA_idx s < length (terminal_arr s))%nat ->
  0 <= rtc_freq_bit (term_at s (TA_idx s)) < 32 ->
  snd (rtc_read s) = WaitRtc /\
  exists j, Z.of_nat j < 2 ^ rtc_freq_bit (term_at s (TA_idx s)) /\
    forall n, rtc_interrupt_occurred (term_at (Nat.iter n RTC_Handler (fst (rtc_read s))) (TA_idx s)) =
              if decide (n <= j)%nat then 0 else 1.
Proof.
  intros Hc Hta Hb. split; [reflexivity|].
  destruct (rtc_read_spec s Hta) as (Hc1 & _ & Hl1 & Hf1 & Hb1).
  set (s1 := fst (rtc_read s)) in *.
  destruct (rtc_first_toggle (rtc_counter s) _ Hc Hb) as (Hj & Htog & Hbefore).
  eexists. split; [exact Hj|]. intros n.
  destruct (rtc_iter s1 (TA_idx s) n ltac:(rewrite Hc1; exact Hc) ltac:(rewrite Hl1; exact Hta))
    as (_ & _ & _ & _ & Hf). cbv zeta in Hf. rewrite Hf, Hf1, Hb1, Hc1.
  rewrite (existsb_first _ _ n Htog Hbefore).
  destruct (decide _) as [Hn|Hn]; [rewrite (proj2 (Nat.leb_le _ _) Hn) | rewrite (proj2 (Nat.leb_gt _ _)) by lia];
    reflexivity.
Qed.

(** [le32] reads back the four bytes of a [uint32_t]. *)
Lemma le32_bytes32 v : in_u32 v -> le32 (bytes32 v) = v.
Proof.
  intros Hv. unfold in_u32 in Hv. unfold le32, bytes32, nth_byte. cbn [nth].
  pose proof (Z.div_mod v (2 ^ 8) ltac:(lia)) as H1.
  pose proof (Z.div_mod (v / 2 ^ 8) (2 ^ 8) ltac:(lia)) as H2.
  pose proof (Z.div_mod (v / 2 ^ 16) (2 ^ 8) ltac:(lia)) as H3.
  rewrite Z.div_div in H2, H3 by lia. change (2 ^ 8 * 2 ^ 8) with (2 ^ 16) in H2.
  change (2 ^ 16 * 2 ^ 8) with (2 ^ 24) in H3.
  rewrite (Z.mod_small (v / 2 ^ 24)) by (split; [apply Z.div_pos | apply Z.div_lt_upper_bound]; lia).
  lia.
Qed.

(** [rtc_write] computes [rate_bit] of the [uint32_t] it reads: the bit
    trick, the range guard and the halving loop together. *)
Lemma rtc_write_rate_bit buf s :
  rtc_write buf s =
    match rate_bit (le32 buf) with
    | Some b => (update_active (fun t => set_rtc_fields (rtc_interrupt_occurred t) b t) s, 0)
    | None => (s, -1)
    end.
Proof.
  unfold rtc_write. rewrite <- (rtc_loop_ref (le32 buf)).
  destruct (rtc_rate_ok (le32 buf)); cbn; [destruct (freq_loop RTC_LOOP_FUEL (le32 buf) 8)|]; reflexivity.
Qed.

(** C27. [rtc_write] accepts exactly the powers of two in [2, 512]: for
    them it stores [9 - log2 freq] as the active terminal's frequency bit
    and returns 0; any other value returns -1 and changes nothing, and the
    halving loop never exhausts its bound.  In particular 1024 is refused,
    although the function's header comment (rtc.c:143) allows powers of
    two up to 1024 and [rtc_demo_test] of tests.c ends by writing 1024 and
    expecting 0: the guard at rtc.c:156 and its own comment say 512, so
    the code and its documentation disagree. *)
Theorem rtc_write_spec buf s :
  (rtc_write buf s =
     match rate_bit (le32 buf) with
     | Some b => (update_active (fun t => set_rtc_fields (rtc_interrupt_occurred t) b t) s, 0)
     | None => (s, -1)
     end) /\
  (le32 buf = 1024 -> rtc_write buf s = (s, -1)).
Proof. split; [apply rtc_write_rate_bit|]. intros E. rewrite rtc_write_rate_bit, E. reflexivity. Qed.

Lemma rtc_write_spec_witness : le32 (bytes32 1024) = 1024 /\ rtc_write (bytes32 1024) zero_kstate = (zero_kstate, -1).
Proof.
  assert (E : le32 (bytes32 1024) = 1024) by reflexivity.
  split; [exact E | exact (proj2 (rtc_write_spec (bytes32 1024) zero_kstate) E)].
Defined.

Lemma rate_bit_pow2 k : 1 <= k <= 9 -> rate_bit (2 ^ k) = Some (9 - k).
Proof.
  intros Hk. unfold rate_bit. rewrite Z.log2_pow2 by lia.
  rewrite decide_True; [reflexivity|]. split; [|reflexivity].
  split; [change 2 with (2 ^ 1) at 1 | change 512 with (2 ^ 9)]; apply Z.pow_le_mono_r; lia.
Qed.

(** C32. Writing a power of two [2^k], [1 <= k <= 9], as the four bytes of
    a [uint32_t] sets the active terminal's frequency bit to [9 - k], so the
    terminal is signalled [2^k] times a second, and returns 0. *)
Corollary rtc_write_pow2 k s :
  1 <= k <= 9 ->
  rtc_write (bytes32 (2 ^ k)) s =
    (update_active (fun t => set_rtc_fields (rtc_interrupt_occurred t) (9 - k) t) s, 0).
Proof.
  intros Hk. rewrite rtc_write_rate_bit, le32_bytes32, rate_bit_pow2 by (exact Hk || (unfold in_u32; split;
    [apply Z.pow_nonneg; lia | apply Z.pow_lt_mono_r; lia])).
  reflexivity.
Qed.

Lemma rtc_write_pow2_witness :
  rtc_write (bytes32 (2 ^ 4)) rtc_demo =
    (update_active (fun t => set_rtc_fields (rtc_interrupt_occurred t) 5 t) rtc_demo, 0) /\
  rtc_freq_bit (term_at (fst (rtc_write (bytes32 (2 ^ 4)) rtc_demo)) 0) = 5.
Proof.
  split; [apply (rtc_write_pow2 4 rtc_demo); lia|]. vm_compute. reflexivity.
Defined.

Lemma rtc_toggle_period_witness :
  rtc_bit_toggles 31 5 = true /\ rtc_bit_toggles 30 5 = false.
Proof.
  split.
  - apply (rtc_toggle_period 31 5); [concrete | lia | reflexivity].
  - destruct (rtc_bit_toggles 30 5) eqn:E; [|reflexivity].
    apply (rtc_toggle_period 30 5) in E; [discriminate E | concrete | lia].
Defined.

Lemma rtc_read_wakes_witness :
  snd (rtc_read rtc_demo) = WaitRtc /\
  rtc_interrupt_occurred (term_at (Nat.iter 2 RTC_Handler (fst (rtc_read rtc_demo))) 0) = 0 /\
  rtc_interrupt_occurred (term_at (Nat.iter 3 RTC_Handler (fst (rtc_read rtc_demo))) 0) = 1.
Proof.
  destruct (rtc_read_wakes rtc_demo ltac:(concrete) ltac:(concrete) ltac:(concrete)) as (Hw & j & Hj & Hf).
  split; [exact Hw|]. vm_compute. split; reflexivity.
Defined.

(** ** Termination of the divider loop

    [while (freq != 2) { freq >>= 1; freq_bit--; }] exits exactly when
    halving [freq] reaches 2, i.e. when its two leading bits are [10]. *)
Definition halves_to_2 (freq : Z) (k : nat) : Prop :=
  2 ^ Z.of_nat (S k) <= freq < 3 * 2 ^ Z.of_nat k.

Lemma halves_to_2_S freq k : halves_to_2 freq (S k) <-> freq <> 2 /\ halves_to_2 (freq >>> 1) k.
Proof.
  unfold halves_to_2; rewrite Z.shiftr_div_pow2, Z.pow_1_r by lia.
  rewrite !Nat2Z.inj_succ, !Z.pow_succ_r by lia.
  pose proof (Z.pow_pos_nonneg 2 (Z.of_nat k) ltac:(lia) ltac:(lia)).
  split; [intros; split|intros [_ ?]]; Z.div_mod_to_equations; nia.
Qed.

Lemma u32_pred_iter b k : in_u32 b -> u32 (u32 (b - 1) - Z.of_nat k) = u32 (b - Z.of_nat (S k)).
Proof. intros; unfold u32; rewrite Zminus_mod_idemp_l; f_equal; lia. Qed.

(** Enough fuel: the loop returns [freq_bit - k] after [k] halvings. *)
Lemma freq_loop_halves n freq b k :
  in_u32 b -> halves_to_2 freq k -> (k < n)%nat -> freq_loop n freq b = Some (u32 (b - Z.of_nat k)).
Proof.
  revert freq b k; induction n as [|n IH]; intros freq b k Hb Hk Hn; [lia|]; cbn [freq_loop].
  destruct k as [|k].
  - unfold halves_to_2 in Hk; cbn in Hk.
    rewrite decide_True by lia; rewrite Z.sub_0_r, u32_small by done; done.
  - apply halves_to_2_S in Hk as [Hne Hk]; rewrite decide_False by done.
    rewrite (IH _ _ k), u32_pred_iter by (auto using u32_range; lia); done.
Qed.

(** Any run that returns was a run of [k] halvings, and [k] is below the
    width of [freq]. *)
Lemma freq_loop_Some n freq b r : freq_loop n freq b = Some r -> exists k, halves_to_2 freq k.
Proof.
  revert freq b; induction n as [|n IH]; intros freq b H; [discriminate|]; cbn [freq_loop] in H.
  case_decide as Hf.
  - exists 0%nat; unfold halves_to_2; cbn; lia.
  - destruct (IH _ _ H) as [k Hk]; exists (S k); by apply halves_to_2_S.
Qed.

Lemma halves_to_2_bound freq k : in_u32 freq -> halves_to_2 freq k -> (k < 31)%nat.
Proof.
  unfold in_u32, halves_to_2; intros Hf Hk.
  destruct (Nat.lt_ge_cases k 31) as [|Hge]; [done|].
  assert (2 ^ 32 <= 2 ^ Z.of_nat (S k)) by (apply Z.pow_le_mono_r; lia). lia.
Qed.

(** C28. Termination of [rtc_write]'s divider loop on any [uint32_t]: the
    loop exits exactly on the frequencies whose two leading bits are [10]
    (for other values it shifts down to 0 and never exits); when it exits
    after [k] halvings it leaves [freq_bit - k]; and the bound
    [RTC_LOOP_FUEL] of 32 iterations is never what stops it: a run that
    returns with any bound returns within 32. *)
Theorem freq_loop_terminates freq b :
  in_u32 freq -> in_u32 b ->
  (is_Some (freq_loop RTC_LOOP_FUEL freq b) <-> exists k, halves_to_2 freq k) /\
  (forall k, halves_to_2 freq k -> freq_loop RTC_LOOP_FUEL freq b = Some (u32 (b - Z.of_nat k))) /\
  (forall n, is_Some (freq_loop n freq b) -> is_Some (freq_loop RTC_LOOP_FUEL freq b)).
Proof.
  intros Hf Hb.
  assert (Hall : forall k, halves_to_2 freq k -> freq_loop RTC_LOOP_FUEL freq b = Some (u32 (b - Z.of_nat k)))
    by (intros k Hk; apply freq_loop_halves; [done | done | pose proof (halves_to_2_bound _ _ Hf Hk);
        unfold RTC_LOOP_FUEL; lia]).
  split; [split|split; [exact Hall|]].
  - intros [r Hr]; eapply freq_loop_Some; eauto.
  - intros [k Hk]; rewrite (Hall k Hk); eauto.
  - intros n [r Hr]; destruct (freq_loop_Some _ _ _ _ Hr) as [k Hk]; rewrite (Hall k Hk); eauto.
Qed.

Lemma freq_loop_terminates_witness :
  in_u32 64 /\ in_u32 8 /\ freq_loop RTC_LOOP_FUEL 64 8 = Some 3 /\ freq_loop RTC_LOOP_FUEL 96 8 = None.
Proof.
  assert (H64 : in_u32 64) by (unfold in_u32; lia).
  assert (H8 : in_u32 8) by (unfold in_u32; lia).
  destruct (freq_loop_terminates 64 8 H64 H8) as (_ & Hk & _).
  split; [exact H64|]; split; [exact H8|]; split.
  - apply (Hk 5%nat); unfold halves_to_2; cbn; lia.
  - destruct (freq_loop_terminates 96 8 ltac:(unfold in_u32; lia) H8) as ([Hs _] & _).
    destruct (freq_loop RTC_LOOP_FUEL 96 8) eqn:E; [|reflexivity].
    destruct (Hs ltac:(eauto)) as [k Hk']; unfold halves_to_2 in Hk'.
    destruct (Nat.lt_ge_cases k 6) as [Hl|Hl].
    + do 6 (destruct k as [|k]; [cbn in Hk'; lia|]); lia.
    + assert (2 ^ 7 <= 2 ^ Z.of_nat (S k)) by (apply Z.pow_le_mono_r; lia). lia.
Defined.
