(* ===== verification/Lifecycle.v ===== *)
(** * Lifecycle: the process lifecycle controller (syscall.c [execute],
      [halt]; process.c [restore_parent])

    [execute] parses the command, checks the executable, takes the first
    free pid, maps its frame, loads the image through the user window,
    builds the PCB and publishes the new process in the globals and in the
    active terminal before the [iret].  [halt] closes the files, reloads the
    parent's kernel stack pointer, pid, PCB and window, frees the pid, and
    returns into the parent's [execute] frame; a base shell (pid below
    [MAX_TERMINALS]) is replaced by a fresh shell instead.  Both run in a
    Section over the disk image, which no operation writes. *)

From S2P Require Import Prelude Paging Fsys State.

(** ** Command parsing (the first part of [execute]) *)

(** [while (command[args_idx] != ' ' && command[args_idx] != '\0') args_idx++;] *)
Fixpoint arg_start (cmd : list Z) : nat :=
  match cmd with
  | [] => 0
  | c :: r => if decide (c = 32 \/ c = 0) then 0 else S (arg_start r)
  end.

(** The C string held by a buffer: the bytes before the first NUL. *)
Fixpoint cstr (l : list Z) : list Z :=
  match l with
  | [] => []
  | c :: r => if decide (c = 0) then [] else c :: cstr r
  end.

(** The executable name and the [cmd_args] string [execute] computes, or
    [None] where the C is undefined: [strncpy(args, ..., 128 - args_idx)]
    with [args_idx >= 128] (the unsigned size wraps or is zero and [args[0]]
    is never written), or an argument copy with no NUL in the [128 - args_idx]
    bytes written, which [strcpy] then reads past. *)
Definition parse_command (cmd : list Z) : option (list Z * list Z) :=
  let k := arg_start cmd in
  let exe := take (Nat.min k 32) cmd in
  if decide (128 <= k)%nat then None else
  let args := strncpy (drop k cmd) (128 - k) in
  if decide (0 ∉ args) then None
  else Some (exe, if decide (nth_byte args 0 = 0) then [] else cstr (drop 1 args)).

Definition elf_str : list Z := [69; 76; 70].        (** "ELF" *)
Definition shell_cmd : list Z := [115; 104; 101; 108; 108].   (** "shell" *)

(** A kernel-mode store of [bytes] at virtual address [va] through the
    current TLB, or [None] (a page fault) when the block is not mapped
    contiguously. *)
Definition store_virtual (va : Z) (bytes : list Z) (s : kstate) : option kstate :=
  let n := Z.of_nat (length bytes) in
  match translate (tlb (paging s)) false va, translate (tlb (paging s)) false (va + n - 1) with
  | Some pa, Some pb =>
      if decide (n = 0 \/ pb = pa + n - 1) then Some (set_user_mem s (<[pa := bytes]> (user_mem s)))
      else None
  | _, _ => None
  end.

Definition stdin_file_desc : file_desc_t := mk_fd (Some stdin_jmptable) 0 0 0.
Definition stdout_file_desc : file_desc_t := mk_fd (Some stdout_jmptable) 0 0 0.

(** The active terminal's copy of the process globals, written at the end
    of [execute] and [halt]. *)
Definition publish_terminal (s : kstate) : kstate :=
  let t := term_at s (TA_idx s) in
  set_term s (TA_idx s)
    (mk_terminal (saved_ebp t) (tss_esp0 s) (currentPID s) (current_PCB s)
       (cursor_x t) (cursor_y t) (keyboard_buffer t) (keyboard_idx t) (terminal_newline t)
       (rtc_interrupt_occurred t) (rtc_freq_bit t)).

(** The close functions of the jump tables: [None] for a NULL entry. *)
Definition fops_close (t : option fops_jumptable_t) : option Z :=
  match t with
  | Some rtc_jmptable | Some file_jmptable | Some directory_jmptable => Some 0
  | Some stdin_jmptable | Some stdout_jmptable | None => None
  end.

(** The loop of [restore_parent]: close the open descriptors [i..7]. *)
Fixpoint close_all (p : pcb_t) (i : nat) (n : nat) : option unit :=
  match n with
  | O => Some tt
  | S n' =>
      if CHECK_FLAG (open_files p) i then
        match fops_close (fops_table_ptr (fd_at p i)) with
        | Some _ => close_all p (S i) n'
        | None => None
        end
      else close_all p (S i) n'
  end.

Section Lifecycle.

Context (fs : fs_image).

(** [execute(command)]; [ebp] is the frame pointer of this activation of
    [execute], which the child's PCB records for [halt_asm]. *)
Definition execute (cmd : list Z) (ebp : Z) (s : kstate) : kstate * ctl :=
  let s0 := cli s in
  match parse_command cmd with
  | None => (s0, Fault)
  | Some (exe, args) =>
  match read_dentry_by_name fs exe with
  | None => (sti s0, Ret (-1))
  | Some d =>
  match read_data fs (inode_idx d) 1 3 with
  | None => (s0, Fault)
  | Some (r1, magic) =>
  if decide (r1 = -1) then (sti s0, Ret (-1)) else
  if decide (strncmp elf_str magic 3 <> 0) then (sti s0, Ret (-1)) else
  match scan_clear (activeProcesses s0) 0 MAX_PROCESSES with
  | None => (sti s0, Ret (-1))
  | Some pid =>
  let s1 := k_set_user_page pid s0 in
  let file_size := get_file_length fs (file_name d) in
  if decide (file_size = -1) then (sti (k_set_user_page (currentPID s1) s1), Ret (-1)) else
  match read_data fs (inode_idx d) 0 (u32 file_size) with
  | None => (s1, Fault)
  | Some (r2, image) =>
  if decide (r2 = -1) then (sti (k_set_user_page (currentPID s1) s1), Ret (-1)) else
  match store_virtual (VIRTUAL_USER_BASE_ADDR + PROGRAM_START) image s1 with
  | None => (s1, Fault)
  | Some s2 =>
  match read_data fs (inode_idx d) 24 4 with
  | None => (s2, Fault)
  | Some (r3, eip_bytes) =>
  if decide (r3 = -1) then (sti (k_set_user_page (currentPID s2) s2), Ret (-1)) else
  let old := pcb_at s2 pid in
  let p := mk_pcb pid (currentPID s2) (tss_esp0 s2) ebp 3 0 args
             (<[1%nat := stdout_file_desc]> (<[0%nat := stdin_file_desc]> (file_desc_arr old))) in
  let s3 := set_pcb s2 pid p in
  let s4 := set_proc s3 (set_flag (activeProcesses s3) pid) pid pid in
  let s5 := set_tss s4 KERNEL_DS (kernel_stack_top pid) in
  let s6 := publish_terminal s5 in
  (sti s6, Iret USER_DS (VIRTUAL_USER_BASE_ADDR + _4MB) 0x00000202 USER_CS (le32 eip_bytes))
  end end end end end end end.

(** [restore_parent()] *)
Definition restore_parent (s : kstate) : option kstate :=
  let p := cur_pcb s in
  match close_all p 2 6 with
  | None => None
  | Some _ =>
      let s1 := set_tss s (tss_ss0 s) (parent_esp0 p) in
      let s2 := set_proc s1 (clear_flag (activeProcesses s1) (id p)) (parent_pid p) (parent_pid p) in
      let s3 := k_set_user_page (currentPID s2) s2 in
      Some (k_set_video_mem_page (vidmap_inuse (cur_pcb s3)) s3)
  end.

(** [halt(status)]: [status] is the [uint8_t] argument; [exec_ebp] is the
    frame of the [execute] that re-launches a base shell. *)
Definition halt (status : Z) (exec_ebp : Z) (s : kstate) : kstate * ctl :=
  let s0 := cli s in
  let pebp := parent_ebp (cur_pcb s0) in
  let (s1, early) :=
    if decide (currentPID s0 < MAX_TERMINALS)%nat then
      let s' := set_proc s0 (clear_flag (activeProcesses s0) (currentPID s0))
                  (currentPID s0) (current_PCB s0) in
      match execute shell_cmd exec_ebp s' with
      | (s'', Ret _) => (s'', None)
      | (s'', c) => (s'', Some c)
      end
    else (s0, None) in
  match early with
  | Some c => (s1, c)
  | None =>
      match restore_parent s1 with
      | None => (s1, Fault)
      | Some s2 =>
          let s3 := publish_terminal s2 in
          if decide (exception_flag s3 <> 0)
          then (sti (set_exception_flag s3 0), HaltAsm pebp 256)
          else (sti s3, HaltAsm pebp (u8 status))
      end
  end.

(** What [execute]'s checks of the disk accept, read from the disk alone:
    the arguments, the image and the entry point of [cmd], or [None] when a
    check fails. *)
Definition exec_image (cmd : list Z) : option (list Z * list Z * Z) :=
  match parse_command cmd with
  | None => None
  | Some (exe, args) =>
  match read_dentry_by_name fs exe with
  | None => None
  | Some d =>
  match read_data fs (inode_idx d) 1 3 with
  | None => None
  | Some (r1, magic) =>
  if decide (r1 = -1 \/ strncmp elf_str magic 3 <> 0) then None else
  let size := get_file_length fs (file_name d) in
  if decide (size = -1) then None else
  match read_data fs (inode_idx d) 0 (u32 size), read_data fs (inode_idx d) 24 4 with
  | Some (r2, img), Some (r3, eip_bytes) =>
      if decide (r2 = -1 \/ r3 = -1) then None else Some (args, img, le32 eip_bytes)
  | _, _ => None
  end end end end.

End Lifecycle.

(** The state after a successful [execute] of [pid] from [s] in the frame
    [ebp], with arguments [args] and image [img]. *)
Definition launched (s s' : kstate) (pid : nat) (ebp : Z) (args img : list Z) : Prop :=
  activeProcesses s' = set_flag (activeProcesses s) pid /\
  currentPID s' = pid /\ current_PCB s' = pid /\
  tss_esp0 s' = kernel_stack_top pid /\
  paging s' = set_user_page (Z.of_nat pid) (paging s) /\
  pcb_at s' pid = mk_pcb pid (currentPID s) (tss_esp0 s) ebp 3 0 args
                    (<[1%nat := stdout_file_desc]> (<[0%nat := stdin_file_desc]>
                       (file_desc_arr (pcb_at s pid)))) /\
  (forall q, q <> pid -> pcb_at s' q = pcb_at s q) /\
  t_currentPID (term_at s' (TA_idx s)) = pid /\ t_currentPCB (term_at s' (TA_idx s)) = pid /\
  saved_esp0 (term_at s' (TA_idx s)) = kernel_stack_top pid /\
  (forall i, i <> TA_idx s -> term_at s' i = term_at s i) /\
  length (terminal_arr s') = length (terminal_arr s) /\
  TA_idx s' = TA_idx s /\ TS_idx s' = TS_idx s /\ exception_flag s' = exception_flag s /\
  pit_counter s' = pit_counter s /\
  user_mem s' = <[user_frame (Z.of_nat pid) + PROGRAM_START := img]> (user_mem s) /\
  intr_enabled s' = true.

(** ** A concrete configuration

    The three base shells (pids 0, 1, 2) exist, shell 0 runs on terminal 0,
    both windows are bound for it, and paging is as [init_Paging] left it.
    The image of "shell" in [sample_fs] is its first 40 bytes. *)
Definition demo_state : kstate :=
  k_set_video_mem_page 0 (k_set_user_page 0
    (mk_kstate 7 0 0 ∅ (kernel_stack_top 0) KERNEL_DS 0 0 0
       [zero_terminal; zero_terminal; zero_terminal] 3 0 (init_Paging boot_mmu)
       zero_console ∅ ∅ true [])).

Definition shell_image : list Z := take 40 shell_block.
Definition shell_entry : Z := 0x08048094.

(** ** Lemmas *)

Lemma store_virtual_Some va b s s' :
  store_virtual va b s = Some s' ->
  exists pa, translate (tlb (paging s)) false va = Some pa /\
             s' = set_user_mem s (<[pa := b]> (user_mem s)).
Proof. unfold store_virtual. intros H. repeat case_match; simplify_eq. eauto. Qed.

Lemma sti_cli s : sti (cli s) = sti s.
Proof. reflexivity. Qed.

(** The image fits in the window above [PROGRAM_START]: it is stored in
    the frame of the process the window is bound to. *)
Lemma store_virtual_window pid img s :
  (pid < MAX_PROCESSES)%nat -> Z.of_nat (length img) + PROGRAM_START <= _4MB ->
  store_virtual (VIRTUAL_USER_BASE_ADDR + PROGRAM_START) img (k_set_user_page pid s) =
  Some (set_user_mem (k_set_user_page pid s)
          (<[user_frame (Z.of_nat pid) + PROGRAM_START := img]> (user_mem s))).
Proof.
  intros Hp Hlen. unfold MAX_PROCESSES in Hp. unfold store_virtual.
  change (paging (k_set_user_page pid s)) with (set_user_page (Z.of_nat pid) (paging s)).
  rewrite (user_window_translates _ _ false PROGRAM_START) by (unfold PROGRAM_START, _4MB; lia).
  replace (VIRTUAL_USER_BASE_ADDR + PROGRAM_START + Z.of_nat (length img) - 1)
    with (VIRTUAL_USER_BASE_ADDR + (PROGRAM_START + Z.of_nat (length img) - 1)) by lia.
  rewrite (user_window_translates _ _ false) by (unfold PROGRAM_START, _4MB in *; lia).
  rewrite decide_True by (right; lia). reflexivity.
Qed.

(** A failed [execute] that has bound the window to a new pid undoes it. *)
Lemma execute_rollback s pid :
  window_bound s ->
  sti (k_set_user_page (currentPID (k_set_user_page pid (cli s))) (k_set_user_page pid (cli s))) = sti s.
Proof.
  intros Hb. simpl. rewrite k_set_user_page_twice.
  replace (currentPID s) with (currentPID (cli s)) by reflexivity.
  rewrite k_set_user_page_bound by exact Hb. reflexivity.
Qed.

(** C7. Every error return of [execute] returns -1 and leaves the state as
    it found it, interrupts enabled: the pid bitmap, the current process,
    the PCBs, the terminals and the window binding are unchanged.  The one
    trace an error can leave is the program image, when the entry point
    cannot be read after the image was loaded: it stays in the frame of the
    pid that was not taken, which no process owns. *)
Theorem execute_error_unchanged fs cmd ebp s s' v :
  window_bound s -> execute fs cmd ebp s = (s', Ret v) ->
  v = -1 /\
  (s' = sti s \/
   exists pid img, (pid < MAX_PROCESSES)%nat /\ CHECK_FLAG (activeProcesses s) pid = false /\
     s' = sti (set_user_mem s (<[user_frame (Z.of_nat pid) + PROGRAM_START := img]> (user_mem s)))).
Proof.
  intros Hb H. unfold execute in H. repeat case_match; simplify_eq.
  all: split; [reflexivity|].
  all: try (left; reflexivity).
  all: try (left; apply execute_rollback, Hb).
  right. destruct (store_virtual_Some _ _ _ _ H12) as (pa & Hpa & ->).
  destruct (scan_clear_Some _ _ _ _ H7) as (Hlt & Hclear & _).
  unfold MAX_PROCESSES in Hlt.
  pose proof (user_window_translates (paging (cli s)) (Z.of_nat n1) false PROGRAM_START
                ltac:(lia) ltac:(unfold PROGRAM_START, _4MB; lia)) as Ht.
  change (paging (k_set_user_page n1 (cli s))) with (set_user_page (Z.of_nat n1) (paging (cli s))) in Hpa.
  rewrite Ht in Hpa.
  injection Hpa as <-. exists n1, l2. split; [unfold MAX_PROCESSES; lia|]. split; [exact Hclear|].
  change (sti (set_user_mem (k_set_user_page (currentPID (k_set_user_page n1 (cli s)))
            (k_set_user_page n1 (cli s))) (<[user_frame (Z.of_nat n1) + PROGRAM_START:=l2]> (user_mem s)))
          = sti (set_user_mem s (<[user_frame (Z.of_nat n1) + PROGRAM_START:=l2]> (user_mem s)))).
  transitivity (set_user_mem (sti s) (<[user_frame (Z.of_nat n1) + PROGRAM_START:=l2]> (user_mem s)));
    [| reflexivity].
  rewrite <- (execute_rollback s n1 Hb). reflexivity.
Qed.

(** The successful path of [execute]. *)
Lemma execute_success fs cmd ebp s args img eip pid :
  exec_image fs cmd = Some (args, img, eip) ->
  scan_clear (activeProcesses s) 0 MAX_PROCESSES = Some pid ->
  Z.of_nat (length img) + PROGRAM_START <= _4MB ->
  (TA_idx s < length (terminal_arr s))%nat ->
  exists s', execute fs cmd ebp s =
               (s', Iret USER_DS (VIRTUAL_USER_BASE_ADDR + _4MB) 0x00000202 USER_CS eip) /\
             launched s s' pid ebp args img.
Proof.
  intros Himg Hpid Hlen Hta. unfold exec_image in Himg. unfold execute.
  destruct (scan_clear_Some _ _ _ _ Hpid) as (Hlt & _ & _).
  change (activeProcesses (cli s)) with (activeProcesses s). rewrite Hpid.
  assert (Hlt' : (pid < MAX_PROCESSES)%nat) by lia.
  repeat case_match; simplify_eq.
  all: try (exfalso; naive_solver).
  all: try (rewrite store_virtual_window in * by done; simplify_eq).
  eexists. split; [reflexivity|].
  unfold launched, publish_terminal, term_at, pcb_at. simpl.
  rewrite !nth_lookup, list_lookup_insert_eq by exact Hta. simpl.
  rewrite lookup_insert_eq. simpl.
  repeat split; try reflexivity.
  - intros q Hq. by rewrite lookup_insert_ne by congruence.
  - intros i Hi. rewrite !nth_lookup. by rewrite list_lookup_insert_ne by congruence.
  - apply length_insert.
Qed.

(** C2. Launch then immediate terminate is a round trip: when a process
    launches a program that gets a pid of its own (not a base-shell pid) and
    the program halts with [status], control returns to the caller's
    [execute] frame with [status], and the caller's pid, PCB pointer, PCB,
    kernel stack pointer, the pid bitmap, and both windows are back to their
    values before the launch; the active terminal records the caller again
    and interrupts are enabled. *)
Theorem execute_halt_roundtrip fs cmd ebp s args img eip pid status eebp :
  windows_bound s -> current_PCB s = currentPID s ->
  CHECK_FLAG (activeProcesses s) (currentPID s) = true -> exception_flag s = 0 ->
  (TA_idx s < length (terminal_arr s))%nat ->
  exec_image fs cmd = Some (args, img, eip) ->
  scan_clear (activeProcesses s) 0 MAX_PROCESSES = Some pid ->
  (MAX_TERMINALS <= pid)%nat ->
  Z.of_nat (length img) + PROGRAM_START <= _4MB ->
  exists s1 s2,
    execute fs cmd ebp s = (s1, Iret USER_DS (VIRTUAL_USER_BASE_ADDR + _4MB) 0x00000202 USER_CS eip) /\
    halt fs status eebp s1 = (s2, HaltAsm ebp (u8 status)) /\
    currentPID s2 = currentPID s /\ current_PCB s2 = current_PCB s /\
    activeProcesses s2 = activeProcesses s /\ tss_esp0 s2 = tss_esp0 s /\
    paging s2 = paging s /\ pcb_at s2 (currentPID s) = pcb_at s (currentPID s) /\
    t_currentPID (term_at s2 (TA_idx s)) = currentPID s /\
    saved_esp0 (term_at s2 (TA_idx s)) = tss_esp0 s /\
    intr_enabled s2 = true.
Proof.
  intros [m0 Hwb] Hpcb Hact Hexc Hta Himg Hpid Hbase Hlen.
  destruct (execute_success fs cmd ebp s args img eip pid Himg Hpid Hlen Hta)
    as (s1 & Hex & Hact1 & Hcur1 & Hpcb1 & Hesp1 & Hpg1 & Hp1 & Hother1 & _ & _ & _ & _
            & Hlen1 & Hta1 & Hts1 & Hexc1 & _ & _ & _).
  destruct (scan_clear_Some _ _ _ _ Hpid) as (_ & Hfree & _).
  assert (Hne : currentPID s <> pid) by (intros Heq; rewrite Heq in Hact; congruence).
  exists s1. eexists. split; [exact Hex|].
  unfold halt. change (currentPID (cli s1)) with (currentPID s1). rewrite Hcur1.
  rewrite decide_False by (unfold MAX_TERMINALS in *; lia).
  unfold cur_pcb. change (current_PCB (cli s1)) with (current_PCB s1).
  unfold restore_parent, cur_pcb. cbn [current_PCB cli set_if].
  change (pcb_at (cli s1)) with (pcb_at s1). rewrite Hpcb1, Hp1. simpl.
  rewrite decide_False by (unfold publish_terminal, set_term, set_exception_flag; simpl; congruence).
  split; [reflexivity|].
  unfold publish_terminal, term_at, pcb_at. simpl. rewrite Hta1.
  rewrite !nth_lookup, list_lookup_insert_eq by (rewrite Hlen1; exact Hta). simpl.
  fold (pcb_at s1 (currentPID s)). rewrite Hother1 by exact Hne. fold (pcb_at s (currentPID s)).
  repeat split; try reflexivity.
  - symmetry. exact Hpcb.
  - rewrite Hact1. apply clear_flag_set_flag, Hfree.
  - rewrite Hpg1, Hwb, !set_user_page_video_comm, !set_user_page_twice, !set_video_mem_page_twice.
    unfold cur_pcb. rewrite Hpcb, Hts1. reflexivity.
Qed.

(** C1. [execute] of a command whose executable passes the checks, with a
    free pid and an image that fits the window, launches it: the lowest
    free pid is marked in use and becomes the current process, its PCB
    records the caller as parent (pid, kernel stack, [execute] frame) with
    stdin and stdout open and the arguments copied, the active terminal
    records it, the window is bound to its frame and holds the image, no
    other PCB or terminal changes, and control goes to the entry point in
    user mode with interrupts enabled. *)
Theorem execute_launches fs cmd ebp s args img eip pid :
  exec_image fs cmd = Some (args, img, eip) ->
  scan_clear (activeProcesses s) 0 MAX_PROCESSES = Some pid ->
  Z.of_nat (length img) + PROGRAM_START <= _4MB ->
  (TA_idx s < length (terminal_arr s))%nat ->
  exists s', execute fs cmd ebp s =
               (s', Iret USER_DS (VIRTUAL_USER_BASE_ADDR + _4MB) 0x00000202 USER_CS eip) /\
             launched s s' pid ebp args img.
Proof. apply execute_success. Qed.

Lemma execute_launches_witness :
  exec_image sample_fs shell_cmd = Some ([], shell_image, shell_entry) /\
  exists s', execute sample_fs shell_cmd 0 demo_state =
               (s', Iret USER_DS (VIRTUAL_USER_BASE_ADDR + _4MB) 0x00000202 USER_CS shell_entry) /\
             launched demo_state s' 3 0 [] shell_image.
Proof.
  assert (Himg : exec_image sample_fs shell_cmd = Some ([], shell_image, shell_entry)) by (vm_compute; reflexivity).
  split; [exact Himg|].
  apply (execute_launches sample_fs shell_cmd 0 demo_state [] shell_image shell_entry 3 Himg);
    [vm_compute; reflexivity | vm_compute; discriminate | vm_compute; lia].
Defined.

Lemma demo_windows_bound : windows_bound demo_state.
Proof. exists (init_Paging boot_mmu). reflexivity. Qed.

Lemma execute_halt_roundtrip_witness :
  exists s1 s2,
    execute sample_fs shell_cmd 0x7000 demo_state =
      (s1, Iret USER_DS (VIRTUAL_USER_BASE_ADDR + _4MB) 0x00000202 USER_CS shell_entry) /\
    halt sample_fs 300 0x6000 s1 = (s2, HaltAsm 0x7000 44) /\
    currentPID s2 = 0%nat /\ current_PCB s2 = 0%nat /\
    activeProcesses s2 = 7 /\ tss_esp0 s2 = tss_esp0 demo_state /\
    paging s2 = paging demo_state /\ pcb_at s2 0 = pcb_at demo_state 0 /\
    t_currentPID (term_at s2 0) = 0%nat /\
    saved_esp0 (term_at s2 0) = tss_esp0 demo_state /\
    intr_enabled s2 = true.
Proof.
  assert (Himg : exec_image sample_fs shell_cmd = Some ([], shell_image, shell_entry))
    by (vm_compute; reflexivity).
  apply (execute_halt_roundtrip sample_fs shell_cmd 0x7000 demo_state [] shell_image shell_entry
           3 300 0x6000 demo_windows_bound);
    [vm_compute; reflexivity | vm_compute; reflexivity | vm_compute; reflexivity
    | vm_compute; lia | exact Himg | vm_compute; reflexivity | vm_compute; lia
    | vm_compute; discriminate].
Defined.

(** "no" is not a file of [sample_fs]. *)
Lemma execute_error_unchanged_witness :
  execute sample_fs [110; 111] 0 demo_state = (sti demo_state, Ret (-1)) /\
  (-1 = -1 /\
   (sti demo_state = sti demo_state \/
    exists pid img, (pid < MAX_PROCESSES)%nat /\ CHECK_FLAG (activeProcesses demo_state) pid = false /\
      sti demo_state = sti (set_user_mem demo_state
                              (<[user_frame (Z.of_nat pid) + PROGRAM_START := img]> (user_mem demo_state))))).
Proof.
  assert (Hex : execute sample_fs [110; 111] 0 demo_state = (sti demo_state, Ret (-1)))
    by (vm_compute; reflexivity).
  split; [exact Hex|].
  apply (execute_error_unchanged sample_fs [110; 111] 0 demo_state (sti demo_state) (-1));
    [apply windows_bound_window_bound, demo_windows_bound | exact Hex].
Defined.
