(* ===== verification/Exceptions.v ===== *)
(** * Exceptions: the interrupt descriptor table and the exception
      handlers (intr.c, the IDT entries of x86_desc.h)

    [populate_IDT] fills the 256 gates: every vector first becomes an
    absent gate with a NULL handler, then the twenty exception vectors, the
    three PIC vectors and the system-call vector get their wrapper.  A gate
    is the packed [idt_desc_t] of x86_desc.h, its fields truncated to their
    widths on assignment; [idt_words] lays the fields out in the two 32-bit
    words [val[0]] and [val[1]] the processor reads.  The link-time
    addresses of the assembly wrappers are not in the C code and enter as a
    parameter [wrap_addr].

    Each exception handler either halts the faulting program (it sets
    [exception_flag] and calls [halt(NULL)]) or prints and spins forever
    ([Spin]); which one is fixed per vector by the code.  The printed text
    is not modelled. *)

From S2P Require Import Prelude Paging Fsys State Terminal Lifecycle.

(** The twenty exception vectors 0x00-0x13, in order. *)
Inductive exn :=
| Divide_Error | Debug_Expection | NMI_Interrupt | Breakpoint | Overflow
| Bound_Range_Exceeded | Invalid_Opcode | Device_Not_Available | Double_Fault
| Coprocessor_Segment_Overrun | Invalid_TSS | Segment_Not_Present
| Stack_Segment_Fault | General_Protection | Page_Fault | Assertion_Fail
| FPU_Floating_Point_Error | Alignment_Check | Machine_Check
| SIMD_Floating_Point_Exception.

#[export] Instance exn_eq_dec : EqDecision exn.
Proof. solve_decision. Defined.

Definition all_exns : list exn :=
  [Divide_Error; Debug_Expection; NMI_Interrupt; Breakpoint; Overflow;
   Bound_Range_Exceeded; Invalid_Opcode; Device_Not_Available; Double_Fault;
   Coprocessor_Segment_Overrun; Invalid_TSS; Segment_Not_Present;
   Stack_Segment_Fault; General_Protection; Page_Fault; Assertion_Fail;
   FPU_Floating_Point_Error; Alignment_Check; Machine_Check;
   SIMD_Floating_Point_Exception].

(** The handlers whose body is [exception_flag = 1; sti(); halt(NULL);];
    the others end in [while (1)]. *)
Definition halts_program (e : exn) : bool :=
  match e with
  | Divide_Error | Debug_Expection | Breakpoint | Overflow | Bound_Range_Exceeded
  | Invalid_Opcode | Device_Not_Available | Page_Fault | Assertion_Fail => true
  | _ => false
  end.

(** The targets of the IDT: a NULL handler or an assembly wrapper. *)
Inductive idt_target :=
| NoHandler
| ExnWrap (e : exn)
| PIT_Wrap | Keyboard_Wrap | RTC_Wrap | System_Call_Wrap.

Inductive gate := TrapGate | IntGate.

Definition KERNEL_CS : Z := 0x0010.
Definition DPL_PRIVILEGED : Z := 0x0.
Definition DPL_UNPRIVILEGED : Z := 0x3.
Definition NUM_VEC : nat := 256.

(** [idt_desc_t]: the fields of the packed struct. *)
Record idt_desc_t := mk_idt {
  offset_15_00 : Z; seg_selector : Z; reserved4 : Z;
  reserved3 : Z; reserved2 : Z; reserved1 : Z; size : Z; reserved0 : Z;
  dpl : Z; present : Z; offset_31_16 : Z }.

(** [SET_IDT_ENTRY_INT_GATE] and [SET_IDT_ENTRY_TRAP_GATE]: they differ in
    [reserved3] only (the X bit of the gate type). *)
Definition set_idt_entry (x : Z) (handler segment priv pres : Z) : idt_desc_t :=
  mk_idt (u16 (u32 handler .& 0xFFFF)) (u16 segment) 0 x 1 1 1 0
    (priv mod 2 ^ 2) (pres mod 2) (u16 ((u32 handler .& 0xFFFF0000) >>> 16)).

Definition SET_IDT_ENTRY_INT_GATE := set_idt_entry 0.
Definition SET_IDT_ENTRY_TRAP_GATE := set_idt_entry 1.

Definition set_gate (g : gate) : Z -> Z -> Z -> Z -> idt_desc_t :=
  match g with TrapGate => SET_IDT_ENTRY_TRAP_GATE | IntGate => SET_IDT_ENTRY_INT_GATE end.

(** [val[0]] and [val[1]] of the union: the bit fields allocated from the
    least significant bit, as GCC lays out a packed struct on x86. *)
Definition idt_words (d : idt_desc_t) : Z * Z :=
  (offset_15_00 d .| (seg_selector d <<< 16),
   reserved4 d .| (reserved3 d <<< 8) .| (reserved2 d <<< 9) .| (reserved1 d <<< 10)
   .| (size d <<< 11) .| (reserved0 d <<< 12) .| (dpl d <<< 13) .| (present d <<< 15)
   .| (offset_31_16 d <<< 16)).

(** What the processor reads from the two words (the layout quoted in
    x86_desc.h): the handler offset, the segment selector, the five type
    bits, the DPL and the present bit. *)
Definition idt_decode (w : Z * Z) : Z * Z * Z * Z * Z :=
  let (w0, w1) := w in
  ((w1 .& 0xFFFF0000) .| (w0 .& 0xFFFF), w0 >>> 16, (w1 >>> 8) .& 0x1F,
   (w1 >>> 13) .& 3, (w1 >>> 15) .& 1).

(** The gates [populate_IDT] sets after clearing the table, in order. *)
Definition idt_setup : list (nat * gate * idt_target * Z) :=
  (map (fun i => (i, if decide (i = 2%nat) then IntGate else TrapGate,
                  ExnWrap (nth i all_exns Divide_Error),
                  if decide (i = 0x0F%nat) then DPL_UNPRIVILEGED else DPL_PRIVILEGED))
       (seq 0 20)) ++
  [(0x20%nat, IntGate, PIT_Wrap, DPL_PRIVILEGED);
   (0x21%nat, IntGate, Keyboard_Wrap, DPL_PRIVILEGED);
   (0x28%nat, IntGate, RTC_Wrap, DPL_PRIVILEGED);
   (0x80%nat, TrapGate, System_Call_Wrap, DPL_UNPRIVILEGED)].

Section Idt.

Context (wrap_addr : idt_target -> Z).

(** [populate_IDT()]: the table and the state ([exception_flag = 0]). *)
Definition populate_IDT (s : kstate) : list idt_desc_t * kstate :=
  let cleared := replicate NUM_VEC (SET_IDT_ENTRY_TRAP_GATE 0 0 DPL_UNPRIVILEGED 0) in
  (fold_left (fun idt '(v, g, tgt, priv) => <[v := set_gate g (wrap_addr tgt) KERNEL_CS priv 1]> idt)
     idt_setup cleared,
   set_exception_flag s 0).

End Idt.

Section Handlers.

Context (fs : fs_image) (exec_ebp : Z).

(** The handlers that end the program: [cli(); printf(...);
    exception_flag = 1; sti(); halt(NULL);] ([NULL] is status 0). *)
Definition halting_handler (s : kstate) : kstate * ctl :=
  halt fs 0 exec_ebp (sti (set_exception_flag (cli s) 1)).

(** The handlers that stop the machine: [cli(); printf(...); while (1);]. *)
Definition blue_screen (s : kstate) : kstate * ctl := (cli s, Spin).

(** The twenty handlers of intr.c, each with the body it has there. *)
Definition Divide_Error_Handler : kstate -> kstate * ctl := halting_handler.
Definition Debug_Expection_Handler : kstate -> kstate * ctl := halting_handler.
Definition NMI_Interrupt_Handler : kstate -> kstate * ctl := blue_screen.
Definition Breakpoint_Handler : kstate -> kstate * ctl := halting_handler.
Definition Overflow_Handler : kstate -> kstate * ctl := halting_handler.
Definition Bound_Range_Exceeded_Handler : kstate -> kstate * ctl := halting_handler.
Definition Invalid_Opcode_Handler : kstate -> kstate * ctl := halting_handler.
Definition Device_Not_Available_Handler : kstate -> kstate * ctl := halting_handler.
Definition Double_Fault_Handler : kstate -> kstate * ctl := blue_screen.
Definition Coprocessor_Segment_Overrun_Handler : kstate -> kstate * ctl := blue_screen.
Definition Invalid_TSS_Handler : kstate -> kstate * ctl := blue_screen.
Definition Segment_Not_Present_Handler : kstate -> kstate * ctl := blue_screen.
Definition Stack_Segment_Fault_Handler : kstate -> kstate * ctl := blue_screen.
Definition General_Protection_Handler : kstate -> kstate * ctl := blue_screen.
Definition Page_Fault_Handler : kstate -> kstate * ctl := halting_handler.
Definition Assertion_Fail_Handler : kstate -> kstate * ctl := halting_handler.
Definition FPU_Floating_Point_Error_Handler : kstate -> kstate * ctl := blue_screen.
Definition Alignment_Check_Handler : kstate -> kstate * ctl := blue_screen.
Definition Machine_Check_Handler : kstate -> kstate * ctl := blue_screen.
Definition SIMD_Floating_Point_Exception_Handler : kstate -> kstate * ctl := blue_screen.

(** The C handler of each exception vector (the IDT's wrapper calls it). *)
Definition exception_handler (e : exn) : kstate -> kstate * ctl :=
  match e with
  | Divide_Error => Divide_Error_Handler
  | Debug_Expection => Debug_Expection_Handler
  | NMI_Interrupt => NMI_Interrupt_Handler
  | Breakpoint => Breakpoint_Handler
  | Overflow => Overflow_Handler
  | Bound_Range_Exceeded => Bound_Range_Exceeded_Handler
  | Invalid_Opcode => Invalid_Opcode_Handler
  | Device_Not_Available => Device_Not_Available_Handler
  | Double_Fault => Double_Fault_Handler
  | Coprocessor_Segment_Overrun => Coprocessor_Segment_Overrun_Handler
  | Invalid_TSS => Invalid_TSS_Handler
  | Segment_Not_Present => Segment_Not_Present_Handler
  | Stack_Segment_Fault => Stack_Segment_Fault_Handler
  | General_Protection => General_Protection_Handler
  | Page_Fault => Page_Fault_Handler
  | Assertion_Fail => Assertion_Fail_Handler
  | FPU_Floating_Point_Error => FPU_Floating_Point_Error_Handler
  | Alignment_Check => Alignment_Check_Handler
  | Machine_Check => Machine_Check_Handler
  | SIMD_Floating_Point_Exception => SIMD_Floating_Point_Exception_Handler
  end.

End Handlers.

(** What a gate of the table must be, by vector: present exactly for the
    vectors the code sets, callable from user mode (DPL 3) exactly for the
    assertion and system-call vectors, an interrupt gate (X bit clear)
    exactly for NMI and the PIC vectors. *)
Definition gate_spec (v : nat) (d : idt_desc_t) : Prop :=
  (present d = 1 <-> (v < 20 \/ v = 0x20 \/ v = 0x21 \/ v = 0x28 \/ v = 0x80)%nat) /\
  (present d = 1 /\ dpl d = DPL_UNPRIVILEGED <-> (v = 0x0F \/ v = 0x80)%nat) /\
  (present d = 1 /\ reserved3 d = 0 <-> (v = 2 \/ v = 0x20 \/ v = 0x21 \/ v = 0x28)%nat).

#[export] Instance gate_spec_dec v d : Decision (gate_spec v d).
Proof. unfold gate_spec. apply _. Defined.

(** ** Lemmas *)

(** The handlers split by their bodies: [halts_program] names the
    vectors whose handler ends the program. *)
Lemma exception_handler_halts fs ebp e s :
  exception_handler fs ebp e s = if halts_program e then halting_handler fs ebp s else blue_screen s.
Proof. by destruct e. Qed.

Lemma land_high16 x : 0 <= x < 2 ^ 32 -> x .& 0xFFFF0000 = x / 2 ^ 16 * 2 ^ 16.
Proof.
  intros Hx. apply Z.bits_inj'. intros n Hn. rewrite Z.land_spec.
  change 0xFFFF0000 with (Z.ones 16 * 2 ^ 16).
  destruct (Z.lt_ge_cases n 16).
  - rewrite !Z.mul_pow2_bits_low by lia. apply andb_false_r.
  - rewrite !Z.mul_pow2_bits, Z.div_pow2_bits, Z.sub_add, Z.testbit_ones_nonneg by lia.
    destruct (Z.lt_ge_cases n 32).
    + rewrite (proj2 (Z.ltb_lt _ _)) by lia. apply andb_true_r.
    + rewrite (proj2 (Z.ltb_ge _ _)) by lia. rewrite andb_false_r.
      rewrite <- (Z.mod_small x (2 ^ 32)) by lia. symmetry. apply Z.mod_pow2_bits_high. lia.
Qed.

(** The two words of a gate, as sums of their fields. *)
Lemma set_idt_entry_words x h seg priv pres :
  (x = 0 \/ x = 1) -> in_u32 h ->
  idt_words (set_idt_entry x h seg priv pres) =
    (h mod 2 ^ 16 + u16 seg * 2 ^ 16,
     x * 2 ^ 8 + 2 ^ 9 + 2 ^ 10 + 2 ^ 11 + priv mod 4 * 2 ^ 13 + pres mod 2 * 2 ^ 15
       + h / 2 ^ 16 * 2 ^ 16).
Proof.
  intros Hx Hh. unfold set_idt_entry, idt_words, u16.
  cbn [offset_15_00 seg_selector reserved4 reserved3 reserved2 reserved1 size reserved0 dpl present offset_31_16].
  rewrite u32_small by exact Hh. unfold in_u32 in Hh.
  rewrite (land_ones_const h 0xFFFF 16), Z.mod_mod, land_high16, Z.shiftr_div_pow2, Z.div_mul
    by first [reflexivity | lia].
  rewrite (Z.mod_small (h / 2 ^ 16)) by (split; [apply Z.div_pos | apply Z.div_lt_upper_bound]; lia).
  assert (0 <= h mod 2 ^ 16 < 2 ^ 16) by (apply Z.mod_pos_bound; lia).
  assert (0 <= seg mod 2 ^ 16 < 2 ^ 16) by (apply Z.mod_pos_bound; lia).
  assert (0 <= priv mod 2 ^ 2 < 2 ^ 2) by (apply Z.mod_pos_bound; lia).
  assert (0 <= pres mod 2 < 2) by (apply Z.mod_pos_bound; lia).
  assert (0 <= h / 2 ^ 16) by (apply Z.div_pos; lia).
  repeat match goal with |- context [?a .| (?b <<< ?k)] => rewrite (lor_shiftl_add a b k) by lia end.
  f_equal. change (2 ^ 2) with 4. lia.
Qed.

Lemma set_idt_entry_decode x h seg priv pres :
  (x = 0 \/ x = 1) -> in_u32 h ->
  idt_decode (idt_words (set_idt_entry x h seg priv pres)) = (h, u16 seg, 14 + x, priv mod 4, pres mod 2).
Proof.
  intros Hx Hh. rewrite set_idt_entry_words by assumption. unfold idt_decode, u16. unfold in_u32 in Hh.
  assert (0 <= seg mod 2 ^ 16 < 2 ^ 16) by (apply Z.mod_pos_bound; lia).
  assert (0 <= priv mod 4 < 4) by (apply Z.mod_pos_bound; lia).
  assert (0 <= pres mod 2 < 2) by (apply Z.mod_pos_bound; lia).
  assert (0 <= h / 2 ^ 16 < 2 ^ 16) by (split; [apply Z.div_pos | apply Z.div_lt_upper_bound]; lia).
  rewrite land_high16 by lia.
  rewrite (land_ones_const _ 0xFFFF 16), (land_ones_const _ 0x1F 5), (land_ones_const _ 3 2),
    (land_ones_const _ 1 1), !Z.shiftr_div_pow2 by first [reflexivity | lia].
  rewrite lor_mul_add by (try apply Z.mod_pos_bound; try apply Z.div_pos; lia).
  change (2 ^ 2) with 4 in *. change (2 ^ 1) with 2 in *. change (2 ^ 5) with 32 in *.
  change (2 ^ 8) with 256 in *. change (2 ^ 9) with 512 in *. change (2 ^ 10) with 1024 in *.
  change (2 ^ 11) with 2048 in *. change (2 ^ 13) with 8192 in *. change (2 ^ 15) with 32768 in *.
  change (2 ^ 16) with 65536 in *. change (2 ^ 32) with 4294967296 in *.
  f_equal; [f_equal; [f_equal; [f_equal|]|]|]; Z.div_mod_to_equations; lia.
Qed.

(** [halt] of a program that is not a base shell, with the exception flag
    raised: the parent's [execute] returns 256 and the flag is consumed. *)
Lemma halt_after_exception fs status ebp s :
  exception_flag s <> 0 -> (MAX_TERMINALS <= currentPID s)%nat -> close_all (cur_pcb s) 2 6 = Some tt ->
  exists s', halt fs status ebp s = (s', HaltAsm (parent_ebp (cur_pcb s)) 256) /\
    exception_flag s' = 0 /\ intr_enabled s' = true /\
    currentPID s' = parent_pid (cur_pcb s) /\
    activeProcesses s' = clear_flag (activeProcesses s) (id (cur_pcb s)).
Proof.
  intros Hf Hpid Hc. unfold halt.
  change (currentPID (cli s)) with (currentPID s). rewrite decide_False by lia.
  unfold restore_parent. change (cur_pcb (cli s)) with (cur_pcb s). rewrite Hc.
  rewrite decide_True by exact Hf. eexists. repeat split.
Qed.

(** [execute] hands over to a program only with the exception flag as it
    found it. *)
Lemma execute_Iret_flag fs cmd ebp s s' ss esp fl cs eip :
  execute fs cmd ebp s = (s', Iret ss esp fl cs eip) -> exception_flag s' = exception_flag s.
Proof.
  unfold execute. intros H. repeat case_match; simplify_eq.
  match goal with E : store_virtual _ _ _ = Some _ |- _ => apply store_virtual_Some in E as (pa & _ & ->) end.
  reflexivity.
Qed.

(** The process [execute] hands over to: its PCB records the caller's
    frame, only descriptors 0 and 1 are open, and the exception flag is as
    [execute] found it. *)
Lemma execute_Iret_child fs cmd ebp s s' ss esp fl cs eip :
  execute fs cmd ebp s = (s', Iret ss esp fl cs eip) ->
  parent_ebp (cur_pcb s') = ebp /\ open_files (cur_pcb s') = 3 /\ exception_flag s' = exception_flag s.
Proof.
  unfold execute. intros H. repeat case_match; simplify_eq.
  match goal with E : store_virtual _ _ _ = Some _ |- _ => apply store_virtual_Some in E as (pa & _ & ->) end.
  unfold cur_pcb, pcb_at; cbn. rewrite lookup_insert_eq. repeat split.
Qed.

(** With only descriptors 0 and 1 open, [restore_parent] closes nothing. *)
Lemma close_all_stdio p : open_files p = 3 -> close_all p 2 6 = Some tt.
Proof. intros H. unfold close_all. rewrite H. reflexivity. Qed.

(** A halting exception in a base shell that re-launches the shell hands
    over with [exception_flag] still 1. *)
Lemma base_shell_relaunch_flag fs ebp e s s' ss esp fl cs eip :
  halts_program e = true -> (currentPID s < MAX_TERMINALS)%nat ->
  exception_handler fs ebp e s = (s', Iret ss esp fl cs eip) -> exception_flag s' = 1.
Proof.
  intros He Hpid. rewrite exception_handler_halts, He. unfold halting_handler. unfold halt.
  change (currentPID (cli (sti (set_exception_flag (cli s) 1)))) with (currentPID s).
  rewrite decide_True by exact Hpid.
  destruct (execute fs shell_cmd ebp _) as [s2 c] eqn:E.
  destruct c; intros H; try discriminate;
    [destruct (restore_parent s2); [case_decide|]; discriminate|].
  injection H as <-. apply execute_Iret_flag in E. exact E.
Qed.

(** ** Properties *)

(** C17. Every gate the IDT macros build decodes, in the layout the
    processor reads, to the handler address it was given, the 16-bit
    segment selector, gate type 0xF for a trap gate and 0xE for an
    interrupt gate, the 2-bit DPL and the present bit. *)
Theorem idt_gate_roundtrip g h seg priv pres :
  in_u32 h ->
  idt_decode (idt_words (set_gate g h seg priv pres)) =
    (h, u16 seg, match g with TrapGate => 0x0F | IntGate => 0x0E end, priv mod 4, pres mod 2).
Proof. intros Hh. destruct g; [apply (set_idt_entry_decode 1) | apply (set_idt_entry_decode 0)]; auto. Qed.

(** C16. After [populate_IDT], whatever the wrappers' addresses: the table
    has 256 gates; exactly the exception vectors 0x00-0x13, the PIC vectors
    0x20, 0x21, 0x28 and the system-call vector 0x80 are present; only 0x0F
    and 0x80 can be raised from user mode (DPL 3); and the present gates
    that clear the interrupt flag on entry are exactly NMI and the three
    PIC vectors. *)
Theorem populate_IDT_gates wrap_addr s :
  let idt := fst (populate_IDT wrap_addr s) in
  length idt = NUM_VEC /\
  forall v, (v < NUM_VEC)%nat -> gate_spec v (nth v idt (SET_IDT_ENTRY_TRAP_GATE 0 0 0 0)).
Proof.
  cbv zeta. split; [vm_compute; reflexivity|].
  assert (H : forallb (fun v => bool_decide (gate_spec v
      (nth v (fst (populate_IDT wrap_addr s)) (SET_IDT_ENTRY_TRAP_GATE 0 0 0 0)))) (seq 0 NUM_VEC) = true)
    by (vm_compute; reflexivity).
  intros v Hv. rewrite forallb_forall in H. apply (bool_decide_eq_true_1 _), H, in_seq. lia.
Qed.

(** C13. An exception either ends the faulting program or stops the
    machine: a halting exception in a program that is not a base shell
    returns 256 to the parent's [execute], frees the program's pid, makes
    the parent current and consumes the exception flag, with interrupts
    enabled; any other exception spins with interrupts disabled. *)
Theorem exception_outcome fs ebp e s :
  (MAX_TERMINALS <= currentPID s)%nat -> close_all (cur_pcb s) 2 6 = Some tt ->
  if halts_program e then
    exists s', exception_handler fs ebp e s = (s', HaltAsm (parent_ebp (cur_pcb s)) 256) /\
      exception_flag s' = 0 /\ intr_enabled s' = true /\
      currentPID s' = parent_pid (cur_pcb s) /\
      activeProcesses s' = clear_flag (activeProcesses s) (id (cur_pcb s))
  else exception_handler fs ebp e s = (cli s, Spin) /\ intr_enabled (cli s) = false.
Proof.
  intros Hpid Hc. rewrite exception_handler_halts. destruct (halts_program e); [|split; reflexivity].
  exact (halt_after_exception fs 0 ebp (sti (set_exception_flag (cli s) 1)) ltac:(discriminate) Hpid Hc).
Qed.

(** C36. A halting exception in a base shell re-launches the shell without
    clearing [exception_flag]: when the re-launch reaches user mode, the
    flag is still 1, so the next program to halt normally reports 256. *)
Theorem base_shell_exception_leaks_flag fs ebp e s s' ss esp fl cs eip :
  halts_program e = true -> (currentPID s < MAX_TERMINALS)%nat ->
  exception_handler fs ebp e s = (s', Iret ss esp fl cs eip) -> exception_flag s' = 1.
Proof. apply base_shell_relaunch_flag. Qed.

(** C37. The leak end to end, in every state: a halting exception in a
    base shell re-launches it; when the shell then launches a program
    that gets a pid of its own, and that program halts, its parent's
    [execute] receives 256, whatever status the program passed to
    [halt], as if the program had faulted. *)
Theorem shell_fault_poisons_next_halt fs ebp e s s1 ss esp fl cs eip cmd ebp2 s2 ss' esp' fl' cs' eip'
    status eebp :
  halts_program e = true -> (currentPID s < MAX_TERMINALS)%nat ->
  exception_handler fs ebp e s = (s1, Iret ss esp fl cs eip) ->
  execute fs cmd ebp2 s1 = (s2, Iret ss' esp' fl' cs' eip') ->
  (MAX_TERMINALS <= currentPID s2)%nat ->
  snd (halt fs status eebp s2) = HaltAsm ebp2 256.
Proof.
  intros He Hpid Hx Hexe H3.
  pose proof (base_shell_relaunch_flag fs ebp e s s1 ss esp fl cs eip He Hpid Hx) as Hf1.
  destruct (execute_Iret_child fs cmd ebp2 s1 s2 ss' esp' fl' cs' eip' Hexe) as (Hpe & Ho & Hf).
  destruct (halt_after_exception fs status eebp s2 ltac:(lia) H3 (close_all_stdio _ Ho)) as (s' & Hh & _).
  by rewrite Hh, Hpe.
Qed.

Lemma idt_gate_roundtrip_witness :
  in_u32 0x00401234 /\
  idt_decode (idt_words (set_gate IntGate 0x00401234 KERNEL_CS DPL_PRIVILEGED 1)) =
    (0x00401234, u16 KERNEL_CS, 0x0E, DPL_PRIVILEGED mod 4, 1 mod 2).
Proof.
  split; [unfold in_u32; lia|].
  apply (idt_gate_roundtrip IntGate 0x00401234 KERNEL_CS DPL_PRIVILEGED 1). unfold in_u32; lia.
Defined.

Lemma exception_outcome_witness :
  let s := fst (execute sample_fs shell_cmd 0x7000 demo_state) in
  (MAX_TERMINALS <= currentPID s)%nat /\ close_all (cur_pcb s) 2 6 = Some tt /\
  exists s', exception_handler sample_fs 0x6000 Page_Fault s = (s', HaltAsm (parent_ebp (cur_pcb s)) 256) /\
    exception_flag s' = 0 /\ intr_enabled s' = true /\
    currentPID s' = parent_pid (cur_pcb s) /\
    activeProcesses s' = clear_flag (activeProcesses s) (id (cur_pcb s)).
Proof.
  cbv zeta.
  assert (Hp : (MAX_TERMINALS <= currentPID (fst (execute sample_fs shell_cmd 0x7000 demo_state)))%nat)
    by (vm_compute; lia).
  assert (Hc : close_all (cur_pcb (fst (execute sample_fs shell_cmd 0x7000 demo_state))) 2 6 = Some tt)
    by (vm_compute; reflexivity).
  split; [exact Hp|]. split; [exact Hc|].
  exact (exception_outcome sample_fs 0x6000 Page_Fault _ Hp Hc).
Defined.

Lemma base_shell_exception_leaks_flag_witness :
  halts_program Page_Fault = true /\ (currentPID demo_state < MAX_TERMINALS)%nat /\
  exception_handler sample_fs 0x7000 Page_Fault demo_state =
    (fst (exception_handler sample_fs 0x7000 Page_Fault demo_state),
     Iret USER_DS (VIRTUAL_USER_BASE_ADDR + _4MB) 0x00000202 USER_CS shell_entry) /\
  exception_flag (fst (exception_handler sample_fs 0x7000 Page_Fault demo_state)) = 1.
Proof.
  assert (H : exception_handler sample_fs 0x7000 Page_Fault demo_state =
    (fst (exception_handler sample_fs 0x7000 Page_Fault demo_state),
     Iret USER_DS (VIRTUAL_USER_BASE_ADDR + _4MB) 0x00000202 USER_CS shell_entry))
    by (vm_compute; reflexivity).
  split; [reflexivity|]. split; [vm_compute; lia|]. split; [exact H|].
  exact (base_shell_exception_leaks_flag sample_fs 0x7000 Page_Fault demo_state _ _ _ _ _ _
           eq_refl ltac:(vm_compute; lia) H).
Defined.

Lemma shell_fault_poisons_next_halt_witness :
  let r1 := exception_handler sample_fs 0x7000 Page_Fault demo_state in
  let r2 := execute sample_fs shell_cmd 0x6000 (fst r1) in
  r1 = (fst r1, Iret USER_DS (VIRTUAL_USER_BASE_ADDR + _4MB) 0x00000202 USER_CS shell_entry) /\
  r2 = (fst r2, Iret USER_DS (VIRTUAL_USER_BASE_ADDR + _4MB) 0x00000202 USER_CS shell_entry) /\
  snd (halt sample_fs 0 0x5000 (fst r2)) = HaltAsm 0x6000 256.
Proof.
  cbv zeta.
  assert (H1 : exception_handler sample_fs 0x7000 Page_Fault demo_state =
    (fst (exception_handler sample_fs 0x7000 Page_Fault demo_state),
     Iret USER_DS (VIRTUAL_USER_BASE_ADDR + _4MB) 0x00000202 USER_CS shell_entry))
    by (vm_compute; reflexivity).
  assert (H2 : execute sample_fs shell_cmd 0x6000 (fst (exception_handler sample_fs 0x7000 Page_Fault demo_state)) =
    (fst (execute sample_fs shell_cmd 0x6000 (fst (exception_handler sample_fs 0x7000 Page_Fault demo_state))),
     Iret USER_DS (VIRTUAL_USER_BASE_ADDR + _4MB) 0x00000202 USER_CS shell_entry))
    by (vm_compute; reflexivity).
  split; [exact H1|]. split; [exact H2|].
  exact (shell_fault_poisons_next_halt sample_fs 0x7000 Page_Fault demo_state _ _ _ _ _ _ shell_cmd 0x6000
           _ _ _ _ _ _ 0 0x5000 eq_refl ltac:(vm_compute; lia) H1 H2 ltac:(vm_compute; lia)).
Defined.
