(* ===== verification/FileDesc.v ===== *)
(** * FileDesc: the file-descriptor system calls (syscall.c [read],
      [write], [open], [close], [getargs], [vidmap], [set_handler],
      [sigreturn])

    Each call acts on the PCB of the current process ([current_PCB]): its
    [open_files] mask (an [uint8_t], bit [fd] set when slot [fd] is open) and
    its eight descriptor slots.  A slot's jump table selects the driver: the
    file and directory operations of fsys.c, the RTC operations of rtc.c,
    and the terminal operations of terminal.c; a NULL entry ([None], or the
    NULL [read] of stdout and [write] and [close] of stdin) is a call through
    a NULL pointer, [Fault].  A call returns the new state, its control
    outcome ([Ret v], or a wait of the blocking reads) and the bytes it
    transfers to the caller's buffer (for [read] and [getargs]) or prints
    (for [write] to stdout). *)

From S2P Require Import Prelude Paging Fsys State Terminal Rtc Lifecycle.

(** ** Descriptor slots *)

Definition set_fd (p : pcb_t) (fd : nat) (d : file_desc_t) : pcb_t :=
  mk_pcb (id p) (parent_pid p) (parent_esp0 p) (parent_ebp p) (open_files p) (vidmap_inuse p)
    (cmd_args p) (<[fd := d]> (file_desc_arr p)).

Definition set_open_files (p : pcb_t) (m : Z) : pcb_t :=
  mk_pcb (id p) (parent_pid p) (parent_esp0 p) (parent_ebp p) m (vidmap_inuse p)
    (cmd_args p) (file_desc_arr p).

Definition set_vidmap_inuse (p : pcb_t) (v : Z) : pcb_t :=
  mk_pcb (id p) (parent_pid p) (parent_esp0 p) (parent_ebp p) (open_files p) v
    (cmd_args p) (file_desc_arr p).

(** The jump table [open] assigns by file type; another type leaves the
    slot's old pointer in place (the [switch] has no [default]). *)
Definition table_of_type (ty : Z) (old : option fops_jumptable_t) : option fops_jumptable_t :=
  if decide (ty = RTC_FILE_TYPE) then Some rtc_jmptable
  else if decide (ty = DIRECTORY_FILE_TYPE) then Some directory_jmptable
  else if decide (ty = REGULAR_FILE_TYPE) then Some file_jmptable
  else old.

(** [fops_table_ptr->open(filename)]: [None] for a NULL table. *)
Definition fops_open (t : option fops_jumptable_t) (s : kstate) : option (kstate * Z) :=
  match t with
  | Some rtc_jmptable => Some (rtc_open s)
  | Some file_jmptable => Some (s, file_open)
  | Some directory_jmptable => Some (s, directory_open)
  | Some stdin_jmptable | Some stdout_jmptable => Some (s, terminal_open)
  | None => None
  end.

(** ** The system calls *)

Section Syscalls.

Context (fs : fs_image).

(** [read(fd, buf, nbytes)] *)
Definition read (fd nbytes : Z) (s : kstate) : kstate * ctl * list Z :=
  if decide (fd < 0 \/ fd = 1 \/ Z.of_nat MAX_FDS <= fd) then (s, Ret (-1), []) else
  let p := cur_pcb s in
  let i := Z.to_nat fd in
  if negb (CHECK_FLAG (open_files p) i) then (s, Ret (-1), []) else
  let d := fd_at p i in
  match fops_table_ptr d with
  | None | Some stdout_jmptable => (s, Fault, [])
  | Some stdin_jmptable => let '(s', c) := terminal_read s in (s', c, [])
  | Some rtc_jmptable => let '(s', c) := rtc_read s in (s', c, [])
  | Some file_jmptable =>
      match file_read fs d nbytes with
      | None => (s, Fault, [])
      | Some (n, d', bytes) => (update_cur_pcb (fun p => set_fd p i d') s, Ret n, bytes)
      end
  | Some directory_jmptable =>
      match directory_read fs d nbytes with
      | None => (s, Fault, [])
      | Some (n, d', bytes) => (update_cur_pcb (fun p => set_fd p i d') s, Ret n, bytes)
      end
  end.

(** [write(fd, buf, nbytes)]: [buf] is the caller's buffer. *)
Definition write (fd : Z) (buf : list Z) (nbytes : Z) (s : kstate) : kstate * ctl * list Z :=
  if decide (fd < 1 \/ Z.of_nat MAX_FDS <= fd) then (s, Ret (-1), []) else
  let p := cur_pcb s in
  let i := Z.to_nat fd in
  if negb (CHECK_FLAG (open_files p) i) then (s, Ret (-1), []) else
  match fops_table_ptr (fd_at p i) with
  | None | Some stdin_jmptable => (s, Fault, [])
  | Some stdout_jmptable =>
      match terminal_write buf nbytes with
      | None => (s, Fault, [])
      | Some (r, out) => (s, Ret r, out)
      end
  | Some rtc_jmptable => let '(s', r) := rtc_write buf s in (s', Ret r, [])
  | Some file_jmptable => (s, Ret file_write, [])
  | Some directory_jmptable => (s, Ret directory_write, [])
  end.

(** [open(filename)] *)
Definition open (filename : list Z) (s : kstate) : kstate * ctl :=
  let p := cur_pcb s in
  match scan_clear (open_files p) 2 (MAX_FDS - 2) with
  | None => (s, Ret (-1))
  | Some fd =>
  match read_dentry_by_name fs filename with
  | None => (s, Ret (-1))
  | Some d =>
      let tbl := table_of_type (file_type d) (fops_table_ptr (fd_at p fd)) in
      let s1 := update_cur_pcb (fun p => set_fd p fd (mk_fd tbl (inode_idx d) 0 0)) s in
      match fops_open tbl s1 with
      | None => (s1, Fault)
      | Some (s2, r) =>
          if decide (r = -1) then (s2, Ret (-1))
          else (update_cur_pcb (fun p => set_open_files p (set_flag (open_files p) fd)) s2, Ret (Z.of_nat fd))
      end
  end end.

End Syscalls.

(** [close(fd)] *)
Definition close (fd : Z) (s : kstate) : kstate * ctl :=
  if decide (fd < 2 \/ Z.of_nat MAX_FDS <= fd) then (s, Ret (-1)) else
  let p := cur_pcb s in
  let i := Z.to_nat fd in
  if negb (CHECK_FLAG (open_files p) i) then (s, Ret (-1)) else
  match fops_close (fops_table_ptr (fd_at p i)) with
  | None => (s, Fault)
  | Some r =>
      if decide (r = -1) then (s, Ret (-1))
      else (update_cur_pcb (fun p => set_open_files (set_fd p i zero_fd) (clear_flag (open_files p) i)) s,
            Ret 0)
  end.

(** [getargs(buf, nbytes)]: a negative [nbytes] wraps as the [size_t] of
    [strncpy]. *)
Definition getargs (nbytes : Z) (s : kstate) : kstate * ctl * list Z :=
  let a := cmd_args (cur_pcb s) in
  if decide (nth_byte a 0 = 0) then (s, Ret (-1), [])
  else if decide (nbytes < 0) then (s, Fault, [])
  else (s, Ret 0, strncpy a (Z.to_nat nbytes)).

(** [vidmap(screen_start)]: the check, the video window, the flag, and the
    kernel's store of the window's address through [screen_start]. *)
Definition vidmap (screen_start : Z) (s : kstate) : kstate * ctl :=
  if decide (screen_start < VIRTUAL_USER_BASE_ADDR \/ VIRTUAL_USER_BASE_ADDR + _4MB <= screen_start)
  then (s, Ret (-1)) else
  let s1 := k_set_video_mem_page 1 s in
  let s2 := update_cur_pcb (fun p => set_vidmap_inuse p 1) s1 in
  match store_virtual screen_start (bytes32 VIRTUAL_VMEM_BASE_ADDR) s2 with
  | None => (s2, Fault)
  | Some s3 => (s3, Ret 0)
  end.

Definition set_handler (s : kstate) : kstate * ctl := (s, Ret (-1)).
Definition sigreturn (s : kstate) : kstate * ctl := (s, Ret (-1)).

(** The descriptor calls, as the trap dispatcher passes them. *)
Inductive fd_call :=
| FdRead (fd nbytes : Z)
| FdWrite (fd : Z) (buf : list Z) (nbytes : Z)
| FdOpen (filename : list Z)
| FdClose (fd : Z).

Definition fd_step (fs : fs_image) (c : fd_call) (s : kstate) : kstate * ctl :=
  match c with
  | FdRead fd n => fst (read fs fd n s)
  | FdWrite fd buf n => fst (write fd buf n s)
  | FdOpen name => open fs name s
  | FdClose fd => close fd s
  end.

(** ** The descriptor-table invariant

    The table of a live process: the mask fits its [uint8_t], stdin and
    stdout are open in slots 0 and 1, every other slot holds NULL or one of
    the three tables [open] assigns, and an open slot is not NULL. *)
Definition fd_table_ok (p : pcb_t) : Prop :=
  length (file_desc_arr p) = MAX_FDS /\ in_u8 (open_files p) /\
  CHECK_FLAG (open_files p) 0 = true /\ CHECK_FLAG (open_files p) 1 = true /\
  fd_at p 0 = stdin_file_desc /\ fd_at p 1 = stdout_file_desc /\
  (forall i, (2 <= i < MAX_FDS)%nat ->
     fops_table_ptr (fd_at p i) = None \/ fops_table_ptr (fd_at p i) = Some rtc_jmptable \/
     fops_table_ptr (fd_at p i) = Some file_jmptable \/ fops_table_ptr (fd_at p i) = Some directory_jmptable) /\
  (forall i, (2 <= i < MAX_FDS)%nat -> CHECK_FLAG (open_files p) i = true -> fops_table_ptr (fd_at p i) <> None).

(** The invariant as a test: slot [i] holds one of [open]'s tables, or
    NULL with its bit clear. *)
Definition slot_okb (p : pcb_t) (i : nat) : bool :=
  match fops_table_ptr (fd_at p i) with
  | None => negb (CHECK_FLAG (open_files p) i)
  | Some rtc_jmptable | Some file_jmptable | Some directory_jmptable => true
  | Some stdin_jmptable | Some stdout_jmptable => false
  end.

Definition fd_table_okb (p : pcb_t) : bool :=
  Nat.eqb (length (file_desc_arr p)) MAX_FDS && bool_decide (in_u8 (open_files p)) &&
  CHECK_FLAG (open_files p) 0 && CHECK_FLAG (open_files p) 1 &&
  bool_decide (fd_at p 0 = stdin_file_desc) && bool_decide (fd_at p 1 = stdout_file_desc) &&
  forallb (slot_okb p) (seq 2 (MAX_FDS - 2)).

(** A process with a fresh table: "shell" launched from [demo_state]. *)
Definition fd_demo : kstate := fst (execute sample_fs shell_cmd 0 demo_state).

(** ** Lemmas *)

Lemma cur_pcb_update f s : cur_pcb (update_cur_pcb f s) = f (cur_pcb s).
Proof. apply pcb_at_set_pcb_eq. Qed.

Lemma current_PCB_update f s : current_PCB (update_cur_pcb f s) = current_PCB s.
Proof. reflexivity. Qed.

Lemma update_cur_pcb_compose f g s :
  update_cur_pcb f (update_cur_pcb g s) = update_cur_pcb (fun p => f (g p)) s.
Proof.
  unfold update_cur_pcb at 1. rewrite cur_pcb_update. unfold update_cur_pcb, set_pcb, set_pcbs. cbn.
  rewrite insert_insert_eq. reflexivity.
Qed.

Lemma fd_at_set_fd_eq p i d : (i < length (file_desc_arr p))%nat -> fd_at (set_fd p i d) i = d.
Proof. intros Hi. unfold fd_at, set_fd. cbn. rewrite nth_lookup, list_lookup_insert_eq by exact Hi. reflexivity. Qed.

Lemma fd_at_set_fd_ne p i j d : j <> i -> fd_at (set_fd p i d) j = fd_at p j.
Proof. intros Hj. unfold fd_at, set_fd. cbn. rewrite !nth_lookup, list_lookup_insert_ne by congruence. reflexivity. Qed.

Lemma rtc_open_pcb s : cur_pcb (fst (rtc_open s)) = cur_pcb s /\ current_PCB (fst (rtc_open s)) = current_PCB s.
Proof. split; reflexivity. Qed.

(** [open] finds the lowest closed slot of [2..7]. *)
Lemma open_slot m fd :
  scan_clear m 2 (MAX_FDS - 2) = Some fd ->
  (2 <= fd < MAX_FDS)%nat /\ CHECK_FLAG m fd = false /\ (forall k, (2 <= k < fd)%nat -> CHECK_FLAG m k = true).
Proof. intros H. destruct (scan_clear_Some _ _ _ _ H) as (Hr & Hc & Hb). unfold MAX_FDS in *. split; [lia|]. auto. Qed.

#[export] Hint Rewrite cur_pcb_update current_PCB_update : kernel_rw.

(** The tables [open] can leave in a slot it reports as opened. *)
Definition valid_table (t : option fops_jumptable_t) : Prop :=
  t = Some rtc_jmptable \/ t = Some file_jmptable \/ t = Some directory_jmptable.

Lemma fops_close_valid t : valid_table t -> fops_close t = Some 0.
Proof. intros [->|[->| ->]]; reflexivity. Qed.

(** The [open] of each of [open]'s tables returns 0 and leaves the PCBs. *)
Lemma fops_open_valid tbl s :
  valid_table tbl ->
  exists s2, fops_open tbl s = Some (s2, 0) /\ cur_pcb s2 = cur_pcb s /\ current_PCB s2 = current_PCB s.
Proof. intros [->|[->| ->]]; eexists; split; reflexivity || (split; reflexivity). Qed.

(** A successful [open]: the lowest closed slot of [2..7] gets a table of
    [open], the file's inode and position 0, and its bit is set. *)
Lemma open_success fs name s fd :
  fd_table_ok (cur_pcb s) -> snd (open fs name s) = Ret (Z.of_nat fd) ->
  exists d tbl,
    scan_clear (open_files (cur_pcb s)) 2 (MAX_FDS - 2) = Some fd /\
    read_dentry_by_name fs name = Some d /\ valid_table tbl /\
    current_PCB (fst (open fs name s)) = current_PCB s /\
    cur_pcb (fst (open fs name s)) =
      set_open_files (set_fd (cur_pcb s) fd (mk_fd tbl (inode_idx d) 0 0))
                     (set_flag (open_files (cur_pcb s)) fd).
Proof.
  intros (_ & _ & _ & _ & _ & _ & Hsane & _) H. unfold open in *.
  destruct (scan_clear _ 2 _) as [fd'|] eqn:Hs; [|cbn in H; injection H; lia].
  destruct (read_dentry_by_name fs name) as [d|] eqn:Hd; [|cbn in H; injection H; lia].
  destruct (open_slot _ _ Hs) as (Hr & _ & _).
  set (tbl := table_of_type (file_type d) (fops_table_ptr (fd_at (cur_pcb s) fd'))) in *.
  assert (Hv : tbl = None \/ valid_table tbl).
  { unfold tbl, table_of_type, valid_table.
    repeat (destruct (decide _); [right; auto|]). destruct (Hsane fd' Hr) as [->|Ho]; auto. }
  destruct Hv as [Hn|Hv]; [rewrite Hn in H; discriminate|].
  set (s1 := update_cur_pcb _ s) in *.
  destruct (fops_open_valid tbl s1 Hv) as (s2 & Ho & Hp2 & Hc2). rewrite Ho in H |- *. rewrite decide_False in H |- * by lia.
  cbn in H. injection H as Hfd. apply Nat2Z.inj in Hfd. subst fd'.
  exists d, tbl. split; [reflexivity|]. split; [reflexivity|]. split; [exact Hv|].
  cbn [fst]. rewrite cur_pcb_update, current_PCB_update, Hp2, Hc2. subst s1.
  rewrite cur_pcb_update. split; reflexivity.
Qed.

Lemma fd_at_set_open_files p m i : fd_at (set_open_files p m) i = fd_at p i.
Proof. reflexivity. Qed.

Lemma open_files_set_fd p i d : open_files (set_fd p i d) = open_files p.
Proof. reflexivity. Qed.

Lemma length_set_fd p i d : length (file_desc_arr (set_fd p i d)) = length (file_desc_arr p).
Proof. apply length_insert. Qed.

(** C6. Descriptor allocation (spec 8): when [open] returns a descriptor
    [fd] of a process whose table is well formed, [fd] is the lowest closed
    slot of [2..7] and exactly its bit is added to [open_files]; [close fd]
    then succeeds and gives the mask back exactly; and closing [fd] again
    returns -1 and changes nothing. *)
Theorem open_close_roundtrip fs name s fd :
  fd_table_ok (cur_pcb s) -> snd (open fs name s) = Ret (Z.of_nat fd) ->
  let m := open_files (cur_pcb s) in
  let s1 := fst (open fs name s) in
  let s2 := fst (close (Z.of_nat fd) s1) in
  (2 <= fd < MAX_FDS)%nat /\ CHECK_FLAG m fd = false /\
  (forall k, (2 <= k < fd)%nat -> CHECK_FLAG m k = true) /\
  open_files (cur_pcb s1) = set_flag m fd /\
  snd (close (Z.of_nat fd) s1) = Ret 0 /\ open_files (cur_pcb s2) = m /\
  close (Z.of_nat fd) s2 = (s2, Ret (-1)).
Proof.
  intros Hok H m s1 s2. pose proof Hok as (Hlen & _).
  destruct (open_success fs name s fd Hok H) as (d & tbl & Hs & _ & Hv & _ & Hp).
  destruct (open_slot _ _ Hs) as (Hr & Hclr & Hlow). fold m in Hclr, Hlow, Hp.
  fold s1 in Hp.
  assert (Hclose : close (Z.of_nat fd) s1 =
            (update_cur_pcb (fun p => set_open_files (set_fd p fd zero_fd) (clear_flag (open_files p) fd)) s1,
             Ret 0)).
  { unfold close. rewrite decide_False by (unfold MAX_FDS in *; lia). rewrite Nat2Z.id, Hp.
    cbn [open_files set_open_files]. rewrite CHECK_FLAG_set_flag, bool_decide_true, orb_true_r by reflexivity.
    cbn [negb]. rewrite fd_at_set_open_files, fd_at_set_fd_eq by (rewrite Hlen; exact (proj2 Hr)).
    cbn [fops_table_ptr]. rewrite fops_close_valid by exact Hv. reflexivity. }
  assert (Hm2 : open_files (cur_pcb s2) = m).
  { unfold s2. rewrite Hclose. cbn [fst]. rewrite cur_pcb_update, Hp. cbn.
    apply clear_flag_set_flag, Hclr. }
  split; [exact Hr|]. split; [exact Hclr|]. split; [exact Hlow|].
  split; [rewrite Hp; reflexivity|]. split; [rewrite Hclose; reflexivity|]. split; [exact Hm2|].
  unfold close at 1. rewrite decide_False by (unfold MAX_FDS in *; lia). rewrite Nat2Z.id, Hm2, Hclr.
  reflexivity.
Qed.

(** ** Preservation of the table invariant *)

(** Rewriting one slot [i >= 2] and the mask at bit [i] keeps the table
    well formed when the slot is NULL or one of [open]'s tables, and not
    NULL if its bit is set. *)
Lemma fd_table_ok_slot p i d m' :
  fd_table_ok p -> (2 <= i < MAX_FDS)%nat -> in_u8 m' ->
  (forall j, j <> i -> CHECK_FLAG m' j = CHECK_FLAG (open_files p) j) ->
  (fops_table_ptr d = None \/ valid_table (fops_table_ptr d)) ->
  (CHECK_FLAG m' i = true -> fops_table_ptr d <> None) ->
  fd_table_ok (set_open_files (set_fd p i d) m').
Proof.
  intros (Hl & Hu & H0 & H1 & Hi0 & Hi1 & Hs & Hn) Hr Hu' Hm Hd Hdn. unfold fd_table_ok.
  rewrite !fd_at_set_open_files. cbn [open_files set_open_files file_desc_arr].
  rewrite length_set_fd, !fd_at_set_fd_ne, !Hm by lia.
  do 6 (split; [assumption|]). split.
  - intros j Hj. rewrite fd_at_set_open_files. destruct (decide (j = i)) as [->|Hji].
    + rewrite fd_at_set_fd_eq by lia. unfold valid_table in Hd. tauto.
    + rewrite fd_at_set_fd_ne by exact Hji. apply Hs, Hj.
  - intros j Hj Hb. rewrite fd_at_set_open_files. destruct (decide (j = i)) as [->|Hji].
    + rewrite fd_at_set_fd_eq by lia. apply Hdn, Hb.
    + rewrite fd_at_set_fd_ne by exact Hji. rewrite Hm in Hb by exact Hji. apply Hn; assumption.
Qed.

Lemma set_open_files_same p : set_open_files p (open_files p) = p.
Proof. destruct p. reflexivity. Qed.

Lemma fd_table_ok_set_fd p i d :
  fd_table_ok p -> (2 <= i < MAX_FDS)%nat ->
  (fops_table_ptr d = None \/ valid_table (fops_table_ptr d)) ->
  (CHECK_FLAG (open_files p) i = true -> fops_table_ptr d <> None) ->
  fd_table_ok (set_fd p i d).
Proof.
  intros Hok Hr Hd Hdn. rewrite <- (set_open_files_same (set_fd p i d)).
  apply fd_table_ok_slot; try assumption. apply Hok. intros j _. reflexivity.
Qed.

Lemma fd_table_ok_same_table p i d :
  fd_table_ok p -> (2 <= i < MAX_FDS)%nat -> fops_table_ptr d = fops_table_ptr (fd_at p i) ->
  fd_table_ok (set_fd p i d).
Proof.
  intros Hok Hr Hd. pose proof Hok as (_ & _ & _ & _ & _ & _ & Hs & Hn).
  apply fd_table_ok_set_fd; [exact Hok | exact Hr | |].
  - rewrite Hd. unfold valid_table. destruct (Hs i Hr); tauto.
  - rewrite Hd. apply Hn, Hr.
Qed.

Lemma file_read_table fs d n r d' b :
  file_read fs d n = Some (r, d', b) -> fops_table_ptr d' = fops_table_ptr d.
Proof. unfold file_read. intros H. repeat case_match; simplify_eq; reflexivity. Qed.

Lemma directory_read_table fs d n r d' b :
  directory_read fs d n = Some (r, d', b) -> fops_table_ptr d' = fops_table_ptr d.
Proof. unfold directory_read. intros H. repeat case_match; simplify_eq; reflexivity. Qed.

Lemma fd_table_ok_close p i :
  fd_table_ok p -> (2 <= i < MAX_FDS)%nat ->
  fd_table_ok (set_open_files (set_fd p i zero_fd) (clear_flag (open_files p) i)).
Proof.
  intros Hok Hr. apply fd_table_ok_slot; [exact Hok | exact Hr | apply clear_flag_bound, Hok | | left; reflexivity |].
  - intros j Hj. rewrite CHECK_FLAG_clear_flag, bool_decide_false, andb_true_r by congruence. reflexivity.
  - rewrite CHECK_FLAG_clear_flag, bool_decide_true, andb_false_r by reflexivity. discriminate.
Qed.

Lemma fd_table_ok_open p i d :
  fd_table_ok p -> (2 <= i < MAX_FDS)%nat -> valid_table (fops_table_ptr d) ->
  fd_table_ok (set_open_files (set_fd p i d) (set_flag (open_files p) i)).
Proof.
  intros Hok Hr Hv. apply fd_table_ok_slot; [exact Hok | exact Hr | | | right; exact Hv |].
  - apply set_flag_bound; [apply Hok | unfold MAX_FDS in Hr; lia].
  - intros j Hj. rewrite CHECK_FLAG_set_flag, bool_decide_false, orb_false_r by congruence. reflexivity.
  - intros _. destruct Hv as [->|[->| ->]]; discriminate.
Qed.

Lemma fd_table_ok_slot0 p i : fd_table_ok p -> (i < MAX_FDS)%nat -> i <> 1%nat ->
  fops_table_ptr (fd_at p i) <> Some stdin_jmptable -> (2 <= i)%nat.
Proof. intros (_ & _ & _ & _ & Hi0 & _) Hi H1 Hs. destruct i as [|[|]]; [|lia|lia]. rewrite Hi0 in Hs. easy. Qed.

Lemma read_preserves fs fd n s :
  fd_table_ok (cur_pcb s) -> fd_table_ok (cur_pcb (fst (fst (read fs fd n s)))).
Proof.
  intros Hok. unfold read.
  destruct (decide _) as [|Hr]; [exact Hok|]. destruct (negb _); [exact Hok|].
  destruct (fops_table_ptr (fd_at _ _)) as [[]|] eqn:Ht; try exact Hok.
  - destruct (file_read fs _ n) as [[[r d'] b]|] eqn:E; [|exact Hok]. cbn [fst].
    rewrite cur_pcb_update. apply fd_table_ok_same_table; [exact Hok | |].
    + split; [apply (fd_table_ok_slot0 _ _ Hok); [unfold MAX_FDS in *; lia | lia | congruence]|
              unfold MAX_FDS in *; lia].
    + apply file_read_table in E. exact E.
  - destruct (directory_read fs _ n) as [[[r d'] b]|] eqn:E; [|exact Hok]. cbn [fst].
    rewrite cur_pcb_update. apply fd_table_ok_same_table; [exact Hok | |].
    + split; [apply (fd_table_ok_slot0 _ _ Hok); [unfold MAX_FDS in *; lia | lia | congruence]|
              unfold MAX_FDS in *; lia].
    + apply directory_read_table in E. exact E.
Qed.

Lemma rtc_write_pcb buf s : cur_pcb (fst (rtc_write buf s)) = cur_pcb s.
Proof. unfold rtc_write. destruct (negb _); [reflexivity|]. destruct (freq_loop _ _ _); reflexivity. Qed.

Lemma write_preserves fd buf n s :
  fd_table_ok (cur_pcb s) -> fd_table_ok (cur_pcb (fst (fst (write fd buf n s)))).
Proof.
  intros Hok. unfold write.
  destruct (decide _); [exact Hok|]. destruct (negb _); [exact Hok|].
  destruct (fops_table_ptr (fd_at _ _)) as [[]|]; try exact Hok.
  - cbn. destruct (rtc_write buf s) as [s' r] eqn:E. cbn.
    replace s' with (fst (rtc_write buf s)) by (rewrite E; reflexivity). rewrite rtc_write_pcb. exact Hok.
  - destruct (terminal_write buf n) as [[]|]; exact Hok.
Qed.

Lemma open_preserves fs name s :
  fd_table_ok (cur_pcb s) -> fd_table_ok (cur_pcb (fst (open fs name s))).
Proof.
  intros Hok. pose proof Hok as (_ & _ & _ & _ & _ & _ & Hsane & _). unfold open.
  destruct (scan_clear _ 2 _) as [fd|] eqn:Hs; [|exact Hok].
  destruct (read_dentry_by_name fs name) as [d|]; [|exact Hok].
  destruct (open_slot _ _ Hs) as (Hr & Hclr & _).
  set (tbl := table_of_type _ _).
  assert (Hv : tbl = None \/ valid_table tbl).
  { unfold tbl, table_of_type, valid_table.
    repeat (destruct (decide _); [right; auto|]). destruct (Hsane fd Hr) as [->|Ho]; auto. }
  destruct Hv as [Hn|Hv].
  - rewrite Hn. cbn. rewrite cur_pcb_update. apply fd_table_ok_set_fd; [exact Hok | exact Hr | left; reflexivity |].
    rewrite Hclr. discriminate.
  - set (s1 := update_cur_pcb _ s).
    destruct (fops_open_valid tbl s1 Hv) as (s2 & Ho & Hp2 & _).
    rewrite Ho, decide_False by lia. cbn [fst]. rewrite cur_pcb_update, Hp2. subst s1.
    rewrite cur_pcb_update, open_files_set_fd. apply fd_table_ok_open; [exact Hok | exact Hr | exact Hv].
Qed.

Lemma close_preserves fd s :
  fd_table_ok (cur_pcb s) -> fd_table_ok (cur_pcb (fst (close fd s))).
Proof.
  intros Hok. unfold close.
  destruct (decide _) as [|Hr]; [exact Hok|]. destruct (negb _); [exact Hok|].
  destruct (fops_close _) as [r|]; [|exact Hok]. destruct (decide _); [exact Hok|].
  cbn [fst]. rewrite cur_pcb_update. apply fd_table_ok_close; [exact Hok | unfold MAX_FDS in *; lia].
Qed.

(** C8. The descriptor table of the current process stays well formed
    under every descriptor call, whatever its outcome (errors and faults
    included): the mask fits its byte, stdin and stdout stay open in slots 0
    and 1, and every open slot of [2..7] holds the table of a file, a
    directory or the RTC. *)
Theorem fd_step_preserves_table fs c s :
  fd_table_ok (cur_pcb s) -> fd_table_ok (cur_pcb (fst (fd_step fs c s))).
Proof.
  intros Hok. destruct c; cbn [fd_step].
  - apply read_preserves, Hok.
  - apply write_preserves, Hok.
  - apply open_preserves, Hok.
  - apply close_preserves, Hok.
Qed.

Lemma fd_table_okb_sound p : fd_table_okb p = true -> fd_table_ok p.
Proof.
  unfold fd_table_okb. intros H. repeat rewrite andb_true_iff in H.
  destruct H as ((((((Hl & Hu) & H0) & H1) & Hi0) & Hi1) & Hs).
  apply Nat.eqb_eq in Hl. apply bool_decide_eq_true in Hu, Hi0, Hi1.
  rewrite forallb_forall in Hs.
  assert (Hi : forall i, (2 <= i < MAX_FDS)%nat -> slot_okb p i = true)
    by (intros i Hi; apply Hs, in_seq; unfold MAX_FDS in *; lia).
  do 6 (split; [assumption|]). split.
  - intros i Hr. specialize (Hi i Hr). unfold slot_okb in Hi.
    destruct (fops_table_ptr (fd_at p i)) as [[]|]; tauto || discriminate.
  - intros i Hr Hb. specialize (Hi i Hr). unfold slot_okb in Hi.
    destruct (fops_table_ptr (fd_at p i)) as [[]|]; try discriminate. rewrite Hb in Hi. discriminate.
Qed.

Lemma open_close_roundtrip_witness :
  snd (open sample_fs str_frame0 fd_demo) = Ret 2 /\
  open_files (cur_pcb (fst (open sample_fs str_frame0 fd_demo))) = 7 /\
  close 2 (fst (close 2 (fst (open sample_fs str_frame0 fd_demo)))) =
    (fst (close 2 (fst (open sample_fs str_frame0 fd_demo))), Ret (-1)).
Proof.
  assert (Ho : snd (open sample_fs str_frame0 fd_demo) = Ret (Z.of_nat 2)) by (vm_compute; reflexivity).
  destruct (open_close_roundtrip sample_fs str_frame0 fd_demo 2
              (fd_table_okb_sound (cur_pcb fd_demo) ltac:(vm_compute; reflexivity)) Ho)
    as (_ & _ & _ & Hm & _ & _ & Hc).
  split; [exact Ho|]. split; [rewrite Hm; vm_compute; reflexivity | exact Hc].
Defined.

Lemma fd_step_preserves_table_witness :
  fd_table_ok (cur_pcb (fst (fd_step sample_fs (FdOpen str_frame0) fd_demo))) /\
  fd_table_ok (cur_pcb (fst (fd_step sample_fs (FdClose 5) fd_demo))).
Proof.
  split; apply fd_step_preserves_table, fd_table_okb_sound; vm_compute; reflexivity.
Defined.

Lemma rtc_write_error buf s : snd (rtc_write buf s) = -1 -> fst (rtc_write buf s) = s.
Proof.
  rewrite rtc_write_rate_bit. destruct (rate_bit (le32 buf)); [cbn; lia | reflexivity].
Qed.

(** C15. Errors of the descriptor calls change nothing (spec 7): a [write],
    [open] or [close] that returns -1 leaves the whole state as it was, and
    a [read] of a slot that is out of range, stdout or not open returns -1
    with no state change and no bytes. *)
Theorem fd_error_unchanged fs s :
  (forall c, (forall fd n, c <> FdRead fd n) ->
     snd (fd_step fs c s) = Ret (-1) -> fst (fd_step fs c s) = s) /\
  (forall fd n, (fd < 0 \/ fd = 1 \/ Z.of_nat MAX_FDS <= fd \/
                 CHECK_FLAG (open_files (cur_pcb s)) (Z.to_nat fd) = false) ->
     read fs fd n s = (s, Ret (-1), [])).
Proof.
  split.
  - intros c Hnr H. destruct c as [fd n|fd buf n|name|fd]; cbn [fd_step] in *.
    + exfalso. exact (Hnr fd n eq_refl).
    + revert H. unfold write. destruct (decide _); [reflexivity|]. destruct (negb _); [reflexivity|].
      destruct (fops_table_ptr _) as [[]|]; cbn; try reflexivity; try discriminate.
      * destruct (rtc_write buf s) as [s' r] eqn:E. cbn. intros Hr. injection Hr as Hr.
        pose proof (rtc_write_error buf s) as Hw. rewrite E in Hw. apply Hw, Hr.
      * destruct (terminal_write buf n) as [[r out]|]; cbn; [|discriminate].
        intros _. reflexivity.
    + revert H. unfold open. destruct (scan_clear _ _ _); [|reflexivity].
      destruct (read_dentry_by_name _ _); [|reflexivity].
      destruct (table_of_type _ _) as [[]|]; cbn; try discriminate;
        try (rewrite decide_False by (cbv [file_open directory_open terminal_open]; lia); cbn;
             intros Hr; injection Hr; lia).
    + revert H. unfold close. destruct (decide _); [reflexivity|]. destruct (negb _); [reflexivity|].
      destruct (fops_close _) as [r|]; [|discriminate]. destruct (decide _); [reflexivity|].
      discriminate.
  - intros fd n Hc. unfold read. destruct (decide _) as [|Hr]; [reflexivity|].
    destruct Hc as [|[|[|Hc]]]; [lia..|]. rewrite Hc. reflexivity.
Qed.

(** The first 4 KB page of directory entry 33 (just above the user window)
    goes through slot 0 of the user page table, which [set_video_mem_page]
    never writes. *)
Lemma video_entry_page0 m present ta ts u k :
  0 <= k < _4KB -> user_page_table (live m) !! 0 = None ->
  translate (tlb (set_video_mem_page present ta ts m)) u (VIRTUAL_USER_BASE_ADDR + _4MB + k) = None.
Proof.
  intros Hk Hn. unfold translate, set_video_mem_page, flush_tlb, set_upt, set_pd.
  cbn [live tlb page_dir page_table user_page_table table_of].
  replace (VIRTUAL_USER_BASE_ADDR + _4MB + k) with ((USER_MEM_PD_ENTRY + 1) * 2 ^ 22 + k)
    by (unfold VIRTUAL_USER_BASE_ADDR, _4MB, USER_MEM_PD_ENTRY; lia).
  rewrite window_index by (unfold _4KB in Hk; lia). rewrite lookup_insert_eq.
  unfold SET_4KB_PD_ENTRY. destruct (allowed _ _ _); [|reflexivity].
  replace ((USER_MEM_PD_ENTRY + 1) * 2 ^ 22 + k) with ((33 * 2 ^ 10) * 2 ^ 12 + k)
    by (unfold USER_MEM_PD_ENTRY; lia).
  rewrite window_index by (unfold _4KB in Hk; lia).
  change ((33 * 2 ^ 10) .& 0x3FF) with 0. change ((VIRTUAL_VMEM_BASE_ADDR >>> 12) .& 0x3FF) with 1.
  cbn [table_of user_page_table]. rewrite lookup_insert_ne by lia. rewrite Hn. reflexivity.
Qed.

(** C33. [vidmap] checks only that the pointer [screen_start] lies in the
    user window, not the four bytes the kernel stores through it: for a
    pointer in the window's last three bytes the store runs into the page
    above the window, which is not mapped, and the kernel page-faults
    ([Fault]) instead of returning -1. *)
Theorem vidmap_store_overruns s p :
  VIRTUAL_USER_BASE_ADDR + _4MB - 4 < p < VIRTUAL_USER_BASE_ADDR + _4MB ->
  user_page_table (live (paging s)) !! 0 = None ->
  vidmap p s = (update_cur_pcb (fun q => set_vidmap_inuse q 1) (k_set_video_mem_page 1 s), Fault).
Proof.
  intros Hp Hn. unfold vidmap. rewrite decide_False by (unfold VIRTUAL_USER_BASE_ADDR, _4MB in *; lia).
  unfold store_virtual. cbn [length bytes32 Z.of_nat].
  change (paging (update_cur_pcb _ (k_set_video_mem_page 1 s)))
    with (set_video_mem_page 1 (TA_idx s) (TS_idx s) (paging s)).
  change (Z.of_nat 4) with 4.
  replace (p + 4 - 1) with (VIRTUAL_USER_BASE_ADDR + _4MB + (p + 3 - (VIRTUAL_USER_BASE_ADDR + _4MB))) by lia.
  rewrite video_entry_page0 by (exact Hn || (unfold _4KB, VIRTUAL_USER_BASE_ADDR, _4MB in *; lia)).
  destruct (translate _ false p); reflexivity.
Qed.

Lemma vidmap_store_overruns_witness :
  snd (vidmap (VIRTUAL_USER_BASE_ADDR + _4MB - 2) fd_demo) = Fault /\
  snd (vidmap (VIRTUAL_USER_BASE_ADDR + _4MB - 4) fd_demo) = Ret 0.
Proof.
  split.
  - rewrite (vidmap_store_overruns fd_demo (VIRTUAL_USER_BASE_ADDR + _4MB - 2));
      [reflexivity | unfold VIRTUAL_USER_BASE_ADDR, _4MB; lia | vm_compute; reflexivity].
  - vm_compute. reflexivity.
Defined.

(** [halt] of a process that is not a base shell, when it returns to the
    parent, leaves every PCB as it was: [restore_parent] calls the close
    functions but clears neither a slot's table nor its bit. *)
Lemma halt_HaltAsm_pcbs fs status eebp s s1 pebp v :
  (MAX_TERMINALS <= currentPID s)%nat -> halt fs status eebp s = (s1, HaltAsm pebp v) -> pcbs s1 = pcbs s.
Proof.
  intros Hb; unfold halt; cbn [currentPID cli set_if]; rewrite decide_False by lia.
  unfold restore_parent; destruct (close_all _ 2 6); [|discriminate].
  unfold publish_terminal; case_decide; intros Heq; injection Heq as <-; reflexivity.
Qed.

(** The process [execute] hands over to starts with descriptors 0 and 1
    open and inherits slots 2-7 of whatever its PCB slot held. *)
Lemma execute_Iret_slots fs cmd ebp s s' ss esp fl cs eip i :
  execute fs cmd ebp s = (s', Iret ss esp fl cs eip) -> (2 <= i)%nat ->
  open_files (cur_pcb s') = 3 /\ fd_at (cur_pcb s') i = fd_at (pcb_at s (currentPID s')) i.
Proof.
  unfold execute. intros H Hi. repeat case_match; simplify_eq.
  match goal with E : store_virtual _ _ _ = Some _ |- _ => apply store_virtual_Some in E as (pa & _ & ->) end.
  unfold cur_pcb, pcb_at, fd_at; cbn. rewrite lookup_insert_eq; cbn. split; [reflexivity|].
  rewrite !nth_lookup, !list_lookup_insert_ne by lia. reflexivity.
Qed.

(** C40. Closing does not clear a slot's table when a process ends, in
    every run: when a process that is not a base shell halts back to its
    parent, and a later [execute] launches a program that gets the same
    pid, the new process has the bit of each slot 2-7 clear but inherits
    the halted process's table in that slot.  A slot the halted process
    left open thus starts non-NULL with its bit clear, against the spec's
    invariant (3) that a slot's table is non-NULL exactly when its bit is
    set. *)
Theorem stale_table_after_pid_reuse fs status eebp cmd ebp s s1 pebp v s2 ss esp fl cs eip i :
  (MAX_TERMINALS <= currentPID s)%nat -> current_PCB s = currentPID s ->
  halt fs status eebp s = (s1, HaltAsm pebp v) ->
  execute fs cmd ebp s1 = (s2, Iret ss esp fl cs eip) -> currentPID s2 = currentPID s ->
  (2 <= i < MAX_FDS)%nat ->
  CHECK_FLAG (open_files (cur_pcb s2)) i = false /\ fd_at (cur_pcb s2) i = fd_at (cur_pcb s) i.
Proof.
  intros H3 Hc Hh He Hpid Hi.
  destruct (execute_Iret_slots fs cmd ebp s1 s2 ss esp fl cs eip i He ltac:(lia)) as [Ho Hf].
  rewrite Ho, Hf, Hpid. unfold pcb_at at 1. rewrite (halt_HaltAsm_pcbs fs status eebp s s1 pebp v H3 Hh).
  unfold cur_pcb; rewrite Hc. split; [|reflexivity].
  unfold MAX_FDS in Hi. destruct i as [|[|[|[|[|[|[|[|]]]]]]]]; try lia; reflexivity.
Qed.

Lemma fd_error_unchanged_witness :
  close 5 fd_demo = (fd_demo, Ret (-1)) /\ read sample_fs 6 10 fd_demo = (fd_demo, Ret (-1), []).
Proof.
  destruct (fd_error_unchanged sample_fs fd_demo) as [Hc Hr]. split.
  - assert (Hs : snd (close 5 fd_demo) = Ret (-1)) by (vm_compute; reflexivity).
    pose proof (Hc (FdClose 5) ltac:(discriminate) Hs) as H. cbn [fd_step] in H.
    rewrite (surjective_pairing (close 5 fd_demo)), H, Hs. reflexivity.
  - apply Hr. right; right; right. vm_compute. reflexivity.
Defined.

(** The child of [demo_state] (pid 3) opens "frame0.txt" in slot 2 and
    halts; the shell's next program gets pid 3 with slot 2's file table
    and bit 2 clear. *)
Lemma stale_table_after_pid_reuse_witness :
  let s0 := fst (open sample_fs str_frame0 fd_demo) in
  let r1 := halt sample_fs 0 0 s0 in
  let r2 := execute sample_fs shell_cmd 0 (fst r1) in
  CHECK_FLAG (open_files (cur_pcb (fst r2))) 2 = false /\
  fops_table_ptr (fd_at (cur_pcb (fst r2)) 2) = Some file_jmptable.
Proof.
  cbv zeta.
  set (s0 := fst (open sample_fs str_frame0 fd_demo)).
  assert (H1 : halt sample_fs 0 0 s0 = (fst (halt sample_fs 0 0 s0), HaltAsm 0 0)) by (vm_compute; reflexivity).
  assert (H2 : execute sample_fs shell_cmd 0 (fst (halt sample_fs 0 0 s0)) =
    (fst (execute sample_fs shell_cmd 0 (fst (halt sample_fs 0 0 s0))),
     Iret USER_DS (VIRTUAL_USER_BASE_ADDR + _4MB) 0x00000202 USER_CS shell_entry)) by (vm_compute; reflexivity).
  destruct (stale_table_after_pid_reuse sample_fs 0 0 shell_cmd 0 s0 _ 0 0 _ _ _ _ _ _ 2
              ltac:(vm_compute; lia) ltac:(vm_compute; reflexivity) H1 H2 ltac:(vm_compute; reflexivity)
              ltac:(unfold MAX_FDS; lia)) as [Hb Hf].
  split; [exact Hb|]. rewrite Hf. vm_compute. reflexivity.
Defined.
