(* ===== verification/Scheduler.v ===== *)
(** * Scheduler: the round-robin scheduler (drivers/pit.c)

    [PIT_Handler] runs at every timer interrupt: it acknowledges the IRQ,
    saves the interrupted frame in the active terminal, launches one base
    shell on each of the first [MAX_TERMINALS] ticks, then advances the active
    terminal and resumes the frame the next terminal saved.  [init_PIT]
    unmasks IRQ 0 through the PIC model.  The boot sequence (kernel.c is not
    under src/) is modelled from the spec: paging, the terminal array, and
    the PIT counter at zero; the file ends with the interrupt lines the
    driver initialisations leave unmasked. *)

From S2P Require Import Prelude Paging Fsys State Pic Terminal Keyboard Rtc Lifecycle.

(** [terminal_active->saved_ebp = saved_ebp;] *)
Definition save_ebp (ebp : Z) (s : kstate) : kstate :=
  let t := term_at s (TA_idx s) in
  set_term s (TA_idx s)
    (mk_terminal ebp (saved_esp0 t) (t_currentPID t) (t_currentPCB t)
       (cursor_x t) (cursor_y t) (keyboard_buffer t) (keyboard_idx t)
       (terminal_newline t) (rtc_interrupt_occurred t) (rtc_freq_bit t)).

(** [(TA_idx + 1) % MAX_TERMINALS] *)
Definition rr_next (i : nat) : nat := Nat.modulo (i + 1) MAX_TERMINALS.

Section Scheduler.

Context (fs : fs_image).

(** [PIT_Handler()]; [ebp] is the handler's own frame pointer and
    [exec_ebp] the frame of the [execute] it calls during the bootstrap.
    The handler is reached through an interrupt gate, which clears IF. *)
Definition PIT_Handler (ebp exec_ebp : Z) (s : kstate) : kstate * ctl :=
  let s1 := save_ebp ebp (send_eoi 0 (cli s)) in
  let (s2, early) :=
    if decide (pit_counter s1 < 3)%nat then
      let s' := set_pit_counter (set_active_terminal (pit_counter s1) s1) (S (pit_counter s1)) in
      match execute fs shell_cmd exec_ebp s' with
      | (s'', Ret _) => (s'', None)
      | (s'', c) => (s'', Some c)
      end
    else (s1, None) in
  match early with
  | Some c => (s2, c)
  | None =>
      let s3 := set_active_terminal (rr_next (TA_idx s2)) s2 in
      let s4 := k_set_video_mem_page (vidmap_inuse (cur_pcb s3)) s3 in
      (s4, SwtchCtx (saved_ebp (term_at s4 (TA_idx s4))))
  end.

(** A run of [n] timer ticks with no system call between them: the frame
    pointers of tick [k] are [ebp k] and [exec_ebp k]. *)
Fixpoint ticks (ebp exec_ebp : nat -> Z) (n : nat) (s : kstate) : kstate :=
  match n with
  | O => s
  | S n' => ticks (fun k => ebp (S k)) (fun k => exec_ebp (S k)) n'
              (fst (PIT_Handler (ebp O) (exec_ebp O) s))
  end.

End Scheduler.

Definition PIT_IRQ : Z := 0.

(** [init_PIT()]: the counter at zero and the IRQ unmasked under [cli()];
    the divisor written to the PIT is port I/O. *)
Definition init_PIT (SLAVE_ID : Z) (p : pic_t) (s : kstate) : pic_t * kstate :=
  let s1 := set_pit_counter (cli s) 0 in
  let '(p2, s2) := enable_irq SLAVE_ID PIT_IRQ p s1 in (p2, sti s2).

(** The state after boot: paging, terminals and PIT initialised, with the
    kernel's stack pointer [esp0] in the TSS. *)
Definition boot_state (esp0 : Z) : kstate :=
  snd (init_PIT 2 pic_reset
         (init_terminals (set_tss (set_paging zero_kstate (init_Paging boot_mmu)) KERNEL_DS esp0))).

(** The state after the three bootstrap ticks from [boot_state] with the
    sample disk: a base shell on each terminal, terminal 2 active. *)
Definition booted : kstate :=
  ticks sample_fs (fun k => 5000 + Z.of_nat k) (fun k => 4000 + Z.of_nat k) 3 (boot_state 0x800000).

(** ** Lemmas *)

Lemma PIT_Handler_steady fs ebp ee s :
  (3 <= pit_counter s)%nat ->
  PIT_Handler fs ebp ee s =
  (let s3 := set_active_terminal (rr_next (TA_idx s)) (save_ebp ebp (send_eoi 0 (cli s))) in
   let s4 := k_set_video_mem_page (vidmap_inuse (cur_pcb s3)) s3 in
   (s4, SwtchCtx (saved_ebp (term_at s4 (TA_idx s4))))).
Proof.
  intros Hc. unfold PIT_Handler. cbn [pit_counter save_ebp set_term set_terms send_eoi cli set_if].
  rewrite decide_False by lia. reflexivity.
Qed.

Lemma rr_next_ne i : (i < MAX_TERMINALS)%nat -> rr_next i <> i.
Proof. unfold rr_next, MAX_TERMINALS. intros H. destruct i as [|[|[|]]]; simpl; lia. Qed.

Lemma rr_next_lt i : (rr_next i < MAX_TERMINALS)%nat.
Proof. unfold rr_next, MAX_TERMINALS. apply Nat.mod_upper_bound. lia. Qed.

Lemma save_ebp_terms ebp s :
  (TA_idx s < length (terminal_arr s))%nat ->
  TA_idx (save_ebp ebp s) = TA_idx s /\
  length (terminal_arr (save_ebp ebp s)) = length (terminal_arr s) /\
  saved_ebp (term_at (save_ebp ebp s) (TA_idx s)) = ebp /\
  (forall i, i <> TA_idx s -> term_at (save_ebp ebp s) i = term_at s i).
Proof.
  intros Hta. unfold save_ebp. split; [reflexivity|]. split; [apply length_insert|].
  split; [rewrite term_at_set_term_eq by exact Hta; reflexivity|].
  intros i Hi. apply term_at_set_term_ne, Hi.
Qed.

(** The steady-state tick, field by field. *)
Lemma PIT_steady_spec fs ebp ee s :
  (3 <= pit_counter s)%nat -> length (terminal_arr s) = MAX_TERMINALS ->
  (TA_idx s < MAX_TERMINALS)%nat ->
  let next := rr_next (TA_idx s) in
  let s' := fst (PIT_Handler fs ebp ee s) in
  snd (PIT_Handler fs ebp ee s) = SwtchCtx (saved_ebp (term_at s next)) /\
  TA_idx s' = next /\ TS_idx s' = TS_idx s /\
  currentPID s' = t_currentPID (term_at s next) /\ current_PCB s' = t_currentPCB (term_at s next) /\
  tss_esp0 s' = saved_esp0 (term_at s next) /\
  t_currentPID (term_at s' (TA_idx s)) = currentPID s /\
  t_currentPCB (term_at s' (TA_idx s)) = current_PCB s /\
  saved_esp0 (term_at s' (TA_idx s)) = tss_esp0 s /\ saved_ebp (term_at s' (TA_idx s)) = ebp /\
  (forall i, i <> TA_idx s -> i <> next -> term_at s' i = term_at s i) /\
  term_at s' next = term_at s next /\
  length (terminal_arr s') = length (terminal_arr s) /\
  activeProcesses s' = activeProcesses s /\ pcbs s' = pcbs s /\ pit_counter s' = pit_counter s /\
  windows_bound s' /\ eoi_log s' = 0 :: eoi_log s.
Proof.
  intros Hc Hlen Hta next s'. subst s'. rewrite PIT_Handler_steady by exact Hc. cbv beta zeta. cbn [fst snd].
  set (s1 := save_ebp ebp (send_eoi 0 (cli s))).
  assert (Hta1 : (TA_idx (send_eoi 0 (cli s)) < length (terminal_arr (send_eoi 0 (cli s))))%nat)
    by (simpl; unfold MAX_TERMINALS in *; lia).
  destruct (save_ebp_terms ebp _ Hta1) as (HTA1 & Hlen1 & Hebp1 & Hoth1). fold s1 in HTA1, Hlen1, Hebp1, Hoth1.
  cbn [send_eoi cli set_if TA_idx terminal_arr] in HTA1, Hlen1, Hebp1, Hoth1.
  assert (Hne : next <> TA_idx s) by (apply rr_next_ne, Hta).
  assert (Hta1' : (TA_idx s1 < length (terminal_arr s1))%nat) by (rewrite HTA1, Hlen1, Hlen; exact Hta).
  destruct (save_active_self s1 Hta1') as (Hsp & Hsc & Hse & Hsb). rewrite HTA1 in Hsp, Hsc, Hse, Hsb.
  destruct (set_active_terminal_spec next s1)
    as (HTA & HTS & Hcur & Hpcb & Hesp & Hpg & Hact & Hpcbs & Hterms & Hpit & _ & Heoi).
  unfold incoming in *. rewrite save_active_other in Hcur, Hpcb, Hesp, Hpg by congruence.
  rewrite Hoth1 in Hcur, Hpcb, Hesp, Hpg by exact Hne.
  change (rr_next (TA_idx s)) with next. set (s3 := set_active_terminal next s1) in *.
  assert (Ht3 : forall i, term_at s3 i = term_at (save_active s1) i)
    by (intros i; unfold term_at; rewrite Hterms; reflexivity).
  destruct (k_set_video_mem_page_same (vidmap_inuse (cur_pcb s3)) s3)
    as (HTA4 & HTS4 & Hcur4 & Hpcb4 & Hesp4 & Hterms4 & Hact4 & Hpcbs4 & Hpit4 & Heoi4 & _ & Hpg4).
  set (s4 := k_set_video_mem_page (vidmap_inuse (cur_pcb s3)) s3) in *.
  assert (Ht4 : forall i, term_at s4 i = term_at (save_active s1) i)
    by (intros i; unfold term_at; rewrite Hterms4, Hterms; reflexivity).
  rewrite HTA4, HTS4, Hcur4, Hpcb4, Hesp4, Hact4, Hpcbs4, Hpit4, Heoi4, !Ht4, HTA.
  rewrite (save_active_other s1 next) by congruence. rewrite Hoth1 by exact Hne.
  repeat split; try assumption.
  - rewrite Hsb. exact Hebp1.
  - intros i Hi Hi'. rewrite Ht4, save_active_other by congruence. apply Hoth1, Hi.
  - rewrite Hterms4, Hterms. unfold save_active. rewrite length_set_term, Hlen1. reflexivity.
  - exists (paging s1). unfold windows_bound, cur_pcb, pcb_at.
    rewrite Hpg4, Hcur4, Hpcb4, Hpcbs4, HTA4, HTS4, HTA, Hpg, Hcur. reflexivity.
Qed.

(** C3. A timer tick after the bootstrap is a context switch to the next
    terminal in round-robin order: the outgoing terminal records the
    interrupted frame, the current process, its PCB and its kernel stack
    pointer; the next terminal's process, PCB and kernel stack pointer
    become current; the user and video windows are rebound for it (so the
    windows reflect the new active terminal); the frame the next terminal
    saved is resumed; no other terminal, no PCB and no pid changes; and the
    interrupt is acknowledged. *)
Theorem PIT_round_robin fs ebp ee s :
  (3 <= pit_counter s)%nat -> length (terminal_arr s) = MAX_TERMINALS ->
  (TA_idx s < MAX_TERMINALS)%nat ->
  let next := rr_next (TA_idx s) in
  let s' := fst (PIT_Handler fs ebp ee s) in
  snd (PIT_Handler fs ebp ee s) = SwtchCtx (saved_ebp (term_at s next)) /\
  TA_idx s' = next /\ TS_idx s' = TS_idx s /\
  currentPID s' = t_currentPID (term_at s next) /\ current_PCB s' = t_currentPCB (term_at s next) /\
  tss_esp0 s' = saved_esp0 (term_at s next) /\
  t_currentPID (term_at s' (TA_idx s)) = currentPID s /\
  t_currentPCB (term_at s' (TA_idx s)) = current_PCB s /\
  saved_esp0 (term_at s' (TA_idx s)) = tss_esp0 s /\ saved_ebp (term_at s' (TA_idx s)) = ebp /\
  (forall i, i <> TA_idx s -> i <> next -> term_at s' i = term_at s i) /\
  term_at s' next = term_at s next /\
  length (terminal_arr s') = length (terminal_arr s) /\
  activeProcesses s' = activeProcesses s /\ pcbs s' = pcbs s /\ pit_counter s' = pit_counter s /\
  windows_bound s' /\ eoi_log s' = 0 :: eoi_log s.
Proof. apply PIT_steady_spec. Qed.

Lemma PIT_Handler_boot fs ebp ee s :
  (pit_counter s < 3)%nat ->
  PIT_Handler fs ebp ee s =
  (let s1 := save_ebp ebp (send_eoi 0 (cli s)) in
   let s' := set_pit_counter (set_active_terminal (pit_counter s) s1) (S (pit_counter s)) in
   let (s2, early) := match execute fs shell_cmd ee s' with
                      | (s'', Ret _) => (s'', None)
                      | (s'', c) => (s'', Some c)
                      end in
   match early with
   | Some c => (s2, c)
   | None =>
       let s3 := set_active_terminal (rr_next (TA_idx s2)) s2 in
       let s4 := k_set_video_mem_page (vidmap_inuse (cur_pcb s3)) s3 in
       (s4, SwtchCtx (saved_ebp (term_at s4 (TA_idx s4))))
   end).
Proof.
  intros Hc. unfold PIT_Handler.
  change (pit_counter (save_ebp ebp (send_eoi 0 (cli s)))) with (pit_counter s).
  rewrite decide_True by exact Hc. reflexivity.
Qed.

(** The entry of [PIT_Handler]: interrupts off, EOI sent, frame saved. *)
Lemma tick_entry ebp s :
  (TA_idx s < length (terminal_arr s))%nat ->
  let s1 := save_ebp ebp (send_eoi 0 (cli s)) in
  TA_idx s1 = TA_idx s /\ TS_idx s1 = TS_idx s /\
  length (terminal_arr s1) = length (terminal_arr s) /\
  saved_ebp (term_at s1 (TA_idx s)) = ebp /\
  (forall i, i <> TA_idx s -> term_at s1 i = term_at s i) /\
  currentPID s1 = currentPID s /\ current_PCB s1 = current_PCB s /\
  activeProcesses s1 = activeProcesses s /\ pcbs s1 = pcbs s /\
  pit_counter s1 = pit_counter s /\ tss_esp0 s1 = tss_esp0 s /\ paging s1 = paging s /\
  eoi_log s1 = 0 :: eoi_log s.
Proof.
  intros Hta s1. destruct (save_ebp_terms ebp (send_eoi 0 (cli s)) Hta) as (H1 & H2 & H3 & H4).
  repeat split; assumption || reflexivity.
Qed.

(** C14. Bootstrap tick [k] (the [k]-th timer interrupt, [k < 3]), when
    pids [0..k-1] are the only ones in use and terminal [k] still holds its
    initial process, makes terminal [k] active and launches a base shell in
    it: the shell gets pid [k], becomes the current process and terminal
    [k]'s owner, records itself as its own parent, and runs. *)
Theorem PIT_bootstrap_tick fs ebp ee s k args img eip :
  exec_image fs shell_cmd = Some (args, img, eip) ->
  Z.of_nat (length img) + PROGRAM_START <= _4MB ->
  pit_counter s = k -> (k < 3)%nat ->
  length (terminal_arr s) = MAX_TERMINALS -> (TA_idx s < MAX_TERMINALS)%nat ->
  activeProcesses s = Z.ones (Z.of_nat k) ->
  (if decide (TA_idx s = k) then currentPID s = k /\ current_PCB s = k
   else t_currentPID (term_at s k) = k /\ t_currentPCB (term_at s k) = k) ->
  let s' := fst (PIT_Handler fs ebp ee s) in
  snd (PIT_Handler fs ebp ee s) = Iret USER_DS (VIRTUAL_USER_BASE_ADDR + _4MB) 0x00000202 USER_CS eip /\
  TA_idx s' = k /\ currentPID s' = k /\ current_PCB s' = k /\
  activeProcesses s' = Z.ones (Z.of_nat (S k)) /\ pit_counter s' = S k /\
  t_currentPID (term_at s' k) = k /\ parent_pid (pcb_at s' k) = k /\
  length (terminal_arr s') = MAX_TERMINALS /\
  (forall i, i <> k -> i <> TA_idx s -> term_at s' i = term_at s i).
Proof.
  intros Himg Hfit Hc Hk Hlen Hta Hact Hown s'. subst s'.
  rewrite PIT_Handler_boot by lia. cbv beta zeta.
  assert (Hta0 : (TA_idx s < length (terminal_arr s))%nat) by (rewrite Hlen; exact Hta).
  destruct (tick_entry ebp s Hta0)
    as (HTA1 & _ & Hlen1 & _ & Hoth1 & Hcur1 & Hpcb1 & Hact1 & _ & _ & _ & _ & _).
  remember (save_ebp ebp (send_eoi 0 (cli s))) as s1 eqn:Es1 in *. clear Es1.
  assert (Hta1' : (TA_idx s1 < length (terminal_arr s1))%nat) by (rewrite HTA1, Hlen1, Hlen; exact Hta).
  destruct (set_active_terminal_spec k s1)
    as (HTA & HTS & Hcur & Hpcb & Hesp & Hpg & Hact2 & Hpcbs & Hterms & Hpit & _ & Heoi).
  rewrite Hc. remember (set_active_terminal k s1) as s2 eqn:Es2 in *. clear Es2.
  destruct (set_pit_counter_same s2 (S k))
    as (HTA3 & _ & Hcur3 & _ & _ & Hterms3 & Hact3 & _ & Hpit3 & _).
  remember (set_pit_counter s2 (S k)) as s3 eqn:Es3 in *. clear Es3.
  rewrite Hact2, Hact1, Hact in Hact3. rewrite HTA in HTA3. rewrite Hterms in Hterms3.
  assert (Hscan : scan_clear (activeProcesses s3) 0 MAX_PROCESSES = Some k)
    by (rewrite Hact3; apply scan_clear_ones; lia).
  assert (Hlen3 : length (terminal_arr s3) = MAX_TERMINALS)
    by (rewrite Hterms3; unfold save_active; rewrite length_set_term, Hlen1; exact Hlen).
  assert (HTA3' : (TA_idx s3 < length (terminal_arr s3))%nat)
    by (rewrite Hlen3, HTA3; unfold MAX_TERMINALS; lia).
  destruct (execute_success fs shell_cmd ee s3 args img eip k Himg Hscan Hfit HTA3')
    as (s4 & Hex & Hact4 & Hcur4 & Hpcb4 & _ & _ & Hp4 & _ & Hown4 & _ & _ & Hoth4 & Hlen4
            & HTA4 & _ & _ & Hpit4 & _ & _).
  rewrite Hex. cbn [fst snd]. rewrite HTA3 in HTA4, Hown4, Hoth4.
  split; [reflexivity|]. split; [exact HTA4|]. split; [exact Hcur4|]. split; [exact Hpcb4|].
  split; [rewrite Hact4, Hact3; apply set_flag_ones|].
  split; [rewrite Hpit4; exact Hpit3|]. split; [exact Hown4|].
  split.
  { rewrite Hp4. cbn [parent_pid]. rewrite Hcur3, Hcur. unfold incoming.
    rewrite HTA1 in Hta1'. destruct (decide (TA_idx s = k)) as [Heq|Hneq].
    - destruct (save_active_self s1) as (Hsp & _); [rewrite HTA1; exact Hta1'|].
      rewrite HTA1, Heq in Hsp. rewrite Hsp, Hcur1. apply (proj1 Hown).
    - rewrite save_active_other, Hoth1 by congruence. apply (proj1 Hown). }
  split; [rewrite Hlen4; exact Hlen3|].
  intros i Hi Hi'. rewrite Hoth4 by exact Hi. unfold term_at at 1. rewrite Hterms3.
  fold (term_at (save_active s1) i). rewrite save_active_other by congruence. apply Hoth1, Hi'.
Qed.

Lemma PIT_bootstrap_tick_witness :
  snd (PIT_Handler sample_fs 5000 4000 (boot_state 0x800000)) =
    Iret USER_DS (VIRTUAL_USER_BASE_ADDR + _4MB) 0x00000202 USER_CS shell_entry /\
  currentPID (fst (PIT_Handler sample_fs 5000 4000 (boot_state 0x800000))) = 0%nat /\
  activeProcesses (fst (PIT_Handler sample_fs 5000 4000 (boot_state 0x800000))) = 1.
Proof.
  assert (Himg : exec_image sample_fs shell_cmd = Some ([], shell_image, shell_entry))
    by (vm_compute; reflexivity).
  destruct (PIT_bootstrap_tick sample_fs 5000 4000 (boot_state 0x800000) 0 [] shell_image shell_entry
              Himg ltac:(concrete) ltac:(concrete) ltac:(concrete) ltac:(concrete) ltac:(concrete)
              ltac:(concrete) ltac:(concrete))
    as (Hc & _ & Hcur & _ & Hact & _).
  split; [exact Hc|]. split; [exact Hcur|]. rewrite Hact. reflexivity.
Defined.

Lemma PIT_round_robin_witness :
  snd (PIT_Handler sample_fs 6000 0 booted) = SwtchCtx (saved_ebp (term_at booted 0)) /\
  TA_idx (fst (PIT_Handler sample_fs 6000 0 booted)) = 0%nat /\
  currentPID (fst (PIT_Handler sample_fs 6000 0 booted)) = t_currentPID (term_at booted 0).
Proof.
  destruct (PIT_round_robin sample_fs 6000 0 booted ltac:(concrete) ltac:(concrete) ltac:(concrete))
    as (Hc & HTA & Hcur & _).
  assert (Hnext : rr_next (TA_idx booted) = 0%nat) by concrete.
  cbv zeta in Hc, HTA, Hcur. rewrite Hnext in *. auto.
Defined.

Lemma init_PIT_pic SLAVE_ID p s :
  fst (init_PIT SLAVE_ID p s) = fst (enable_irq SLAVE_ID PIT_IRQ p (set_pit_counter (cli s) 0)).
Proof. unfold init_PIT. destruct (enable_irq _ _ _ _). reflexivity. Qed.

Lemma init_Keyboard_pic SLAVE_ID p s :
  fst (init_Keyboard SLAVE_ID p s) = fst (enable_irq SLAVE_ID KBD_IRQ p (cli s)).
Proof. unfold init_Keyboard. destruct (enable_irq _ _ _ _). reflexivity. Qed.

(** C22. The interrupt lines at boot.  [i8259_init] ends by writing
    0xFF to both data ports; the comment on that write (i8259.c:40) says
    it enables all IRQs, but an OCW1 bit set masks its line, so when
    [i8259_init] returns all sixteen lines are masked.  Only the drivers'
    [enable_irq] calls unmask lines: once [init_PIT], [init_Keyboard] and
    [init_RTC] have run, exactly IRQ 0 (PIT), IRQ 1 (keyboard), IRQ 8
    (RTC) and the cascade line [SLAVE_ID] are unmasked, and interrupts
    are enabled. *)
Theorem boot_unmasked ICW1 ICW2_MASTER ICW2_SLAVE ICW3_MASTER ICW3_SLAVE ICW4 SLAVE_ID p s i :
  0 <= SLAVE_ID < 8 -> (i < 16)%nat ->
  let '(p1, s1) := i8259_init ICW1 ICW2_MASTER ICW2_SLAVE ICW3_MASTER ICW3_SLAVE ICW4 p s in
  let '(p2, s2) := init_PIT SLAVE_ID p1 s1 in
  let '(p3, s3) := init_Keyboard SLAVE_ID p2 s2 in
  let '(p4, s4) := init_RTC SLAVE_ID p3 s3 in
  irq_masked p1 i = true /\
  irq_masked p4 i = negb ((Z.of_nat i =? 0) || (Z.of_nat i =? 1) || (Z.of_nat i =? 8) || (SLAVE_ID =? Z.of_nat i)) /\
  intr_enabled s4 = true.
Proof.
  intros Hs Hi.
  destruct (i8259_init _ _ _ _ _ _ p s) as [p1 s1] eqn:E1.
  destruct (init_PIT SLAVE_ID p1 s1) as [p2 s2] eqn:E2.
  destruct (init_Keyboard SLAVE_ID p2 s2) as [p3 s3] eqn:E3.
  destruct (init_RTC SLAVE_ID p3 s3) as [p4 s4] eqn:E4.
  split; [change p1 with (fst (p1, s1)); rewrite <- E1; by apply i8259_init_masked|].
  split; [|change s4 with (snd (p4, s4)); rewrite <- E4; reflexivity].
  change p4 with (fst (p4, s4)). rewrite <- E4. unfold init_RTC.
  rewrite enable_irq_masked by (unfold RTC_IRQ; lia).
  change p3 with (fst (p3, s3)). rewrite <- E3, init_Keyboard_pic.
  rewrite enable_irq_masked by (unfold KBD_IRQ; lia).
  change p2 with (fst (p2, s2)). rewrite <- E2, init_PIT_pic.
  rewrite enable_irq_masked by (unfold PIT_IRQ; lia).
  change p1 with (fst (p1, s1)). rewrite <- E1, i8259_init_masked by exact Hi.
  unfold RTC_IRQ, KBD_IRQ, PIT_IRQ. pic_bits.
Qed.

Lemma boot_unmasked_witness :
  let '(p1, s1) := i8259_init 0x11 0x20 0x28 0x04 0x02 0x01 pic_reset zero_kstate in
  let '(p2, s2) := init_PIT 2 p1 s1 in
  let '(p3, s3) := init_Keyboard 2 p2 s2 in
  let '(p4, s4) := init_RTC 2 p3 s3 in
  irq_masked p1 9 = true /\
  irq_masked p4 9 = negb ((Z.of_nat 9 =? 0) || (Z.of_nat 9 =? 1) || (Z.of_nat 9 =? 8) || (2 =? Z.of_nat 9)) /\
  intr_enabled s4 = true.
Proof. apply (boot_unmasked 0x11 0x20 0x28 0x04 0x02 0x01 2 pic_reset zero_kstate 9); lia. Defined.
