(* ===== verification/Processes.v ===== *)
(** * Processes: the process table across the lifecycle, the scheduler
      and the exception handlers (syscall.c, process.c, pit.c, intr.c)

    The process globals of process.h ([activeProcesses], [currentPID],
    [current_PCB]), the PCBs, [tss.esp0] and the records of terminal.c
    form a forest: the three base shells are its roots, every other
    process was launched by the process that was running at the time,
    which then waits in [execute] until its child halts, and the process
    each terminal runs is a leaf.  [proc_inv] states what that means for
    the globals, and [proc_step] is the kernel as a transition relation on
    them: a successful or failing [execute], the [halt] of a process that
    is not a base shell (by the system call or by a halting exception),
    and a timer tick after the bootstrap.  The invariant holds along every
    run of [proc_step]. *)

From S2P Require Import Prelude Paging Fsys State Terminal Lifecycle Exceptions Scheduler.

(** [CHECK_FLAG(activeProcesses, q)] *)
Definition active (s : kstate) (q : nat) : bool := CHECK_FLAG (activeProcesses s) q.

(** No live process that is not a base shell has [p] as its parent. *)
Definition leaf (s : kstate) (p : nat) : Prop :=
  Forall (fun q => active s q = true -> (MAX_TERMINALS <= q)%nat -> parent_pid (pcb_at s q) <> p)
    (seq 0 MAX_PROCESSES).

(** What a live process that is not a base shell records about its
    parent: its own pid, a live parent other than itself, and the
    parent's kernel stack top. *)
Definition child_ok (s : kstate) (q : nat) : Prop :=
  active s q = true -> (MAX_TERMINALS <= q)%nat ->
  id (pcb_at s q) = q /\ parent_pid (pcb_at s q) <> q /\
  active s (parent_pid (pcb_at s q)) = true /\
  parent_esp0 (pcb_at s q) = kernel_stack_top (parent_pid (pcb_at s q)).

(** A process has at most one live child: its [execute] blocks until the
    child halts. *)
Definition one_child (s : kstate) (q r : nat) : Prop :=
  active s q = true -> active s r = true -> (MAX_TERMINALS <= q)%nat -> (MAX_TERMINALS <= r)%nat ->
  parent_pid (pcb_at s q) = parent_pid (pcb_at s r) -> q = r.

(** The process terminal [i] runs: the globals for the active terminal,
    its saved record for the others. *)
Definition cur_of (s : kstate) (i : nat) : nat :=
  if decide (i = TA_idx s) then currentPID s else t_currentPID (term_at s i).

(** A terminal in the background saved a live leaf, with its PCB and its
    kernel stack top. *)
Definition term_ok (s : kstate) (i : nat) : Prop :=
  i <> TA_idx s ->
  active s (t_currentPID (term_at s i)) = true /\
  t_currentPCB (term_at s i) = t_currentPID (term_at s i) /\
  saved_esp0 (term_at s i) = kernel_stack_top (t_currentPID (term_at s i)) /\
  leaf s (t_currentPID (term_at s i)).

Definition proc_inv (s : kstate) : Prop :=
  0 <= activeProcesses s < 2 ^ Z.of_nat MAX_PROCESSES /\
  current_PCB s = currentPID s /\ active s (currentPID s) = true /\
  tss_esp0 s = kernel_stack_top (currentPID s) /\
  (TA_idx s < MAX_TERMINALS)%nat /\ length (terminal_arr s) = MAX_TERMINALS /\
  leaf s (currentPID s) /\
  Forall (child_ok s) (seq 0 MAX_PROCESSES) /\
  Forall (fun q => Forall (one_child s q) (seq 0 MAX_PROCESSES)) (seq 0 MAX_PROCESSES) /\
  Forall (term_ok s) (seq 0 MAX_TERMINALS) /\
  Forall (fun i => Forall (fun j => cur_of s i = cur_of s j -> i = j) (seq 0 MAX_TERMINALS))
    (seq 0 MAX_TERMINALS).

#[global] Instance leaf_dec s p : Decision (leaf s p).
Proof. unfold leaf; apply _. Defined.
#[global] Instance proc_inv_dec s : Decision (proc_inv s).
Proof. unfold proc_inv, child_ok, one_child, term_ok; apply _. Defined.

(** The invariant with its bounded quantifiers written as [forall]. *)
Definition leaf_all (s : kstate) (p : nat) : Prop :=
  forall q, active s q = true -> (MAX_TERMINALS <= q)%nat -> parent_pid (pcb_at s q) <> p.

Definition cur_distinct (s : kstate) : Prop :=
  forall i j, (i < MAX_TERMINALS)%nat -> (j < MAX_TERMINALS)%nat -> cur_of s i = cur_of s j -> i = j.

Record proc_inv_all (s : kstate) : Prop := {
  pi_bound : 0 <= activeProcesses s < 2 ^ Z.of_nat MAX_PROCESSES;
  pi_pcb : current_PCB s = currentPID s;
  pi_active : active s (currentPID s) = true;
  pi_esp0 : tss_esp0 s = kernel_stack_top (currentPID s);
  pi_ta : (TA_idx s < MAX_TERMINALS)%nat;
  pi_len : length (terminal_arr s) = MAX_TERMINALS;
  pi_leaf : leaf_all s (currentPID s);
  pi_child : forall q, child_ok s q;
  pi_one : forall q r, one_child s q r;
  pi_term : forall i, (i < MAX_TERMINALS)%nat -> i <> TA_idx s ->
    active s (t_currentPID (term_at s i)) = true /\
    t_currentPCB (term_at s i) = t_currentPID (term_at s i) /\
    saved_esp0 (term_at s i) = kernel_stack_top (t_currentPID (term_at s i)) /\
    leaf_all s (t_currentPID (term_at s i));
  pi_distinct : cur_distinct s }.

(** The part of the state the invariant reads. *)
Definition proc_view (s : kstate) :=
  (activeProcesses s, currentPID s, current_PCB s, pcbs s, tss_esp0 s, TA_idx s, terminal_arr s).

(** The transfers that end each step. *)
Definition is_iret (c : ctl) : bool := match c with Iret _ _ _ _ _ => true | _ => false end.
Definition is_ret (c : ctl) : bool := match c with Ret _ => true | _ => false end.
Definition is_halt (c : ctl) : bool := match c with HaltAsm _ _ => true | _ => false end.

Section Steps.

Context (fs : fs_image).

(** The kernel as a transition relation on its state. *)
Inductive proc_step : kstate -> kstate -> Prop :=
| step_execute cmd ebp s :
    is_iret (snd (execute fs cmd ebp s)) = true -> proc_step s (fst (execute fs cmd ebp s))
| step_execute_fail cmd ebp s :
    is_ret (snd (execute fs cmd ebp s)) = true -> proc_step s (fst (execute fs cmd ebp s))
| step_halt status eebp s :
    (MAX_TERMINALS <= currentPID s)%nat -> is_halt (snd (halt fs status eebp s)) = true ->
    proc_step s (fst (halt fs status eebp s))
| step_exception e ebp s :
    (MAX_TERMINALS <= currentPID s)%nat -> is_halt (snd (exception_handler fs ebp e s)) = true ->
    proc_step s (fst (exception_handler fs ebp e s))
| step_tick ebp ee s :
    (3 <= pit_counter s)%nat -> proc_step s (fst (PIT_Handler fs ebp ee s)).

End Steps.

(** ** The steps on the process globals *)

Lemma proc_inv_view s s' : proc_view s' = proc_view s -> proc_inv s -> proc_inv s'.
Proof.
  unfold proc_view, proc_inv, term_ok, leaf, child_ok, one_child, cur_of, term_at, active, pcb_at; intros H.
  injection H as Ha Hc Hp Hm He Ht Hl. by rewrite Ha, Hc, Hp, Hm, He, Ht, Hl.
Qed.

(** A failing [execute] leaves the process globals alone. *)
Lemma execute_Ret_view fs cmd ebp s :
  is_ret (snd (execute fs cmd ebp s)) = true -> proc_view (fst (execute fs cmd ebp s)) = proc_view s.
Proof.
  unfold execute; intros H; repeat case_match; simplify_eq/=; try discriminate; try reflexivity.
  match goal with Hs : store_virtual _ _ _ = Some _ |- _ =>
    destruct (store_virtual_Some _ _ _ _ Hs) as (? & _ & ->) end.
  reflexivity.
Qed.

(** A successful [execute] takes the first free pid and records the
    running process as its parent; only the active terminal's record is
    rewritten. *)
Lemma execute_Iret_facts fs cmd ebp s :
  is_iret (snd (execute fs cmd ebp s)) = true ->
  let s' := fst (execute fs cmd ebp s) in
  exists pid, scan_clear (activeProcesses s) 0 MAX_PROCESSES = Some pid /\
    activeProcesses s' = set_flag (activeProcesses s) pid /\
    currentPID s' = pid /\ current_PCB s' = pid /\ tss_esp0 s' = kernel_stack_top pid /\
    id (pcb_at s' pid) = pid /\ parent_pid (pcb_at s' pid) = currentPID s /\
    parent_esp0 (pcb_at s' pid) = tss_esp0 s /\
    (forall q, q <> pid -> pcb_at s' q = pcb_at s q) /\
    TA_idx s' = TA_idx s /\ length (terminal_arr s') = length (terminal_arr s) /\
    (forall i, i <> TA_idx s -> term_at s' i = term_at s i).
Proof.
  unfold execute; intros H; repeat case_match; simplify_eq/=; try discriminate.
  match goal with Hs : store_virtual _ _ _ = Some _ |- _ =>
    destruct (store_virtual_Some _ _ _ _ Hs) as (? & _ & ->) end.
  eexists; split; [eassumption|].
  unfold publish_terminal, set_term, pcb_at; cbn; rewrite length_insert, lookup_insert_eq; cbn.
  repeat split; try reflexivity.
  - intros q Hq; by rewrite lookup_insert_ne by congruence.
  - intros i Hi; apply term_at_set_term_ne, Hi.
Qed.

(** The [halt] of a process that is not a base shell hands the CPU back to
    its parent. *)
Lemma halt_HaltAsm_facts fs status eebp s :
  (MAX_TERMINALS <= currentPID s)%nat -> is_halt (snd (halt fs status eebp s)) = true ->
  let s' := fst (halt fs status eebp s) in
  let p := cur_pcb s in
  activeProcesses s' = clear_flag (activeProcesses s) (id p) /\
  currentPID s' = parent_pid p /\ current_PCB s' = parent_pid p /\
  tss_esp0 s' = parent_esp0 p /\ pcbs s' = pcbs s /\
  TA_idx s' = TA_idx s /\ length (terminal_arr s') = length (terminal_arr s) /\
  (forall i, i <> TA_idx s -> term_at s' i = term_at s i).
Proof.
  intros Hb; unfold halt; cbn [currentPID cli set_if]; rewrite decide_False by lia.
  unfold restore_parent; change (cur_pcb (cli s)) with (cur_pcb s).
  destruct (close_all (cur_pcb s) 2 6); [|discriminate].
  unfold publish_terminal; case_decide; cbn; intros _;
    rewrite ?length_insert; repeat split; intros i Hi; apply term_at_set_term_ne, Hi.
Qed.

(** A halting exception is [halt(0)] of the running process with
    [exception_flag] set; the other handlers spin. *)
Lemma exception_HaltAsm fs ebp e s :
  is_halt (snd (exception_handler fs ebp e s)) = true ->
  let s0 := sti (set_exception_flag (cli s) 1) in
  exception_handler fs ebp e s = halt fs 0 ebp s0 /\ proc_view s0 = proc_view s /\
  currentPID s0 = currentPID s.
Proof.
  rewrite exception_handler_halts; destruct (halts_program e); [|discriminate].
  intros _; repeat split.
Qed.

(** ** The invariant, quantified over every pid *)

Lemma active_lt s q :
  0 <= activeProcesses s < 2 ^ Z.of_nat MAX_PROCESSES -> active s q = true -> (q < MAX_PROCESSES)%nat.
Proof.
  unfold active, CHECK_FLAG; intros Hb Hq.
  destruct (Nat.lt_ge_cases q MAX_PROCESSES) as [|Hge]; [done|].
  rewrite <- (Z.mod_small (activeProcesses s) (2 ^ Z.of_nat MAX_PROCESSES)) in Hq by lia.
  rewrite Z.mod_pow2_bits_high in Hq by lia. discriminate.
Qed.

Lemma leaf_iff s p :
  0 <= activeProcesses s < 2 ^ Z.of_nat MAX_PROCESSES -> leaf s p <-> leaf_all s p.
Proof.
  unfold leaf, leaf_all; rewrite Forall_seq; intros Hb; split; intros H q; [|intros _; apply H].
  intros Hq; apply H; [|done]. pose proof (active_lt s q Hb Hq); lia.
Qed.

Lemma Forall_seq_2 (P : nat -> nat -> Prop) n :
  Forall (fun i => Forall (P i) (seq 0 n)) (seq 0 n) <-> (forall i j, (i < n)%nat -> (j < n)%nat -> P i j).
Proof.
  rewrite Forall_seq; split; intros H i.
  - intros j Hi Hj; pose proof (H i ltac:(lia)) as Hi'; rewrite Forall_seq in Hi'; apply Hi'; lia.
  - intros Hi; rewrite Forall_seq; intros j Hj; apply H; lia.
Qed.

Lemma proc_inv_all_iff s : proc_inv s <-> proc_inv_all s.
Proof.
  unfold proc_inv, term_ok; rewrite !Forall_seq_2, !Forall_seq. split.
  - intros (Hb & Hc & Ha & Ht & Hta & Hl & Hlf & Hch & Hone & Htm & Hd).
    rewrite leaf_iff in Hlf by done. constructor; try done.
    + intros q Hq Hq3; apply Hch; [|done|done]. pose proof (active_lt s q Hb Hq); lia.
    + intros q r Hq Hr Hq3 Hr3; pose proof (active_lt s q Hb Hq); pose proof (active_lt s r Hb Hr).
      by apply Hone.
    + intros i Hi Hne; destruct (Htm i ltac:(lia) Hne) as (? & ? & ? & Hlf'). rewrite leaf_iff in Hlf' by done.
      done.
  - intros []. rewrite leaf_iff by done. do 7 (split; [done|]). split; [intros q _; apply pi_child0|].
    split; [intros q r _ _; apply pi_one0|]. split; [|done].
    intros i Hi Hne; rewrite leaf_iff by done. apply pi_term0; [lia|done].
Qed.

Lemma active_set_flag s s' pid q :
  activeProcesses s' = set_flag (activeProcesses s) pid ->
  active s' q = active s q || bool_decide (pid = q).
Proof. unfold active; intros ->; apply CHECK_FLAG_set_flag. Qed.

Lemma active_clear_flag s s' pid q :
  activeProcesses s' = clear_flag (activeProcesses s) pid ->
  active s' q = active s q && negb (bool_decide (pid = q)).
Proof. unfold active; intros ->; apply CHECK_FLAG_clear_flag. Qed.

Lemma cur_of_TA s s' : TA_idx s' = TA_idx s -> cur_of s' (TA_idx s) = currentPID s'.
Proof. unfold cur_of; intros ->; by rewrite decide_True. Qed.

Lemma cur_of_bg s i : i <> TA_idx s -> cur_of s i = t_currentPID (term_at s i).
Proof. unfold cur_of; intros; by rewrite decide_False. Qed.

(** The process each terminal runs is live and a leaf. *)
Lemma cur_of_live s i :
  proc_inv_all s -> (i < MAX_TERMINALS)%nat -> active s (cur_of s i) = true /\ leaf_all s (cur_of s i).
Proof.
  intros Hi Hlt; unfold cur_of; case_decide as E; [split; [apply Hi|apply Hi]|].
  by destruct (pi_term _ Hi i Hlt E) as (? & _ & _ & ?).
Qed.

(** The running process is not what a background terminal runs. *)
Lemma cur_of_bg_ne s i :
  proc_inv_all s -> (i < MAX_TERMINALS)%nat -> i <> TA_idx s -> t_currentPID (term_at s i) <> currentPID s.
Proof.
  intros Hi Hlt Hne E; apply Hne, (pi_distinct _ Hi i (TA_idx s) Hlt (pi_ta _ Hi)).
  by rewrite (cur_of_TA s s), cur_of_bg.
Qed.

(** Putting on the active terminal a process that no background terminal
    runs keeps the terminals' processes distinct. *)
Lemma cur_distinct_replace s s' :
  TA_idx s' = TA_idx s -> (forall i, i <> TA_idx s -> term_at s' i = term_at s i) ->
  (forall i, (i < MAX_TERMINALS)%nat -> i <> TA_idx s -> currentPID s' <> cur_of s i) ->
  cur_distinct s -> cur_distinct s'.
Proof.
  intros Hta Ht Hn Hd i j Hi Hj.
  assert (Hc : forall k, k <> TA_idx s -> cur_of s' k = cur_of s k)
    by (intros k Hk; rewrite !cur_of_bg, ?Ht by congruence; done).
  destruct (decide (i = TA_idx s)) as [->|Hit], (decide (j = TA_idx s)) as [->|Hjt]; try done.
  - rewrite cur_of_TA, Hc by done. intros E; by destruct (Hn j Hj Hjt).
  - rewrite cur_of_TA, Hc by done. intros E; by destruct (Hn i Hi Hit).
  - rewrite !Hc by done; by apply Hd.
Qed.

(** ** Preservation *)

Lemma proc_inv_execute fs cmd ebp s :
  proc_inv_all s -> is_iret (snd (execute fs cmd ebp s)) = true -> proc_inv_all (fst (execute fs cmd ebp s)).
Proof.
  intros Hi H.
  destruct (execute_Iret_facts fs cmd ebp s H) as
    (pid & Hscan & Hact & Hcur & Hpcb & Hesp & Hid & Hpar & Hpesp & Hother & Hta' & Hlen' & Hterm).
  set (s' := fst (execute fs cmd ebp s)) in *.
  destruct (scan_clear_Some _ _ _ _ Hscan) as (Hlt & Hfree & _).
  assert (Hact' : forall q, active s' q = active s q || bool_decide (pid = q))
    by (intros; by apply active_set_flag).
  assert (Hnp : forall q, active s q = true -> q <> pid) by (intros q Hq ->; unfold active in Hq; congruence).
  assert (Hold : forall q, active s' q = true -> q <> pid -> active s q = true /\ pcb_at s' q = pcb_at s q).
  { intros q Hq Hqp; rewrite Hact', bool_decide_false, orb_false_r in Hq by congruence; auto. }
  pose proof (pi_active _ Hi) as Ha.
  constructor.
  - rewrite Hact; apply set_flag_bound; [apply Hi | lia].
  - congruence.
  - rewrite Hact', Hcur; by case_bool_decide; rewrite ?orb_true_r.
  - congruence.
  - rewrite Hta'; apply Hi.
  - rewrite Hlen'; apply Hi.
  - rewrite Hcur. intros q Hq Hq3; destruct (decide (q = pid)) as [->|Hqp].
    + rewrite Hpar; by apply Hnp.
    + destruct (Hold q Hq Hqp) as [Hq' ->]. destruct (pi_child _ Hi q Hq' Hq3) as (_ & _ & Hpa & _).
      by apply Hnp.
  - intros q Hq Hq3; destruct (decide (q = pid)) as [->|Hqp].
    + rewrite Hid, Hpar, Hpesp, Hact', Ha, (pi_esp0 _ Hi). repeat split; auto.
    + destruct (Hold q Hq Hqp) as [Hq' ->]. destruct (pi_child _ Hi q Hq' Hq3) as (? & ? & Hpa & ?).
      rewrite Hact', Hpa; repeat split; auto.
  - intros q r Hq Hr Hq3 Hr3 Hpp.
    destruct (decide (q = pid)) as [->|Hqp], (decide (r = pid)) as [->|Hrp]; auto.
    + destruct (Hold r Hr Hrp) as [Hr' Hpr]. rewrite Hpar, Hpr in Hpp.
      exfalso; apply (pi_leaf _ Hi r Hr' Hr3); congruence.
    + destruct (Hold q Hq Hqp) as [Hq' Hpq]. rewrite Hpar, Hpq in Hpp.
      exfalso; apply (pi_leaf _ Hi q Hq' Hq3); congruence.
    + destruct (Hold q Hq Hqp) as [Hq' Hpq], (Hold r Hr Hrp) as [Hr' Hpr]. rewrite Hpq, Hpr in Hpp.
      by apply (pi_one _ Hi).
  - intros i Hi3 Hne; rewrite Hta' in Hne; rewrite Hterm by done.
    destruct (pi_term _ Hi i Hi3 Hne) as (Hai & Hp & He & Hli).
    rewrite Hact', Hai; repeat split; auto.
    intros q Hq Hq3; destruct (decide (q = pid)) as [->|Hqp].
    + rewrite Hpar; apply not_eq_sym, (cur_of_bg_ne s i Hi Hi3 Hne).
    + destruct (Hold q Hq Hqp) as [Hq' ->]; by apply Hli.
  - apply (cur_distinct_replace s); [done|done| |apply Hi].
    intros i Hi3 Hne; rewrite Hcur; apply not_eq_sym, Hnp. by apply cur_of_live.
Qed.

Lemma proc_inv_halt fs status eebp s :
  proc_inv_all s -> (MAX_TERMINALS <= currentPID s)%nat -> is_halt (snd (halt fs status eebp s)) = true ->
  proc_inv_all (fst (halt fs status eebp s)).
Proof.
  intros Hi H3 H.
  destruct (halt_HaltAsm_facts fs status eebp s H3 H)
    as (Hact & Hcur & Hpcb & Hesp & Hpcbs & Hta' & Hlen' & Hterm).
  set (s' := fst (halt fs status eebp s)) in *.
  assert (Hpcb_at : forall q, pcb_at s' q = pcb_at s q) by (intros; unfold pcb_at; by rewrite Hpcbs).
  unfold cur_pcb in *; rewrite (pi_pcb _ Hi) in *.
  pose proof (pi_active _ Hi) as Ha.
  destruct (pi_child _ Hi _ Ha H3) as (Hid & Hpq & Hpa & Hpe). rewrite Hid in Hact.
  assert (Hact' : forall q, active s' q = active s q && negb (bool_decide (currentPID s = q)))
    by (intros; by apply active_clear_flag).
  assert (Hold : forall q, active s' q = true -> active s q = true /\ q <> currentPID s).
  { intros q Hq; rewrite Hact' in Hq; apply andb_prop in Hq as [Hq Hn].
    apply negb_true_iff, bool_decide_eq_false_1 in Hn; auto. }
  assert (Hlive : forall q, active s q = true -> q <> currentPID s -> active s' q = true)
    by (intros q Hq Hn; by rewrite Hact', Hq, bool_decide_false).
  constructor.
  - rewrite Hact; apply clear_flag_bound, Hi.
  - congruence.
  - rewrite Hcur; by apply Hlive.
  - by rewrite Hesp, Hcur.
  - rewrite Hta'; apply Hi.
  - rewrite Hlen'; apply Hi.
  - rewrite Hcur; intros q Hq Hq3 E; rewrite Hpcb_at in E. destruct (Hold q Hq) as [Hq' Hqc].
    by apply Hqc, (pi_one _ Hi q (currentPID s) Hq' Ha Hq3 H3).
  - intros q Hq Hq3; destruct (Hold q Hq) as [Hq' Hqc]; rewrite Hpcb_at.
    destruct (pi_child _ Hi q Hq' Hq3) as (? & ? & Hpa' & ?). repeat split; auto.
    apply Hlive; [done|]. by apply (pi_leaf _ Hi q Hq' Hq3).
  - intros q r Hq Hr Hq3 Hr3; rewrite !Hpcb_at. destruct (Hold q Hq), (Hold r Hr). by apply (pi_one _ Hi).
  - intros i Hi3 Hne; rewrite Hta' in Hne; rewrite Hterm by done.
    destruct (pi_term _ Hi i Hi3 Hne) as (Hai & Hp & He & Hli). repeat split; auto.
    + apply Hlive; [done|]. apply (cur_of_bg_ne s i Hi Hi3 Hne).
    + intros q Hq Hq3; rewrite Hpcb_at. destruct (Hold q Hq). by apply Hli.
  - apply (cur_distinct_replace s); [done|done| |apply Hi].
    intros i Hi3 Hne; rewrite Hcur, cur_of_bg by done.
    destruct (pi_term _ Hi i Hi3 Hne) as (_ & _ & _ & Hli). by apply (Hli _ Ha H3).
Qed.

Lemma proc_inv_tick fs ebp ee s :
  proc_inv_all s -> (3 <= pit_counter s)%nat -> proc_inv_all (fst (PIT_Handler fs ebp ee s)).
Proof.
  intros Hi Hc.
  destruct (PIT_steady_spec fs ebp ee s Hc (pi_len _ Hi) (pi_ta _ Hi)) as
    (_ & HTA & _ & Hcur & Hpcb & Hesp & Hoc & Hop & Hoe & _ & Hoth & Hnx & Hlen & Hact & Hpcbs & _).
  set (next := rr_next (TA_idx s)) in *. set (s' := fst (PIT_Handler fs ebp ee s)) in *.
  assert (Hne : next <> TA_idx s) by apply rr_next_ne, Hi.
  assert (Hnl : (next < MAX_TERMINALS)%nat) by apply rr_next_lt.
  assert (Ha : forall q, active s' q = active s q) by (intros; unfold active; by rewrite Hact).
  assert (Hp : forall q, pcb_at s' q = pcb_at s q) by (intros; unfold pcb_at; by rewrite Hpcbs).
  assert (Hleaf : forall x, leaf_all s x -> leaf_all s' x)
    by (intros x Hx q; rewrite Ha, Hp; apply Hx).
  assert (Hcur_of : forall i, cur_of s' i = cur_of s i).
  { intros i; unfold cur_of; rewrite HTA. case_decide as E1; case_decide as E2.
    - congruence.
    - by rewrite Hcur, E1.
    - by rewrite E2, Hoc.
    - by rewrite Hoth. }
  destruct (pi_term _ Hi next Hnl Hne) as (Han & Hpn & Hen & Hln).
  constructor.
  - rewrite Hact; apply Hi.
  - by rewrite Hpcb, Hcur.
  - by rewrite Ha, Hcur.
  - by rewrite Hesp, Hcur.
  - by rewrite HTA.
  - rewrite Hlen; apply Hi.
  - rewrite Hcur; by apply Hleaf.
  - intros q; unfold child_ok; rewrite !Hp, !Ha; apply Hi.
  - intros q r; unfold one_child; rewrite !Hp, !Ha; apply Hi.
  - intros i Hil Hi'; rewrite HTA in Hi'; rewrite Ha.
    destruct (decide (i = TA_idx s)) as [->|Hit].
    + rewrite Hoc, Hop, Hoe, (pi_pcb _ Hi), (pi_esp0 _ Hi). repeat split; [apply Hi|]. apply Hleaf, Hi.
    + rewrite Hoth by done. destruct (pi_term _ Hi i Hil Hit) as (? & ? & ? & ?). repeat split; auto.
  - intros i j Hil Hjl; rewrite !Hcur_of; by apply Hi.
Qed.

Lemma proc_inv_step fs s s' : proc_inv s -> proc_step fs s s' -> proc_inv s'.
Proof.
  intros Hi Hs; destruct Hs as [cmd ebp s H | cmd ebp s H | status eebp s H3 H | e ebp s H3 H | ebp ee s Hc].
  - rewrite proc_inv_all_iff in *; by apply proc_inv_execute.
  - apply (proc_inv_view s); [by apply execute_Ret_view | done].
  - rewrite proc_inv_all_iff in *; by apply proc_inv_halt.
  - destruct (exception_HaltAsm fs ebp e s H) as (He & Hv & Hc). rewrite He in *.
    rewrite <- Hc in H3. pose proof (proc_inv_view s _ Hv Hi) as Hi0.
    rewrite proc_inv_all_iff in *; by apply proc_inv_halt.
  - rewrite proc_inv_all_iff in *; by apply proc_inv_tick.
Qed.

(** C9. The process table stays a forest along every run of the kernel
    (a successful or failing [execute], the [halt] of a process that is
    not a base shell by the system call or by a halting exception, a timer
    tick after the bootstrap) from a state where it holds: the pid bitmap
    keeps to its [MAX_PROCESSES] bits; the running process is live, is its
    own [current_PCB], owns [tss.esp0] and is a leaf; every live process
    that is not a base shell has a PCB with its own pid, a live parent
    other than itself and the parent's kernel stack top; no process has
    two live children; every background terminal saved a live leaf with
    its PCB and kernel stack top; and the three terminals run three
    different processes. *)
Theorem proc_inv_reachable fs s s' : proc_inv s -> rtc (proc_step fs) s s' -> proc_inv s'.
Proof. intros Hi Hr; induction Hr; eauto using proc_inv_step. Qed.

(** After the bootstrap, terminal 2's shell launches a program; three
    ticks come back to it; it page-faults and is halted. *)
Lemma proc_inv_reachable_witness :
  let s1 := fst (execute sample_fs shell_cmd 0x7000 booted) in
  let s2 := fst (PIT_Handler sample_fs 0x5100 0 s1) in
  let s3 := fst (PIT_Handler sample_fs 0x5200 0 s2) in
  let s4 := fst (PIT_Handler sample_fs 0x5300 0 s3) in
  let s5 := fst (exception_handler sample_fs 0x6000 Page_Fault s4) in
  proc_inv booted /\ rtc (proc_step sample_fs) booted s5 /\ proc_inv s5.
Proof.
  cbv zeta.
  assert (H0 : proc_inv booted)
    by (apply (@bool_decide_eq_true_1 (proc_inv booted) _); vm_compute; reflexivity).
  set (s1 := fst (execute sample_fs shell_cmd 0x7000 booted)).
  set (s2 := fst (PIT_Handler sample_fs 0x5100 0 s1)).
  set (s3 := fst (PIT_Handler sample_fs 0x5200 0 s2)).
  set (s4 := fst (PIT_Handler sample_fs 0x5300 0 s3)).
  assert (Hr : rtc (proc_step sample_fs) booted (fst (exception_handler sample_fs 0x6000 Page_Fault s4))).
  { eapply rtc_l; [apply (step_execute sample_fs shell_cmd 0x7000); vm_compute; reflexivity|].
    eapply rtc_l; [apply (step_tick sample_fs 0x5100 0 s1); vm_compute; lia|].
    eapply rtc_l; [apply (step_tick sample_fs 0x5200 0 s2); vm_compute; lia|].
    eapply rtc_l; [apply (step_tick sample_fs 0x5300 0 s3); vm_compute; lia|].
    eapply rtc_l; [apply (step_exception sample_fs Page_Fault 0x6000 s4); vm_compute; [lia | reflexivity]|].
    apply rtc_refl. }
  split; [exact H0|]. split; [exact Hr|]. exact (proc_inv_reachable _ _ _ H0 Hr).
Defined.
