(* ===== verification/Descriptors.v ===== *)
(** * Descriptors: the GDT segment descriptor, the register-save macros and
      [SET_IDT_ENTRY] (x86_desc.h, asm_wrapper.h)

    [seg_desc_t] is the packed bit-field struct of a GDT entry; GCC lays its
    fields out from the least significant bit of [val[0]] and [val[1]],
    which [pack] writes out once for any list of (value, width) fields.
    [SET_LDT_PARAMS] and [SET_TSS_PARAMS] store a base address and a limit
    into the five fields that hold them, each truncated to its width; the
    processor reassembles base and limit from the two words ([seg_decode]).
    [SAVE_REG] and [RESTORE_REG] push and pop the eleven registers the
    interrupt wrappers save, with the stack as a list of 32-bit words whose
    head is the word at [%esp].  [SET_IDT_ENTRY] re-points an existing gate
    at a new handler. *)

From S2P Require Import Prelude Paging Fsys State Exceptions FsysImage.

(** ** Packed bit fields

    [pack [(v0, w0); (v1, w1); ...]] is [v0 | v1 << w0 | ...]: the word of a
    packed struct whose fields, in declaration order, hold [v0, v1, ...]. *)
Fixpoint pack (fs : list (Z * Z)) : Z :=
  match fs with
  | [] => 0
  | (v, w) :: fs' => v .| (pack fs' <<< w)
  end.

Fixpoint width (fs : list (Z * Z)) : Z :=
  match fs with
  | [] => 0
  | (_, w) :: fs' => w + width fs'
  end.

(** [(x >> off) & ((1 << w) - 1)]: the [w]-bit field at bit [off]. *)
Definition field (x off w : Z) : Z := (x >>> off) .& Z.ones w.

(** A field value that fits its width. *)
Definition fits (f : Z * Z) : Prop := 0 <= snd f /\ 0 <= fst f < 2 ^ snd f.

#[global] Instance fits_dec f : Decision (fits f).
Proof. unfold fits; apply _. Defined.

(** ** Selectors and sizes of x86_desc.h *)

Definition USER_CS : Z := 0x0023.
Definition USER_DS : Z := 0x002B.
Definition KERNEL_TSS : Z := 0x0030.
Definition KERNEL_LDT : Z := 0x0038.
Definition TSS_SIZE : Z := 104.

Module Gdt.

(** [seg_desc_t]: the fields of the packed struct, in declaration order. *)
Record seg_desc_t := mk_seg {
  seg_lim_15_00 : Z; base_15_00 : Z; base_23_16 : Z;
  type : Z; sys : Z; dpl : Z; present : Z; seg_lim_19_16 : Z;
  avail : Z; reserved : Z; opsize : Z; granularity : Z; base_31_24 : Z }.

(** The fields of [val[0]] and [val[1]] with their widths. *)
Definition seg_fields (d : seg_desc_t) : list (Z * Z) * list (Z * Z) :=
  ([(seg_lim_15_00 d, 16); (base_15_00 d, 16)],
   [(base_23_16 d, 8); (type d, 4); (sys d, 1); (dpl d, 2); (present d, 1);
    (seg_lim_19_16 d, 4); (avail d, 1); (reserved d, 1); (opsize d, 1);
    (granularity d, 1); (base_31_24 d, 8)]).

Definition seg_words (d : seg_desc_t) : Z * Z :=
  (pack (seg_fields d).1, pack (seg_fields d).2).

(** Every field within its width: what the struct can hold. *)
Definition seg_wf (d : seg_desc_t) : Prop :=
  Forall fits (seg_fields d).1 /\ Forall fits (seg_fields d).2.

#[global] Instance seg_wf_dec d : Decision (seg_wf d).
Proof. unfold seg_wf; apply _. Defined.

(** [SET_LDT_PARAMS(str, addr, lim)]: the stores to [base_31_24],
    [base_23_16], [base_15_00], [seg_lim_19_16] and [seg_lim_15_00], each
    truncated to the width of its field; the other fields are kept. *)
Definition SET_LDT_PARAMS (str : seg_desc_t) (addr lim : Z) : seg_desc_t :=
  mk_seg ((lim .& 0x0000FFFF) mod 2 ^ 16)
         ((u32 addr .& 0x0000FFFF) mod 2 ^ 16)
         (((u32 addr .& 0x00FF0000) >>> 16) mod 2 ^ 8)
         (type str) (sys str) (dpl str) (present str)
         (((lim .& 0x000F0000) >>> 16) mod 2 ^ 4)
         (avail str) (reserved str) (opsize str) (granularity str)
         (((u32 addr .& 0xFF000000) >>> 24) mod 2 ^ 8).

(** [SET_TSS_PARAMS(str, addr, lim)]: the same five stores. *)
Definition SET_TSS_PARAMS (str : seg_desc_t) (addr lim : Z) : seg_desc_t :=
  mk_seg ((lim .& 0x0000FFFF) mod 2 ^ 16)
         ((u32 addr .& 0x0000FFFF) mod 2 ^ 16)
         (((u32 addr .& 0x00FF0000) >>> 16) mod 2 ^ 8)
         (type str) (sys str) (dpl str) (present str)
         (((lim .& 0x000F0000) >>> 16) mod 2 ^ 4)
         (avail str) (reserved str) (opsize str) (granularity str)
         (((u32 addr .& 0xFF000000) >>> 24) mod 2 ^ 8).

(** What the processor reads from the two words (Intel SDM, segment
    descriptor): the 32-bit base from bits 16-31 of the low word and bits
    0-7 and 24-31 of the high word, the 20-bit limit from bits 0-15 of the
    low word and 16-19 of the high word, and the access byte (type, S, DPL,
    P) from bits 8-15 of the high word. *)
Definition seg_decode (w : Z * Z) : Z * Z * Z :=
  let (w0, w1) := w in
  (field w0 16 16 .| (field w1 0 8 <<< 16) .| (field w1 24 8 <<< 24),
   field w0 0 16 .| (field w1 16 4 <<< 16),
   field w1 8 8).

(** A present, ring-0, 32-bit available TSS descriptor (type 9) with base
    and limit still zero, for the concrete runs. *)
Definition tss_desc_demo : seg_desc_t := mk_seg 0 0 0 9 0 0 1 0 0 0 0 0 0.

End Gdt.

Module AsmWrapper.

(** The registers [SAVE_REG] saves, and the direction flag [cld] clears. *)
Record regs_t := mk_regs {
  gs : Z; fs : Z; es : Z; ds : Z; eax : Z; ebp : Z; edi : Z; esi : Z;
  edx : Z; ecx : Z; ebx : Z; df : Z }.

(** [SAVE_REG]: [cld], then eleven [pushl]; the last pushed is on top. *)
Definition SAVE_REG (r : regs_t) (stack : list Z) : regs_t * list Z :=
  let r := mk_regs (gs r) (fs r) (es r) (ds r) (eax r) (ebp r) (edi r) (esi r)
                   (edx r) (ecx r) (ebx r) 0 in
  let stack := gs r :: stack in
  let stack := fs r :: stack in
  let stack := es r :: stack in
  let stack := ds r :: stack in
  let stack := eax r :: stack in
  let stack := ebp r :: stack in
  let stack := edi r :: stack in
  let stack := esi r :: stack in
  let stack := edx r :: stack in
  let stack := ecx r :: stack in
  (r, ebx r :: stack).

(** [RESTORE_REG]: eleven [popl] in the reverse order; [None] when the
    stack holds fewer than eleven words. *)
Definition RESTORE_REG (r : regs_t) (stack : list Z) : option (regs_t * list Z) :=
  match stack with
  | b :: c :: d :: si :: di :: bp :: a :: vds :: ves :: vfs :: vgs :: rest =>
      Some (mk_regs vgs vfs ves vds a bp di si d c b (df r), rest)
  | _ => None
  end.

End AsmWrapper.

(** [SET_IDT_ENTRY(str, handler)]: only the two offset fields change. *)
Definition SET_IDT_ENTRY (str : idt_desc_t) (handler : Z) : idt_desc_t :=
  mk_idt (u16 (u32 handler .& 0xFFFF)) (seg_selector str) (reserved4 str)
    (reserved3 str) (reserved2 str) (reserved1 str) (size str) (reserved0 str)
    (dpl str) (present str) (u16 ((u32 handler .& 0xFFFF0000) >>> 16)).

Module Tss.

(** [tss_t]: the packed task-state segment, field by field in
    declaration order (the [_pad] halves included). *)
Record tss_t := mk_tss {
  prev_task_link : Z; prev_task_link_pad : Z;
  esp0 : Z; ss0 : Z; ss0_pad : Z;
  esp1 : Z; ss1 : Z; ss1_pad : Z;
  esp2 : Z; ss2 : Z; ss2_pad : Z;
  cr3 : Z; eip : Z; eflags : Z;
  eax : Z; ecx : Z; edx : Z; ebx : Z; esp : Z; ebp : Z; esi : Z; edi : Z;
  es : Z; es_pad : Z; cs : Z; cs_pad : Z; ss : Z; ss_pad : Z;
  ds : Z; ds_pad : Z; fs : Z; fs_pad : Z; gs : Z; gs_pad : Z;
  ldt_segment_selector : Z; ldt_pad : Z;
  debug_trap : Z; io_pad : Z; io_base_addr : Z }.

(** The fields with their widths in bits. *)
Definition tss_fields (t : tss_t) : list (Z * Z) :=
  [(prev_task_link t, 16); (prev_task_link_pad t, 16);
   (esp0 t, 32); (ss0 t, 16); (ss0_pad t, 16);
   (esp1 t, 32); (ss1 t, 16); (ss1_pad t, 16);
   (esp2 t, 32); (ss2 t, 16); (ss2_pad t, 16);
   (cr3 t, 32); (eip t, 32); (eflags t, 32);
   (eax t, 32); (ecx t, 32); (edx t, 32); (ebx t, 32); (esp t, 32); (ebp t, 32);
   (esi t, 32); (edi t, 32);
   (es t, 16); (es_pad t, 16); (cs t, 16); (cs_pad t, 16); (ss t, 16); (ss_pad t, 16);
   (ds t, 16); (ds_pad t, 16); (fs t, 16); (fs_pad t, 16); (gs t, 16); (gs_pad t, 16);
   (ldt_segment_selector t, 16); (ldt_pad t, 16);
   (debug_trap t, 1); (io_pad t, 15); (io_base_addr t, 16)].

End Tss.

Module DescReg.

(** [x86_desc_t]: the operand of [lidt]; [padding] puts [size] and [addr]
    at offsets 2 and 4, the six bytes [lidt] reads. *)
Record x86_desc_t := mk_x86_desc { padding : Z; size : Z; addr : Z }.

(** A little-endian [uint16_t] read from two bytes. *)
Definition le16 (b : list Z) : Z := nth_byte b 0 + nth_byte b 1 * 2 ^ 8.

(** The struct in memory. *)
Definition x86_desc_bytes (d : x86_desc_t) : list Z :=
  le_split 2 (padding d) ++ le_split 2 (size d) ++ le32_bytes (addr d).

(** The descriptor-table registers the three macros load. *)
Record desc_regs := mk_desc_regs {
  idtr_limit : Z; idtr_base : Z; ldtr : Z; tr : Z }.

(** [lidt(desc)]: [lidt (%0)] loads the IDTR from the six bytes at the
    operand address: a 16-bit limit, then a 32-bit base. *)
Definition lidt (mem : list Z) (desc : nat) (r : desc_regs) : desc_regs :=
  mk_desc_regs (le16 (drop desc mem)) (le32 (drop (desc + 2) mem)) (ldtr r) (tr r).

(** [ltr(desc)]: [ltr %w0], the 16-bit selector of the TSS entry. *)
Definition ltr (desc : Z) (r : desc_regs) : desc_regs :=
  mk_desc_regs (idtr_limit r) (idtr_base r) (ldtr r) (u16 desc).

(** [lldt(desc)]: [lldt %%ax] with [desc] in [%eax]: the low 16 bits. *)
Definition lldt (desc : Z) (r : desc_regs) : desc_regs :=
  mk_desc_regs (idtr_limit r) (idtr_base r) (u16 desc) (tr r).

End DescReg.

(** ** Packed fields *)

Lemma width_nonneg fs : Forall fits fs -> 0 <= width fs.
Proof. induction 1 as [|[v w] fs [Hw Hv] _ IH]; simpl in *; lia. Qed.

Lemma pack_range fs : Forall fits fs -> 0 <= pack fs < 2 ^ width fs.
Proof.
  induction 1 as [|[v w] fs [Hw Hv] Hall IH]; simpl in *; [lia|].
  pose proof (width_nonneg fs Hall).
  rewrite lor_shiftl_add, Z.pow_add_r by lia. nia.
Qed.

Lemma pack_app l1 l2 :
  Forall fits l1 -> Forall fits l2 -> pack (l1 ++ l2) = pack l1 + pack l2 * 2 ^ width l1.
Proof.
  intros H1 H2; induction H1 as [|[v w] l1 [Hw Hv] Hall IH]; simpl in *; [lia|].
  pose proof (width_nonneg l1 Hall); pose proof (pack_range l1 Hall).
  pose proof (pack_range (l1 ++ l2) ltac:(by apply Forall_app)).
  rewrite !lor_shiftl_add, IH, Z.pow_add_r by lia. ring.
Qed.

(** The bits of a slice of fields read back as the slice. *)
Lemma field_pack_slice fs k m :
  Forall fits fs ->
  field (pack fs) (width (take k fs)) (width (take m (drop k fs))) = pack (take m (drop k fs)).
Proof.
  intros H.
  assert (Ht : forall n l, Forall fits l -> Forall fits (take n l) /\ Forall fits (drop n l))
    by (intros; split; [apply Forall_take | apply Forall_drop]; done).
  destruct (Ht k fs H) as [Hk Hd]; destruct (Ht m _ Hd) as [Hm Hmd].
  pose proof (width_nonneg _ Hk); pose proof (width_nonneg _ Hm).
  pose proof (pack_range _ Hk); pose proof (pack_range _ Hm); pose proof (pack_range _ Hmd).
  unfold field; rewrite <- (take_drop k fs) at 1; rewrite pack_app by done.
  rewrite Z.shiftr_div_pow2, Z.div_add, Z.div_small, Z.add_0_l by lia.
  rewrite <- (take_drop m (drop k fs)) at 1; rewrite pack_app by done.
  rewrite Z.land_ones, Z.mod_add, Z.mod_small by (try apply Z.pow_nonzero; lia). done.
Qed.

(** A masked and shifted word is the field it selects. *)
Lemma mask_shift x off w c :
  c = Z.ones w <<< off -> 0 <= off -> 0 <= w -> (x .& c) >>> off = (x / 2 ^ off) mod 2 ^ w.
Proof.
  intros -> Hoff Hw; apply Z.bits_inj'; intros n Hn.
  rewrite Z.shiftr_spec, Z.land_spec, Z.shiftl_spec, Z.add_simpl_r, Z.testbit_ones_nonneg by lia.
  destruct (Z.ltb_spec n w).
  - rewrite Z.mod_pow2_bits_low, Z.div_pow2_bits by lia; apply andb_true_r.
  - rewrite Z.mod_pow2_bits_high by lia; apply andb_false_r.
Qed.

Lemma field_slice_eq fs k m off w :
  Forall fits fs -> off = width (take k fs) -> w = width (take m (drop k fs)) ->
  field (pack fs) off w = pack (take m (drop k fs)).
Proof. intros H -> ->; by apply field_pack_slice. Qed.

Lemma fits_mod v w : 0 <= w -> fits (v mod 2 ^ w, w).
Proof. intros; unfold fits; cbn; split; [done | apply Z.mod_pos_bound, Z.pow_pos_nonneg; lia]. Qed.

Ltac fits_all := repeat (apply Forall_cons; split); [..|apply Forall_nil; done].

(** The stores of [SET_TSS_PARAMS] as arithmetic on the address and limit. *)
Lemma SET_TSS_PARAMS_eq d addr lim :
  Gdt.SET_TSS_PARAMS d addr lim =
  Gdt.mk_seg (lim mod 2 ^ 16) (u32 addr mod 2 ^ 16) ((u32 addr / 2 ^ 16) mod 2 ^ 8)
    (Gdt.type d) (Gdt.sys d) (Gdt.dpl d) (Gdt.present d) ((lim / 2 ^ 16) mod 2 ^ 4)
    (Gdt.avail d) (Gdt.reserved d) (Gdt.opsize d) (Gdt.granularity d) ((u32 addr / 2 ^ 24) mod 2 ^ 8).
Proof.
  unfold Gdt.SET_TSS_PARAMS.
  rewrite (land_ones_const lim 0x0000FFFF 16), (land_ones_const (u32 addr) 0x0000FFFF 16),
    (mask_shift (u32 addr) 16 8 0x00FF0000), (mask_shift lim 16 4 0x000F0000),
    (mask_shift (u32 addr) 24 8 0xFF000000), !Z.mod_mod by (reflexivity || lia).
  done.
Qed.

Lemma SET_TSS_PARAMS_wf_lemma d addr lim : Gdt.seg_wf d -> Gdt.seg_wf (Gdt.SET_TSS_PARAMS d addr lim).
Proof.
  intros [H0 H1]; rewrite SET_TSS_PARAMS_eq; unfold Gdt.seg_wf, Gdt.seg_fields in *; cbn in *.
  rewrite !Forall_cons in H1; destruct H1 as (_ & Ht & Hs & Hd & Hp & _ & Ha & Hr & Ho & Hg & _).
  split; fits_all; auto; apply fits_mod; lia.
Qed.

(** The processor's view of any well-formed descriptor, field by field. *)
Lemma seg_decode_words e :
  Gdt.seg_wf e ->
  Gdt.seg_decode (Gdt.seg_words e) =
  (Gdt.base_15_00 e .| (Gdt.base_23_16 e <<< 16) .| (Gdt.base_31_24 e <<< 24),
   Gdt.seg_lim_15_00 e .| (Gdt.seg_lim_19_16 e <<< 16),
   pack [(Gdt.type e, 4); (Gdt.sys e, 1); (Gdt.dpl e, 2); (Gdt.present e, 1)]).
Proof.
  intros [H0 H1]; unfold Gdt.seg_decode, Gdt.seg_words, Gdt.seg_fields in *; cbn [fst snd] in *.
  rewrite (field_slice_eq _ 1 1 16 16), (field_slice_eq _ 0 1 0 8), (field_slice_eq _ 10 1 24 8),
    (field_slice_eq _ 0 1 0 16), (field_slice_eq _ 5 1 16 4), (field_slice_eq _ 1 4 8 8)
    by (done || reflexivity).
  cbn [take drop pack]; rewrite !Z.shiftl_0_l, !Z.lor_0_r; done.
Qed.

Lemma SET_LDT_PARAMS_TSS d addr lim : Gdt.SET_LDT_PARAMS d addr lim = Gdt.SET_TSS_PARAMS d addr lim.
Proof. reflexivity. Qed.

Lemma seg_words_u32 e : Gdt.seg_wf e -> in_u32 (Gdt.seg_words e).1 /\ in_u32 (Gdt.seg_words e).2.
Proof.
  intros [H0 H1]; unfold in_u32; split; [apply (pack_range _ H0) | apply (pack_range _ H1)].
Qed.

(** [SET_IDT_ENTRY] on a gate built by the gate macros: the gate of the new handler. *)
Lemma SET_IDT_ENTRY_set_gate g h0 h seg priv pres :
  SET_IDT_ENTRY (set_gate g h0 seg priv pres) h = set_gate g h seg priv pres.
Proof. by destruct g. Qed.

(** C18. The processor reads back what [SET_TSS_PARAMS] (and
    [SET_LDT_PARAMS]) stored: from the two words of a descriptor whose
    fields fit, the base is the address as a [uint32_t], the limit is the
    low 20 bits of [lim] (two's complement for a negative [lim]), and the
    access byte is still the one packed from the descriptor's type, S, DPL
    and P fields. *)
Theorem SET_TSS_PARAMS_roundtrip d addr lim :
  Gdt.seg_wf d ->
  Gdt.seg_decode (Gdt.seg_words (Gdt.SET_TSS_PARAMS d addr lim)) =
    (u32 addr, lim mod 2 ^ 20, pack [(Gdt.type d, 4); (Gdt.sys d, 1); (Gdt.dpl d, 2); (Gdt.present d, 1)]) /\
  Gdt.seg_decode (Gdt.seg_words (Gdt.SET_LDT_PARAMS d addr lim)) =
    Gdt.seg_decode (Gdt.seg_words (Gdt.SET_TSS_PARAMS d addr lim)).
Proof.
  intros H; split; [|reflexivity].
  rewrite seg_decode_words by (by apply SET_TSS_PARAMS_wf_lemma).
  rewrite SET_TSS_PARAMS_eq; cbn [Gdt.base_15_00 Gdt.base_23_16 Gdt.base_31_24 Gdt.seg_lim_15_00
    Gdt.seg_lim_19_16 Gdt.type Gdt.sys Gdt.dpl Gdt.present].
  pose proof (u32_range addr) as Ha; unfold in_u32 in Ha.
  assert (0 <= lim mod 2 ^ 16 < 2 ^ 16) by (apply Z.mod_pos_bound; lia).
  assert (0 <= u32 addr mod 2 ^ 16 < 2 ^ 16) by (apply Z.mod_pos_bound; lia).
  assert (0 <= (u32 addr / 2 ^ 16) mod 2 ^ 8 < 2 ^ 8) by (apply Z.mod_pos_bound; lia).
  assert (0 <= (u32 addr / 2 ^ 24) mod 2 ^ 8 < 2 ^ 8) by (apply Z.mod_pos_bound; lia).
  assert (0 <= (lim / 2 ^ 16) mod 2 ^ 4 < 2 ^ 4) by (apply Z.mod_pos_bound; lia).
  rewrite !(lor_shiftl_add _ _ 16) by lia; rewrite (lor_shiftl_add _ _ 24) by lia.
  f_equal; f_equal; change (2 ^ 4) with 16 in *; change (2 ^ 8) with 256 in *;
    change (2 ^ 16) with 65536 in *; change (2 ^ 20) with 1048576; change (2 ^ 24) with 16777216 in *;
    change (2 ^ 32) with 4294967296 in *; Z.div_mod_to_equations; lia.
Qed.

Lemma SET_TSS_PARAMS_roundtrip_witness :
  Gdt.seg_wf Gdt.tss_desc_demo /\
  Gdt.seg_decode (Gdt.seg_words (Gdt.SET_TSS_PARAMS Gdt.tss_desc_demo 0x800000 103)) =
    (0x800000, 103, pack [(9, 4); (0, 1); (0, 2); (1, 1)]) /\
  Gdt.seg_decode (Gdt.seg_words (Gdt.SET_LDT_PARAMS Gdt.tss_desc_demo 0x800000 103)) =
    Gdt.seg_decode (Gdt.seg_words (Gdt.SET_TSS_PARAMS Gdt.tss_desc_demo 0x800000 103)).
Proof.
  assert (H : Gdt.seg_wf Gdt.tss_desc_demo)
    by (apply (@bool_decide_eq_true_1 (Gdt.seg_wf Gdt.tss_desc_demo) _); vm_compute; reflexivity).
  split; [exact H | apply (SET_TSS_PARAMS_roundtrip _ 0x800000 103 H)].
Defined.

(** C20. [RESTORE_REG] undoes [SAVE_REG]: after the eleven pushes the three
    words at [%esp] are [%ebx], [%ecx] and [%edx] (the system-call
    arguments, in order), and the eleven pops give back every saved
    register and the caller's stack; only the direction flag stays
    cleared by [cld]. *)
Theorem SAVE_RESTORE_REG r stack :
  let '(r1, stack1) := AsmWrapper.SAVE_REG r stack in
  take 3 stack1 = [AsmWrapper.ebx r; AsmWrapper.ecx r; AsmWrapper.edx r] /\
  length stack1 = (11 + length stack)%nat /\
  AsmWrapper.RESTORE_REG r1 stack1 =
    Some (AsmWrapper.mk_regs (AsmWrapper.gs r) (AsmWrapper.fs r) (AsmWrapper.es r) (AsmWrapper.ds r)
            (AsmWrapper.eax r) (AsmWrapper.ebp r) (AsmWrapper.edi r) (AsmWrapper.esi r)
            (AsmWrapper.edx r) (AsmWrapper.ecx r) (AsmWrapper.ebx r) 0, stack).
Proof. destruct r; cbn; auto. Qed.

(** [SET_IDT_ENTRY] re-points a gate: applied to a trap or interrupt
    gate built by the gate macros, the processor then reads the new
    handler's address from the two words, with the selector, gate type,
    DPL and present bit the gate had. *)
Theorem SET_IDT_ENTRY_repoints g h0 h seg priv pres :
  in_u32 h ->
  idt_decode (idt_words (SET_IDT_ENTRY (set_gate g h0 seg priv pres) h)) =
    (h, u16 seg, match g with TrapGate => 0x0F | IntGate => 0x0E end, priv mod 4, pres mod 2).
Proof.
  intros Hh; rewrite SET_IDT_ENTRY_set_gate.
  destruct g; [apply (set_idt_entry_decode 1) | apply (set_idt_entry_decode 0)]; auto.
Qed.

Lemma SET_IDT_ENTRY_repoints_witness :
  in_u32 0x00400123 /\
  idt_decode (idt_words (SET_IDT_ENTRY (set_gate TrapGate 0 KERNEL_CS DPL_PRIVILEGED 1) 0x00400123)) =
    (0x00400123, KERNEL_CS, 0x0F, 0, 1).
Proof.
  split; [unfold in_u32; lia|].
  apply (SET_IDT_ENTRY_repoints TrapGate 0 0x00400123 KERNEL_CS DPL_PRIVILEGED 1); unfold in_u32; lia.
Defined.

(** ** The TSS and the descriptor registers *)

(** The packed [tss_t] is exactly [TSS_SIZE] bytes. *)
Lemma tss_width t : width (Tss.tss_fields t) = TSS_SIZE * 8.
Proof. reflexivity. Qed.

(** The two fields the kernel writes, [tss.ss0 = KERNEL_DS] and
    [tss.esp0 = USER_MEM_BASE_ADDR - pid * _8KB], fit their widths for
    every pid. *)
Lemma tss_kernel_stores_fit pid :
  (pid < MAX_PROCESSES)%nat -> fits (KERNEL_DS, 16) /\ fits (kernel_stack_top pid, 32).
Proof.
  unfold fits, kernel_stack_top, KERNEL_DS, USER_MEM_BASE_ADDR, _8KB, MAX_PROCESSES; cbn; lia.
Qed.

Lemma le16_le_split z rest : 0 <= z < 2 ^ 16 -> DescReg.le16 (le_split 2 z ++ rest) = z.
Proof.
  unfold DescReg.le16, nth_byte; intros Hz; cbn.
  change (2 ^ 8) with 256 in *; change (2 ^ 16) with 65536 in Hz. Z.div_mod_to_equations; lia.
Qed.


